(** * download_discord_media: a shallow embedding and its verified properties

    The script scans the text channels of one guild over a date window,
    keeps the image and video attachments, stores each one under a name
    derived from a SHA-256 digest and records it in an SQLite manifest.

    Conventions of the embedding.
    - A Python [str] is a [string] with one [ascii] per code point: the
      texts of the embedding are the texts whose code points are all below
      256 (ASCII and the Latin-1 supplement).  A [string] is not a UTF-8
      byte sequence: a text with a code point from U+0100 on (the digits of
      another script, say) has no counterpart here, and no statement of this
      file speaks about it.  On the texts it has, the embedding follows
      Python: below 256 the only decimal digits are [0] to [9], [lower] maps
      [A]-[Z] and the capitals of the Latin-1 supplement, and the blanks
      [int] skips are the six ASCII ones, U+0085 and U+00A0.
    - A Python [int] is a [Z]; [str(n)] is its decimal text.
    - An aware UTC [datetime] is a record of its seven fields; [timedelta]
      arithmetic goes through proleptic Gregorian ordinals as CPython's
      [datetime] module does, [OverflowError] included.
    - [datetime.strptime] is the matcher CPython builds for the format
      ["%Y-%m-%d"], with the order in which a backtracking engine tries the
      alternatives.
    - [pathlib.Path] follows the POSIX flavour ([/] is the only separator),
      with [suffix] as in Python 3.11 to 3.13.
    - [hashlib.sha256] is SHA-256 as FIPS 180-4 defines it, on [Z] words.
    - The manifest table is a list of rows with [INSERT OR IGNORE]; the
      disk is a finite map from path strings to file contents, directories
      being implicit.  Two failures of the file system can be told from such
      a map and are modelled: [mkdir] on a path that is a regular file
      raises [FileExistsError], and [exists] on a file name longer than
      [NAME_MAX] bytes (255, as on Linux) raises [OSError].
    - The message source is data (guilds, channels, messages, attachments)
      plus, for one run, the outcome of each download and the fault, if any,
      that interrupts the history of each channel.  [channel.history] returns
      the messages strictly between its two bounds.
    - Console output and the calls made to the remote side are kept as a
      list of events in the driver state.
    - The command-line parser is glue around the pipeline and is not
      modelled: [run] takes the two date arguments and the guild id, and
      [run_from_env] adds the environment checks (the token and GUILD_ID),
      with [int] under the default limit of 4300 digits. *)

From Stdlib Require Import ZArith Lia List Bool Ascii String.
From Stdlib Require Import Numbers.DecimalString Numbers.DecimalZ Numbers.DecimalPos.
From stdpp Require Import gmap strings.

Local Open Scope string_scope.
Local Open Scope Z_scope.

(** ** Python string primitives *)

Module PyStr.

(** The capitals below 256: [A]-[Z], and U+00C0 to U+00DE without the
    multiplication sign U+00D7. *)
Definition is_upper (c : ascii) : bool :=
  let n := nat_of_ascii c in
  ((Nat.leb 65 n && Nat.leb n 90)
   || (Nat.leb 192 n && Nat.leb n 222 && negb (Nat.eqb n 215)))%bool.

(** [c.lower()] on one character: each capital has its small letter 32
    code points further. *)
Definition lower_char (c : ascii) : ascii :=
  if is_upper c then ascii_of_nat (nat_of_ascii c + 32) else c.

(** [s.lower()]. *)
Fixpoint lower (s : string) : string :=
  match s with
  | EmptyString => EmptyString
  | String c r => String (lower_char c) (lower r)
  end.

(** [s.startswith(p)]. *)
Fixpoint startswith (p s : string) : bool :=
  match p, s with
  | EmptyString, _ => true
  | String _ _, EmptyString => false
  | String a p', String b s' => if Ascii.eqb a b then startswith p' s' else false
  end.

(** [s.endswith(p)] for a one-character [p]. *)
Fixpoint ends_with_char (c : ascii) (s : string) : bool :=
  match s with
  | EmptyString => false
  | String a EmptyString => Ascii.eqb a c
  | String _ r => ends_with_char c r
  end.

(** [c in s]. *)
Fixpoint contains_char (c : ascii) (s : string) : bool :=
  match s with
  | EmptyString => false
  | String a r => if Ascii.eqb a c then true else contains_char c r
  end.

(** [s[:n]]. *)
Fixpoint take (n : nat) (s : string) : string :=
  match n, s with
  | O, _ => EmptyString
  | _, EmptyString => EmptyString
  | S k, String c r => String c (take k r)
  end.

(** [s[n:]]. *)
Fixpoint drop (n : nat) (s : string) : string :=
  match n, s with
  | O, _ => s
  | _, EmptyString => EmptyString
  | S k, String _ r => drop k r
  end.

(** [s.split(c)]: the pieces between the occurrences of [c]; never empty. *)
Fixpoint split (c : ascii) (s : string) : list string :=
  match s with
  | EmptyString => [EmptyString]
  | String a r =>
      if Ascii.eqb a c then EmptyString :: split c r
      else match split c r with
           | h :: t => String a h :: t
           | [] => [String a EmptyString]
           end
  end.

(** [s.rfind(c)]: the index of the last occurrence of [c], or [-1]. *)
Fixpoint rfind (c : ascii) (s : string) : Z :=
  match s with
  | EmptyString => -1
  | String a r =>
      let i := rfind c r in
      if 0 <=? i then i + 1
      else if Ascii.eqb a c then 0 else -1
  end.

(** [sep.join(l)]. *)
Fixpoint join (sep : string) (l : list string) : string :=
  match l with
  | [] => EmptyString
  | [x] => x
  | x :: r => x +:+ sep +:+ join sep r
  end.

Definition len (s : string) : Z := Z.of_nat (String.length s).

(** [str(n)] for an [int]. *)
Definition of_int (n : Z) : string := NilZero.string_of_int (Z.to_int n).

(** The characters of [s] all satisfy [p]. *)
Fixpoint all (p : ascii -> bool) (s : string) : bool :=
  match s with
  | EmptyString => true
  | String c r => p c && all p r
  end.

(** The decimal digits below 256: [0] to [9]. *)
Definition is_digit (c : ascii) : bool :=
  let n := nat_of_ascii c in (Nat.leb 48 n && Nat.leb n 57)%bool.

Definition is_lower_hex (c : ascii) : bool :=
  let n := nat_of_ascii c in
  (is_digit c || (Nat.leb 97 n && Nat.leb n 102))%bool.

(** [len(s.encode("utf-8"))]: a code point below 128 takes one byte, the
    others below 256 take two. *)
Fixpoint utf8_len (s : string) : Z :=
  match s with
  | EmptyString => 0
  | String c r => (if Nat.ltb (nat_of_ascii c) 128 then 1 else 2) + utf8_len r
  end.

End PyStr.

(** ** SHA-256 (FIPS 180-4), as [hashlib.sha256(...).hexdigest()] computes it *)

Module Sha256.

Definition mask32 : Z := 0xffffffff.

(** Addition of 32-bit words wraps around. *)
Definition add32 (x y : Z) : Z := Z.land (x + y) mask32.

Definition rotr (n x : Z) : Z :=
  Z.lor (Z.shiftr x n) (Z.land (Z.shiftl x (32 - n)) mask32).

Definition ch (x y z : Z) : Z :=
  Z.lxor (Z.land x y) (Z.land (Z.lxor x mask32) z).
Definition maj (x y z : Z) : Z :=
  Z.lxor (Z.lxor (Z.land x y) (Z.land x z)) (Z.land y z).
Definition bsig0 (x : Z) : Z := Z.lxor (Z.lxor (rotr 2 x) (rotr 13 x)) (rotr 22 x).
Definition bsig1 (x : Z) : Z := Z.lxor (Z.lxor (rotr 6 x) (rotr 11 x)) (rotr 25 x).
Definition ssig0 (x : Z) : Z := Z.lxor (Z.lxor (rotr 7 x) (rotr 18 x)) (Z.shiftr x 3).
Definition ssig1 (x : Z) : Z := Z.lxor (Z.lxor (rotr 17 x) (rotr 19 x)) (Z.shiftr x 10).

(** The primes below [n], by trial division. *)
Definition is_prime (p : Z) : bool :=
  (1 <? p) && forallb (fun d => negb (p mod d =? 0))
                      (List.filter (fun d => d * d <=? p) (map Z.of_nat (seq 2 (Z.to_nat p - 2)))).

Definition primes_below (n : nat) : list Z :=
  List.filter is_prime (map Z.of_nat (seq 0 n)).

(** The integer cube root of [n], found bit by bit from bit [bits - 1] down. *)
Fixpoint cube_root_bits (bits : nat) (n r : Z) : Z :=
  match bits with
  | O => r
  | S k =>
      let c := r + Z.shiftl 1 (Z.of_nat k) in
      if c * c * c <=? n then cube_root_bits k n c else cube_root_bits k n r
  end.

(** The first 32 bits of the fractional part of the cube root, and of the
    square root, of [p]. *)
Definition frac_cbrt32 (p : Z) : Z := Z.land (cube_root_bits 36 (Z.shiftl p 96) 0) mask32.
Definition frac_sqrt32 (p : Z) : Z := Z.land (Z.sqrt (Z.shiftl p 64)) mask32.

(** The sixty-four round constants come from the cube roots of the first
    sixty-four primes. *)
Definition round_constants : list Z :=
  Eval vm_compute in map frac_cbrt32 (primes_below 312).

(** The eight working words. *)
Record words8 := W8 { wa : Z; wb : Z; wc : Z; wd : Z; we : Z; wf : Z; wg : Z; wh : Z }.

(** The initial hash value comes from the square roots of the first eight
    primes. *)
Definition initial_hash : words8 :=
  Eval vm_compute in
    W8 (frac_sqrt32 2) (frac_sqrt32 3) (frac_sqrt32 5) (frac_sqrt32 7)
       (frac_sqrt32 11) (frac_sqrt32 13) (frac_sqrt32 17) (frac_sqrt32 19).

(** The message bytes of a string, [s.encode("utf-8")]: one byte for a code
    point below 128, two for the others below 256. *)
Fixpoint bytes_of_string (s : string) : list Z :=
  match s with
  | EmptyString => []
  | String c r =>
      let n := Z.of_nat (nat_of_ascii c) in
      if n <? 128 then n :: bytes_of_string r
      else Z.lor 0xC0 (Z.shiftr n 6) :: Z.lor 0x80 (Z.land n 0x3F) :: bytes_of_string r
  end.

(** Big-endian bytes of [x], [n] of them. *)
Fixpoint be_bytes (n : nat) (x : Z) : list Z :=
  match n with
  | O => []
  | S k => Z.land (Z.shiftr x (8 * Z.of_nat k)) 0xff :: be_bytes k x
  end.

(** Padding: a [0x80] byte, zeros up to 56 modulo 64, the bit length on
    eight bytes. *)
Definition pad (msg : list Z) : list Z :=
  let l := Z.of_nat (List.length msg) in
  let zeros := Z.to_nat ((55 - l) mod 64) in
  msg ++ [0x80] ++ repeat 0 zeros ++ be_bytes 8 (8 * l).

(** Big-endian words of a byte list, four bytes each. *)
Fixpoint words_of_bytes (fuel : nat) (bs : list Z) : list Z :=
  match fuel, bs with
  | S k, b0 :: b1 :: b2 :: b3 :: r =>
      Z.lor (Z.shiftl b0 24) (Z.lor (Z.shiftl b1 16) (Z.lor (Z.shiftl b2 8) b3))
      :: words_of_bytes k r
  | _, _ => []
  end.

(** The blocks of sixteen words. *)
Fixpoint blocks (fuel : nat) (ws : list Z) : list (list Z) :=
  match fuel, ws with
  | S k, _ :: _ => firstn 16 ws :: blocks k (skipn 16 ws)
  | _, _ => []
  end.

(** Message schedule: [n] further words after the window [w] of the last
    sixteen (oldest first). *)
Fixpoint schedule_from (n : nat) (w : list Z) : list Z :=
  match n with
  | O => []
  | S k =>
      let x := add32 (add32 (add32 (ssig1 (nth 14 w 0)) (nth 9 w 0))
                            (ssig0 (nth 1 w 0))) (nth 0 w 0) in
      x :: schedule_from k (skipn 1 w ++ [x])
  end.

Definition schedule (block : list Z) : list Z := block ++ schedule_from 48 block.

Definition round (s : words8) (kw : Z * Z) : words8 :=
  let '(k, w) := kw in
  let t1 := add32 (add32 (add32 (add32 (wh s) (bsig1 (we s))) (ch (we s) (wf s) (wg s))) k) w in
  let t2 := add32 (bsig0 (wa s)) (maj (wa s) (wb s) (wc s)) in
  W8 (add32 t1 t2) (wa s) (wb s) (wc s) (add32 (wd s) t1) (we s) (wf s) (wg s).

Definition compress (h : words8) (block : list Z) : words8 :=
  let s := fold_left round (combine round_constants (schedule block)) h in
  W8 (add32 (wa h) (wa s)) (add32 (wb h) (wb s)) (add32 (wc h) (wc s))
     (add32 (wd h) (wd s)) (add32 (we h) (we s)) (add32 (wf h) (wf s))
     (add32 (wg h) (wg s)) (add32 (wh h) (wh s)).

Definition digest_words (msg : list Z) : words8 :=
  let p := pad msg in
  let ws := words_of_bytes (List.length p) p in
  fold_left compress (blocks (List.length ws) ws) initial_hash.

Definition hex_digit (n : Z) : ascii :=
  match n with
  | 0 => "0" | 1 => "1" | 2 => "2" | 3 => "3" | 4 => "4" | 5 => "5"
  | 6 => "6" | 7 => "7" | 8 => "8" | 9 => "9" | 10 => "a" | 11 => "b"
  | 12 => "c" | 13 => "d" | 14 => "e" | _ => "f"
  end%char.

(** The [n] low hexadecimal digits of [x], most significant first. *)
Fixpoint hex_of (n : nat) (x : Z) : string :=
  match n with
  | O => EmptyString
  | S k => String (hex_digit (Z.land (Z.shiftr x (4 * Z.of_nat k)) 0xf)) (hex_of k x)
  end.

Definition hex_of_words (h : words8) : string :=
  hex_of 8 (wa h) +:+ hex_of 8 (wb h) +:+ hex_of 8 (wc h) +:+ hex_of 8 (wd h) +:+
  hex_of 8 (we h) +:+ hex_of 8 (wf h) +:+ hex_of 8 (wg h) +:+ hex_of 8 (wh h).

(** [hashlib.sha256(s.encode("utf-8")).hexdigest()]. *)
Definition hexdigest (s : string) : string :=
  hex_of_words (digest_words (bytes_of_string s)).

End Sha256.

(** ** Exceptions and results *)

Inductive exn :=
| SystemExit (msg : string)
| ValueError (msg : string)
| OverflowError (msg : string)
| IntegrityError (msg : string)
| OSError (msg : string)
| FileExistsError (msg : string).

Inductive result (A : Type) :=
| Ok (a : A)
| Raise (e : exn).
Arguments Ok {A} a.
Arguments Raise {A} e.

(** Sequencing stops at the first exception raised. *)
#[global] Instance result_bind : MBind result :=
  fun A B (k : A -> result B) (r : result A) =>
    match r with
    | Ok a => k a
    | Raise e => Raise e
    end.

#[global] Instance result_ret : MRet result := fun A a => Ok a.

(** ** [pathlib.PurePosixPath] *)

Module PyPath.

Record path := Path { root : string; tail : list string }.

(** [posixpath.splitroot]: the root ([""], ["/"] or ["//"]) and the rest. *)
Definition splitroot (p : string) : string * string :=
  if negb (String.eqb (PyStr.take 1 p) "/") then ("", p)
  else if (negb (String.eqb (PyStr.take 1 (PyStr.drop 1 p)) "/")
           || String.eqb (PyStr.take 1 (PyStr.drop 2 p)) "/")%bool
       then ("/", PyStr.drop 1 p)
       else (PyStr.take 2 p, PyStr.drop 2 p).

Definition keep_part (x : string) : bool :=
  (negb (String.eqb x "") && negb (String.eqb x "."))%bool.

(** [Path(s)]: empty and ["."] components are dropped. *)
Definition parse (s : string) : path :=
  let '(r, rel) := splitroot s in
  Path r (List.filter keep_part (PyStr.split "/" rel)).

(** [p.name]: the final component, if any. *)
Definition name (p : path) : string := List.last (tail p) "".

(** [p.suffix]: the final component's last suffix, with its dot. *)
Definition suffix (p : path) : string :=
  let n := name p in
  let i := PyStr.rfind "." n in
  if ((0 <? i) && (i <? PyStr.len n - 1))%bool then PyStr.drop (Z.to_nat i) n else "".

(** [str(p)]. *)
Definition to_string (p : path) : string :=
  let s := root p +:+ PyStr.join "/" (tail p) in
  if String.eqb s "" then "." else s.

(** [posixpath.join(a, b)]. *)
Definition posix_join (a b : string) : string :=
  if PyStr.startswith "/" b then b
  else if (String.eqb a "" || PyStr.ends_with_char "/" a)%bool then a +:+ b
  else a +:+ "/" +:+ b.

(** [p / key]. *)
Definition div (p : path) (key : string) : path :=
  parse (posix_join (root p +:+ PyStr.join "/" (tail p)) key).

End PyPath.

(** ** [datetime]: aware UTC datetimes and timedeltas *)

Module PyDatetime.

Record datetime := Datetime {
  year : Z; month : Z; day : Z;
  hour : Z; minute : Z; second : Z; microsecond : Z }.

Record timedelta := Timedelta { td_days : Z; td_seconds : Z; td_microseconds : Z }.

Definition MINYEAR : Z := 1.
Definition MAXYEAR : Z := 9999.
Definition MAXORDINAL : Z := 3652059.

Definition is_leap (y : Z) : bool :=
  ((y mod 4 =? 0) && (negb (y mod 100 =? 0) || (y mod 400 =? 0)))%bool.

Definition days_before_year (y : Z) : Z :=
  let y := y - 1 in y * 365 + y / 4 - y / 100 + y / 400.

Definition DAYS_IN_MONTH (m : Z) : Z :=
  match m with
  | 1 => 31 | 2 => 28 | 3 => 31 | 4 => 30 | 5 => 31 | 6 => 30
  | 7 => 31 | 8 => 31 | 9 => 30 | 10 => 31 | 11 => 30 | 12 => 31
  | _ => -1
  end.

Definition DAYS_BEFORE_MONTH (m : Z) : Z :=
  match m with
  | 1 => 0 | 2 => 31 | 3 => 59 | 4 => 90 | 5 => 120 | 6 => 151
  | 7 => 181 | 8 => 212 | 9 => 243 | 10 => 273 | 11 => 304 | 12 => 334
  | _ => -1
  end.

Definition days_in_month (y m : Z) : Z :=
  if ((m =? 2) && is_leap y)%bool then 29 else DAYS_IN_MONTH m.

Definition days_before_month (y m : Z) : Z :=
  DAYS_BEFORE_MONTH m + (if ((2 <? m) && is_leap y)%bool then 1 else 0).

Definition ymd2ord (y m d : Z) : Z :=
  days_before_year y + days_before_month y m + d.

Definition DI400Y : Z := 146097.
Definition DI100Y : Z := 36524.
Definition DI4Y : Z := 1461.

Definition ord2ymd (n : Z) : Z * Z * Z :=
  let n := n - 1 in
  let n400 := n / DI400Y in let n := n mod DI400Y in
  let y := n400 * 400 + 1 in
  let n100 := n / DI100Y in let n := n mod DI100Y in
  let n4 := n / DI4Y in let n := n mod DI4Y in
  let n1 := n / 365 in let n := n mod 365 in
  let y := y + n100 * 100 + n4 * 4 + n1 in
  if ((n1 =? 4) || (n100 =? 4))%bool then (y - 1, 12, 31)
  else
    let leapyear := ((n1 =? 3) && (negb (n4 =? 24) || (n100 =? 3)))%bool in
    let m := Z.shiftr (n + 50) 5 in
    let preceding := DAYS_BEFORE_MONTH m + (if ((2 <? m) && leapyear)%bool then 1 else 0) in
    if n <? preceding then
      let m := m - 1 in
      let preceding :=
        preceding - (DAYS_IN_MONTH m + (if ((m =? 2) && leapyear)%bool then 1 else 0)) in
      (y, m, n - preceding + 1)
    else (y, m, n - preceding + 1).

(** The range checks of the [date] and [time] constructors. *)
Definition check_date_fields (y m d : Z) : bool :=
  ((MINYEAR <=? y) && (y <=? MAXYEAR) && (1 <=? m) && (m <=? 12)
   && (1 <=? d) && (d <=? days_in_month y m))%bool.

Definition check_time_fields (h mi s us : Z) : bool :=
  ((0 <=? h) && (h <=? 23) && (0 <=? mi) && (mi <=? 59)
   && (0 <=? s) && (s <=? 59) && (0 <=? us) && (us <=? 999999))%bool.

Definition valid (d : datetime) : bool :=
  (check_date_fields (year d) (month d) (day d)
   && check_time_fields (hour d) (minute d) (second d) (microsecond d))%bool.

Definition toordinal (d : datetime) : Z := ymd2ord (year d) (month d) (day d).

(** [timedelta(days, hours=, minutes=, seconds=, microseconds=)] on
    integers, normalised to [0 <= seconds < 86400] and
    [0 <= microseconds < 1000000]. *)
Definition mk_timedelta (days hours minutes seconds microseconds : Z) : timedelta :=
  let s := hours * 3600 + minutes * 60 + seconds + microseconds / 1000000 in
  let us := microseconds mod 1000000 in
  Timedelta (days + s / 86400) (s mod 86400) us.

Definition td_neg (t : timedelta) : timedelta :=
  mk_timedelta (- td_days t) 0 0 (- td_seconds t) (- td_microseconds t).

Definition td_add (a b : timedelta) : timedelta :=
  mk_timedelta (td_days a + td_days b) 0 0
               (td_seconds a + td_seconds b) (td_microseconds a + td_microseconds b).

(** [datetime.__add__]. *)
Definition add (d : datetime) (t : timedelta) : result datetime :=
  let delta :=
    td_add (mk_timedelta (toordinal d) (hour d) (minute d) (second d) (microsecond d)) t in
  let h := td_seconds delta / 3600 in
  let rem := td_seconds delta mod 3600 in
  let mi := rem / 60 in
  let s := rem mod 60 in
  if ((0 <? td_days delta) && (td_days delta <=? MAXORDINAL))%bool then
    let '(y, m, dd) := ord2ymd (td_days delta) in
    Ok (Datetime y m dd h mi s (td_microseconds delta))
  else Raise (OverflowError "date value out of range").

(** [datetime.__sub__] with a [timedelta]. *)
Definition sub (d : datetime) (t : timedelta) : result datetime := add d (td_neg t).

(** Comparison of two UTC datetimes: field by field. *)
Definition cmp (a b : datetime) : comparison :=
  match year a ?= year b with
  | Eq => match month a ?= month b with
    | Eq => match day a ?= day b with
      | Eq => match hour a ?= hour b with
        | Eq => match minute a ?= minute b with
          | Eq => match second a ?= second b with
            | Eq => microsecond a ?= microsecond b
            | c => c end
          | c => c end
        | c => c end
      | c => c end
    | c => c end
  | c => c
  end.

Definition le (a b : datetime) : bool :=
  match cmp a b with Gt => false | _ => true end.
Definition lt (a b : datetime) : bool :=
  match cmp a b with Lt => true | _ => false end.

(** [d.replace(tzinfo=timezone.utc)] and [d.astimezone(timezone.utc)] on a
    datetime that is already UTC keep the seven fields. *)
Definition replace_tz_utc (d : datetime) : datetime := d.
Definition astimezone_utc (d : datetime) : datetime := d.

(** ["%0<w>d" % n] for [0 <= n]. *)
Definition zpad (w : nat) (n : Z) : string :=
  let s := PyStr.of_int n in
  string_of_list_ascii (repeat "0"%char (w - String.length s)) +:+ s.

(** [d.isoformat()] for a UTC datetime. *)
Definition isoformat (d : datetime) : string :=
  zpad 4 (year d) +:+ "-" +:+ zpad 2 (month d) +:+ "-" +:+ zpad 2 (day d)
  +:+ "T" +:+ zpad 2 (hour d) +:+ ":" +:+ zpad 2 (minute d) +:+ ":" +:+ zpad 2 (second d)
  +:+ (if microsecond d =? 0 then "" else "." +:+ zpad 6 (microsecond d))
  +:+ "+00:00".

(** The instant of a datetime, in microseconds since the day before
    0001-01-01. *)
Definition to_us (d : datetime) : Z :=
  (((toordinal d * 24 + hour d) * 60 + minute d) * 60 + second d) * 1000000
  + microsecond d.

Definition us_per_day : Z := 86400000000.

Definition td_us (t : timedelta) : Z :=
  (td_days t * 86400 + td_seconds t) * 1000000 + td_microseconds t.

End PyDatetime.

(** ** [datetime.strptime(s, "%Y-%m-%d")]

    CPython compiles the format to the regular expression
    [(?P<Y>\d\d\d\d)-(?P<m>1[0-2]|0[1-9]|[1-9])-(?P<d>3[0-1]|[1-2]\d|0[1-9]|[1-9]| [1-9])],
    matches it at the start of the string, asks that nothing remains, converts
    the three groups with [int] and builds a [date], which checks the ranges.
    A matcher returns its matches in the order a backtracking engine tries
    them. *)

Module Strptime.

Definition matcher := string -> list (string * string).

Definition cls (p : ascii -> bool) : matcher :=
  fun s => match s with
           | String c r => if p c then [(String c EmptyString, r)] else []
           | EmptyString => []
           end.

Definition lit (c : ascii) : matcher := cls (Ascii.eqb c).

Definition range (lo hi : ascii) : matcher :=
  cls (fun c => (Nat.leb (nat_of_ascii lo) (nat_of_ascii c)
                 && Nat.leb (nat_of_ascii c) (nat_of_ascii hi))%bool).

(** [\d] in a [str] pattern matches the decimal digits of Unicode; below 256
    these are [0] to [9] only (the superscripts and the fractions of the
    Latin-1 supplement are not decimal digits). *)
Definition digit : matcher := cls PyStr.is_digit.

Definition seq (a b : matcher) : matcher :=
  fun s => '(x, r) ← a s; '(y, r') ← b r; [(x +:+ y, r')].

Definition alt (a b : matcher) : matcher := fun s => (a s ++ b s)%list.

Definition re_Y : matcher := seq digit (seq digit (seq digit digit)).

Definition re_m : matcher :=
  alt (seq (lit "1") (range "0" "2"))
      (alt (seq (lit "0") (range "1" "9")) (range "1" "9")).

Definition re_d : matcher :=
  alt (seq (lit "3") (range "0" "1"))
      (alt (seq (range "1" "2") digit)
           (alt (seq (lit "0") (range "1" "9"))
                (alt (range "1" "9") (seq (lit " ") (range "1" "9"))))).

(** All the ways the pattern after the year, [-m-d], matches a prefix of
    [r]: the two groups and what is left. *)
Definition re_tail (r : string) : list (string * string * string) :=
  '(_, r2) ← lit "-" r; '(m, r3) ← re_m r2;
  '(_, r4) ← lit "-" r3; '(d, r5) ← re_d r4; [(m, d, r5)].

(** All the ways the whole pattern matches a prefix of [s]: the three
    groups and what is left. *)
Definition format_regex (s : string) : list (string * string * string * string) :=
  '(y, r1) ← re_Y s; '(m, d, r5) ← re_tail r1; [(y, m, d, r5)].

(** [int(g)] on a group: decimal digits after optional blanks. *)
Fixpoint int_digits (acc : Z) (s : string) : Z :=
  match s with
  | EmptyString => acc
  | String c r =>
      if PyStr.is_digit c then int_digits (acc * 10 + (Z.of_nat (nat_of_ascii c) - 48)) r
      else int_digits acc r
  end.
Definition int_of_group (g : string) : Z := int_digits 0 g.

Definition strptime (data_string : string) : result PyDatetime.datetime :=
  match format_regex data_string with
  | [] => Raise (ValueError "time data does not match format")
  | (y, m, d, rest) :: _ =>
      if negb (String.eqb rest "") then Raise (ValueError "unconverted data remains")
      else
        let year := int_of_group y in
        let month := int_of_group m in
        let day := int_of_group d in
        if PyDatetime.check_date_fields year month day
        then Ok (PyDatetime.Datetime year month day 0 0 0 0)
        else Raise (ValueError "date value out of range")
  end.

End Strptime.

(** ** The script: pure helpers *)

Import PyDatetime.

(** [parse_date_utc]: parse YYYY-MM-DD to a UTC datetime at 00:00:00. *)
Definition parse_date_utc (date_str : string) : result datetime :=
  match Strptime.strptime date_str with
  | Ok d => Ok (replace_tz_utc d)
  | Raise (ValueError _) =>
      Raise (SystemExit ("Invalid date format: " +:+ date_str +:+ ". Expected YYYY-MM-DD."))
  | Raise e => Raise e
  end.

(** [compute_filename]: sha256 of "author-attachment-created_at"[:16] plus
    the original extension. *)
Definition compute_filename
    (author_id : Z) (created_at : datetime) (attachment_id : Z) (original_name : string)
  : string :=
  let ext := PyStr.lower (PyPath.suffix (PyPath.parse original_name)) in
  let base := PyStr.of_int author_id +:+ "-" +:+ PyStr.of_int attachment_id +:+ "-"
              +:+ isoformat (astimezone_utc created_at) in
  let digest := PyStr.take 16 (Sha256.hexdigest base) in
  if negb (String.eqb ext "") then digest +:+ ext else digest.

(** The view of a [discord.Attachment] the script reads. *)
Record attachment := Attachment {
  att_id : Z;
  att_filename : string;
  att_content_type : option string;
  att_url : string }.

Definition image_exts : list string :=
  [".jpg"; ".jpeg"; ".png"; ".gif"; ".webp"; ".bmp"; ".tiff"; ".heic"].
Definition video_exts : list string :=
  [".mp4"; ".mov"; ".m4v"; ".webm"; ".mkv"; ".avi"].

Definition str_in (x : string) (l : list string) : bool := existsb (String.eqb x) l.

(** [is_media]: content type first, extension as a fallback. *)
Definition is_media (att : attachment) : bool :=
  let ct := PyStr.lower (default "" (att_content_type att)) in
  if (PyStr.startswith "image/" ct || PyStr.startswith "video/" ct)%bool then true
  else
    let ext := PyStr.lower (PyPath.suffix (PyPath.parse (att_filename att))) in
    (str_in ext image_exts || str_in ext video_exts)%bool.

(** ** The manifest (SQLite table [downloads]) *)

Record row := Row {
  r_attachment_id : string;
  r_message_id : string;
  r_channel_id : string;
  r_guild_id : string;
  r_url : string;
  r_filename : string;
  r_created_at_utc : string }.

(** The rows of the table, oldest first.  [attachment_id] is the primary key. *)
Definition table := list row.

(** The primary-key constraint: no two rows share an [attachment_id]. *)
Definition unique_keys (t : table) : Prop := NoDup (map r_attachment_id t).

Definition has_key (t : table) (k : string) : bool :=
  existsb (fun r => String.eqb (r_attachment_id r) k) t.

(** [SELECT * FROM downloads WHERE attachment_id = k]. *)
Definition select (t : table) (k : string) : list row :=
  List.filter (fun r => String.eqb (r_attachment_id r) k) t.

(** The conflict clause of an [INSERT]. *)
Inductive on_conflict := ConflictAbort | ConflictIgnore.

(** [INSERT [OR IGNORE] INTO downloads VALUES r]: a row whose key is taken
    violates the primary key; the clause decides between raising and
    skipping the row. *)
Definition sql_insert (c : on_conflict) (t : table) (r : row) : result table :=
  if has_key t (r_attachment_id r) then
    match c with
    | ConflictAbort => Raise (IntegrityError "UNIQUE constraint failed: downloads.attachment_id")
    | ConflictIgnore => Ok t
    end
  else Ok (t ++ [r])%list.

(** [db_init]: [CREATE TABLE IF NOT EXISTS]; [None] is a database without
    the table. *)
Definition db_init (db : option table) : table :=
  match db with
  | None => []
  | Some t => t
  end.

Definition db_has_attachment (conn : table) (attachment_id : Z) : bool :=
  negb (match select conn (PyStr.of_int attachment_id) with [] => true | _ => false end).

Definition db_insert (conn : table)
    (attachment_id message_id channel_id guild_id : Z) (url filename : string)
    (created_at_utc : datetime) : result table :=
  sql_insert ConflictIgnore conn
    (Row (PyStr.of_int attachment_id) (PyStr.of_int message_id) (PyStr.of_int channel_id)
         (PyStr.of_int guild_id) url filename (isoformat (astimezone_utc created_at_utc))).

(** ** The message source and the local storage *)

Record message := Message {
  msg_id : Z;
  msg_author_id : Z;
  msg_created_at : datetime;
  msg_attachments : list attachment }.

Record channel := Channel {
  ch_id : Z;
  ch_name : string;
  ch_read_message_history : bool;
  ch_messages : list message }.

Record guild := Guild {
  g_id : Z;
  g_name : string;
  g_text_channels : list channel }.

(** What [att.save(dest)] does: it writes the bytes, or raises, possibly
    after it has created the file. *)
Inductive save_outcome :=
| SaveOk (data : string)
| SaveRaises (partial : option string).

(** The two exceptions of the message source the driver handles per channel. *)
Inductive channel_fault := Forbidden | HTTPException (msg : string).

(** The behaviour of the remote side during one run: the outcome of each
    download, and for each channel whether the history stream raises, and
    after how many messages. *)
Record remote := Remote {
  save : message -> attachment -> save_outcome;
  fault : channel -> option (nat * channel_fault) }.

(** [channel.history(limit=None, after=, before=, oldest_first=True)]: the
    messages strictly between the two bounds, then possibly a fault. *)
Definition history (env : remote) (ch : channel) (after before : datetime)
  : list message * option channel_fault :=
  let ms := List.filter (fun m => (lt after (msg_created_at m) && lt (msg_created_at m) before)%bool)
                        (ch_messages ch) in
  match fault env ch with
  | None => (ms, None)
  | Some (n, f) => (firstn n ms, Some f)
  end.

(** [bounded_history]: the generator over [channel.history] between the two
    bounds. *)
Definition bounded_history (env : remote) (channel : channel) (after before : datetime)
  : list message * option channel_fault :=
  history env channel after before.

(** Console lines and calls to the remote side, in order. *)
Inductive event :=
| PrintNotInGuild (guild_id : Z)
| PrintScanning (g : Z)
| PrintChannel (ch : Z)
| CallHistory (ch : Z) (after before : datetime)
| CallSave (att : Z) (dest : string)
| PrintSaved (name : string)
| PrintErrorSaving (att msg : Z)
| PrintSkippingForbidden (ch : Z)
| PrintHttpError (ch : Z) (msg : string)
| PrintSummary (seen downloaded skipped : Z).

Record state := State {
  st_manifest : table;
  st_disk : gmap string string;
  total_seen : Z;
  total_downloaded : Z;
  total_skipped : Z;
  st_log : list event }.

Definition DOWNLOAD_DIR : PyPath.path := PyPath.parse "discord-downloads".

(** The longest file name, in bytes, that the file system takes. *)
Definition NAME_MAX : Z := 255.

(** [p.exists()] for a path in a directory that exists, as the download
    directory does once [run] has made it: [stat] fails with ENAMETOOLONG on
    a file name of more than [NAME_MAX] bytes, an error [exists] does not
    swallow; otherwise the answer is whether the file is there. *)
Definition path_exists (disk : gmap string string) (p : PyPath.path) : result bool :=
  if NAME_MAX <? PyStr.utf8_len (PyPath.name p) then
    Raise (OSError "[Errno 36] File name too long")
  else Ok (match disk !! PyPath.to_string p with Some _ => true | None => false end).

(** [p.mkdir(parents=True, exist_ok=True)]: nothing to do when the directory
    is there or can be made; [FileExistsError] when [p] is a regular file. *)
Definition mkdir (disk : gmap string string) (p : PyPath.path) : result unit :=
  match disk !! PyPath.to_string p with
  | Some _ => Raise (FileExistsError "[Errno 17] File exists")
  | None => Ok tt
  end.

Definition log (e : list event) (st : state) : state :=
  State (st_manifest st) (st_disk st) (total_seen st) (total_downloaded st) (total_skipped st)
        (st_log st ++ e)%list.

Definition write_file (p : PyPath.path) (data : option string) (st : state) : state :=
  match data with
  | None => st
  | Some d =>
      State (st_manifest st) (<[PyPath.to_string p := d]> (st_disk st)) (total_seen st)
            (total_downloaded st) (total_skipped st) (st_log st)
  end.

Definition set_manifest (t : table) (st : state) : state :=
  State t (st_disk st) (total_seen st) (total_downloaded st) (total_skipped st) (st_log st).

Definition incr_seen (st : state) : state :=
  State (st_manifest st) (st_disk st) (total_seen st + 1) (total_downloaded st)
        (total_skipped st) (st_log st).
Definition incr_downloaded (st : state) : state :=
  State (st_manifest st) (st_disk st) (total_seen st) (total_downloaded st + 1)
        (total_skipped st) (st_log st).
Definition incr_skipped (st : state) : state :=
  State (st_manifest st) (st_disk st) (total_seen st) (total_downloaded st)
        (total_skipped st + 1) (st_log st).

(** ** The driver ([run] and its [on_ready] handler) *)

Section Driver.

Variable env : remote.
Variable start_dt end_dt : datetime.

(** The body of [for att in msg.attachments]. *)
Definition process_attachment (g : guild) (ch : channel) (msg : message)
    (msg_created_utc : datetime) (st : state) (att : attachment) : result state :=
  if negb (is_media att) then Ok st
  else if db_has_attachment (st_manifest st) (att_id att) then Ok (incr_skipped st)
  else
    let safe_name :=
      compute_filename (msg_author_id msg) (msg_created_at msg) (att_id att) (att_filename att) in
    let dest := PyPath.div DOWNLOAD_DIR safe_name in
    found ← path_exists (st_disk st) dest;
    if found : bool then
      t ← db_insert (st_manifest st) (att_id att) (msg_id msg) (ch_id ch) (g_id g)
                    (att_url att) (PyPath.name dest) msg_created_utc;
      Ok (incr_skipped (set_manifest t st))
    else
      let st := log [CallSave (att_id att) (PyPath.to_string dest)] st in
      match save env msg att with
      | SaveOk data =>
          let st := write_file dest (Some data) st in
          match db_insert (st_manifest st) (att_id att) (msg_id msg) (ch_id ch) (g_id g)
                          (att_url att) (PyPath.name dest) msg_created_utc with
          | Ok t => Ok (incr_downloaded (log [PrintSaved (PyPath.name dest)] (set_manifest t st)))
          | Raise _ => Ok (log [PrintErrorSaving (att_id att) (msg_id msg)] st)
          end
      | SaveRaises partial =>
          Ok (log [PrintErrorSaving (att_id att) (msg_id msg)] (write_file dest partial st))
      end.

Fixpoint process_attachments (g : guild) (ch : channel) (msg : message)
    (msg_created_utc : datetime) (st : state) (atts : list attachment) : result state :=
  match atts with
  | [] => Ok st
  | att :: rest =>
      st' ← process_attachment g ch msg msg_created_utc st att;
      process_attachments g ch msg msg_created_utc st' rest
  end.

(** The inclusive window re-check. *)
Definition in_window (t : datetime) : bool := (le start_dt t && le t end_dt)%bool.

(** The body of [async for msg in bounded_history(...)]. *)
Definition process_message (g : guild) (ch : channel) (st : state) (msg : message)
  : result state :=
  let st := incr_seen st in
  match msg_attachments msg with
  | [] => Ok st
  | _ =>
      let msg_created_utc := replace_tz_utc (msg_created_at msg) in
      if negb (in_window msg_created_utc) then Ok st
      else process_attachments g ch msg msg_created_utc st (msg_attachments msg)
  end.

Fixpoint process_messages (g : guild) (ch : channel) (st : state) (msgs : list message)
  : result state :=
  match msgs with
  | [] => Ok st
  | m :: rest => st' ← process_message g ch st m; process_messages g ch st' rest
  end.

Variable after before : datetime.

(** The body of [for ch in channels]. *)
Definition process_channel (g : guild) (st : state) (ch : channel) : result state :=
  let st := log [PrintChannel (ch_id ch); CallHistory (ch_id ch) after before] st in
  let '(msgs, f) := bounded_history env ch after before in
  st' ← process_messages g ch st msgs;
  Ok match f with
     | None => st'
     | Some Forbidden => log [PrintSkippingForbidden (ch_id ch)] st'
     | Some (HTTPException e) => log [PrintHttpError (ch_id ch) e] st'
     end.

Fixpoint process_channels (g : guild) (st : state) (chs : list channel) : result state :=
  match chs with
  | [] => Ok st
  | ch :: rest => st' ← process_channel g st ch; process_channels g st' rest
  end.

(** [on_ready]: the three counters start at zero; the storage is what the
    run found, with the download directory made. *)
Definition on_ready (client_guilds : list guild) (guild_id : Z)
    (conn : table) (disk : gmap string string) : result state :=
  let st := State conn disk 0 0 0 [] in
  match List.find (fun g => g_id g =? guild_id) client_guilds with
  | None => Ok (log [PrintNotInGuild guild_id] st)
  | Some g =>
      let st := log [PrintScanning (g_id g)] st in
      let channels := List.filter ch_read_message_history (g_text_channels g) in
      st' ← process_channels g st channels;
      Ok (log [PrintSummary (total_seen st') (total_downloaded st') (total_skipped st')] st')
  end.

End Driver.

(** The resolved window: the inclusive bounds and the padded query bounds. *)
Record window := Window {
  w_start : datetime; w_end : datetime; w_after : datetime; w_before : datetime }.

(** The first part of [run]: the dates of the command line. *)
Definition resolve_window (date_start : string) (date_end : option string) (now : datetime)
  : result window :=
  start_dt ← parse_date_utc date_start;
  end_dt ← match date_end with
           | Some s =>
               if negb (String.eqb s "") then
                 d ← parse_date_utc s; add d (mk_timedelta 0 23 59 59 999999)
               else Ok now
           | None => Ok now
           end;
  if lt end_dt start_dt then Raise (SystemExit "date-end must be on/after date-start.")
  else
    after ← sub start_dt (mk_timedelta 0 0 0 1 0);
    before ← add end_dt (mk_timedelta 0 0 0 1 0);
    Ok (Window start_dt end_dt after before).

(** [run], from the command line to the summary.  [guild_id] is the value of
    GUILD_ID once the environment checks have passed; [db] and [disk] are the
    manifest and the disk as the run finds them.  The storage is set up
    between the two: the download directory is made, the table created. *)
Definition run (date_start : string) (date_end : option string) (now : datetime)
    (guild_id : Z) (env : remote) (client_guilds : list guild)
    (db : option table) (disk : gmap string string) : result state :=
  w ← resolve_window date_start date_end now;
  _ ← mkdir disk DOWNLOAD_DIR;
  let conn := db_init db in
  on_ready env (w_start w) (w_end w) (w_after w) (w_before w) client_guilds guild_id conn disk.

(** The row the driver writes for an attachment of a message. *)
Definition row_of (g : guild) (ch : channel) (msg : message) (created_utc : datetime)
    (att : attachment) : row :=
  Row (PyStr.of_int (att_id att)) (PyStr.of_int (msg_id msg)) (PyStr.of_int (ch_id ch))
      (PyStr.of_int (g_id g)) (att_url att)
      (compute_filename (msg_author_id msg) (msg_created_at msg) (att_id att) (att_filename att))
      (isoformat created_utc).

(** The destination path of an attachment of a message. *)
Definition dest_of (msg : message) (att : attachment) : PyPath.path :=
  PyPath.div DOWNLOAD_DIR
    (compute_filename (msg_author_id msg) (msg_created_at msg) (att_id att) (att_filename att)).

(** The month and day of the [n]-th day (from 0) of a year, as the second
    half of [ord2ymd] finds them. *)
Definition month_day_of (leapyear : bool) (n : Z) : Z * Z :=
  let m := Z.shiftr (n + 50) 5 in
  let preceding := DAYS_BEFORE_MONTH m + (if ((2 <? m) && leapyear)%bool then 1 else 0) in
  if n <? preceding then
    let m := m - 1 in
    let preceding :=
      preceding - (DAYS_IN_MONTH m + (if ((m =? 2) && leapyear)%bool then 1 else 0)) in
    (m, n - preceding + 1)
  else (m, n - preceding + 1).

Definition month_day_ok (leapyear : bool) (n : Z) : bool :=
  let '(m, d) := month_day_of leapyear n in
  ((1 <=? m) && (m <=? 12) && (1 <=? d)
   && (d <=? DAYS_IN_MONTH m + (if ((m =? 2) && leapyear)%bool then 1 else 0))
   && (DAYS_BEFORE_MONTH m + (if ((2 <? m) && leapyear)%bool then 1 else 0) + d =? n + 1))%bool.

(** ** Observations on a run *)

(** The lines that report a failure: a download that raised, a channel whose
    history raised. *)
Definition is_error_event (e : event) : bool :=
  match e with
  | PrintErrorSaving _ _ | PrintSkippingForbidden _ | PrintHttpError _ _ => true
  | _ => false
  end.

(** A log without failure lines. *)
Definition clean (l : list event) : Prop := Forall (fun e => is_error_event e = false) l.

(** The events of a download. *)
Definition is_save_event (e : event) : bool :=
  match e with
  | CallSave _ _ | PrintSaved _ => true
  | _ => false
  end.

(** The media attachments of a message that passes the two message filters. *)
Definition media_of_message (start_dt end_dt : datetime) (msg : message) : list attachment :=
  match msg_attachments msg with
  | [] => []
  | _ => if in_window start_dt end_dt (replace_tz_utc (msg_created_at msg))
         then List.filter is_media (msg_attachments msg) else []
  end.

Definition media_of_messages (start_dt end_dt : datetime) (msgs : list message)
  : list attachment :=
  flat_map (media_of_message start_dt end_dt) msgs.

(** The messages of a channel between the query bounds. *)
Definition messages_between (after before : datetime) (ch : channel) : list message :=
  List.filter (fun m => (lt after (msg_created_at m) && lt (msg_created_at m) before)%bool)
              (ch_messages ch).

(** The media attachments a run without faults meets, in order. *)
Definition media_of_guild (w : window) (g : guild) : list attachment :=
  flat_map (fun ch => media_of_messages (w_start w) (w_end w)
                        (messages_between (w_after w) (w_before w) ch))
           (List.filter ch_read_message_history (g_text_channels g)).

(** Between [st] and [st'] the log and the manifest only grew and, when no
    failure line was printed, each attachment of [atts] ended in the
    manifest and was counted once, as downloaded or as skipped. *)
Definition handled (st st' : state) (atts : list attachment) : Prop :=
  exists evs,
    st_log st' = (st_log st ++ evs)%list
    /\ (forall k, has_key (st_manifest st) k = true -> has_key (st_manifest st') k = true)
    /\ (clean evs ->
        (forall a, In a atts -> has_key (st_manifest st') (PyStr.of_int (att_id a)) = true)
        /\ total_downloaded st' + total_skipped st'
           = total_downloaded st + total_skipped st + Z.of_nat (length atts)).

(** The media attachments a run without faults meets in the guild it scans. *)
Definition media_of_run (w : window) (client_guilds : list guild) (guild_id : Z)
  : list attachment :=
  match List.find (fun g => g_id g =? guild_id) client_guilds with
  | None => []
  | Some g => media_of_guild w g
  end.

(** Every attachment of [atts] has its id in the table. *)
Definition known (t : table) (atts : list attachment) : Prop :=
  forall a, In a atts -> has_key t (PyStr.of_int (att_id a)) = true.

(** Between [st] and [st'] nothing was downloaded or recorded: the manifest,
    the disk and the downloaded counter are the same, no download event was
    logged, and the skipped counter grew by at most the length of [atts], and
    by exactly that when no failure line was printed. *)
Definition replayed (st st' : state) (atts : list attachment) : Prop :=
  st_manifest st' = st_manifest st
  /\ st_disk st' = st_disk st
  /\ total_downloaded st' = total_downloaded st
  /\ exists evs,
       st_log st' = (st_log st ++ evs)%list
       /\ Forall (fun e => is_save_event e = false) evs
       /\ total_skipped st <= total_skipped st'
          <= total_skipped st + Z.of_nat (length atts)
       /\ (clean evs -> total_skipped st' = total_skipped st + Z.of_nat (length atts)).


(** ** A small guild, for the concrete runs *)

Module Sample.

Definition now : datetime := Datetime 2025 11 20 12 0 0 0.

Definition photo : attachment :=
  Attachment 1001 "Photo.JPG" (Some "image/jpeg") "https://cdn.example/1001".
Definition clip : attachment :=
  Attachment 1002 "clip.mp4" None "https://cdn.example/1002".
Definition report : attachment :=
  Attachment 1003 "report.pdf" (Some "application/pdf") "https://cdn.example/1003".

Definition post : message :=
  Message 500 42 (Datetime 2025 11 5 7 8 9 123000) [photo; report; clip].

Definition general : channel := Channel 10 "general" true [post].

Definition guild : guild := Guild 77 "friends" [general].

(** Every download succeeds, no channel raises. *)
Definition env_ok : remote := Remote (fun _ _ => SaveOk "bytes") (fun _ => None).

(** The download of the photo raises, the others succeed. *)
Definition env_photo_fails : remote :=
  Remote (fun _ a => if att_id a =? 1001 then SaveRaises None else SaveOk "bytes")
         (fun _ => None).

(** A download directory that already holds the file of the photo. *)
Definition disk_with_photo : gmap string string :=
  {[ "discord-downloads/e51f65ef1d166365.jpg" := "bytes of an earlier run" ]}.

Definition start_state (disk : gmap string string) : state := State [] disk 0 0 0 [].

(** The window of 2025-11-05 to 2025-11-09. *)
Definition window : window :=
  Window (Datetime 2025 11 5 0 0 0 0) (Datetime 2025 11 9 23 59 59 999999)
         (Datetime 2025 11 4 23 59 59 0) (Datetime 2025 11 10 0 0 0 999999).

(** The state a first run ends in when the photo is already on disk and
    the manifest is empty. *)
Definition after_first_run : state :=
  Eval vm_compute in
    match run "2025-11-05" (Some "2025-11-09") now 77 env_ok [guild] None disk_with_photo with
    | Ok st => st
    | Raise _ => start_state disk_with_photo
    end.




End Sample.

(** Between [st] and [st'] the primary-key constraint was kept and no file
    that was on disk was removed or rewritten. *)
Definition keeps (st st' : state) : Prop :=
  (unique_keys (st_manifest st) -> unique_keys (st_manifest st'))
  /\ st_disk st ⊆ st_disk st'.

(** ** [int(s)] on a string *)

Module PyInt.

(** The blanks [int] skips around a number: tab, line feed, vertical tab,
    form feed, carriage return and space, and of the code points from 128
    to 255 the two blanks U+0085 and U+00A0. *)
Definition is_space (c : ascii) : bool :=
  let n := nat_of_ascii c in
  ((Nat.leb 9 n && Nat.leb n 13) || Nat.eqb n 32 || Nat.eqb n 133 || Nat.eqb n 160)%bool.

Fixpoint lstrip (s : string) : string :=
  match s with
  | EmptyString => EmptyString
  | String c r => if is_space c then lstrip r else s
  end.

(** The digits of a literal, with single underscores allowed between two
    digits: the value read, the number of digits and the text left.  [prev]
    tells that the character before was not a digit. *)
Fixpoint scan (prev : bool) (acc n : Z) (s : string) : option (Z * Z * string) :=
  match s with
  | EmptyString => if prev then None else Some (acc, n, s)
  | String c r =>
      if PyStr.is_digit c then
        scan false (acc * 10 + (Z.of_nat (nat_of_ascii c) - 48)) (n + 1) r
      else if Ascii.eqb c "_" then
        if prev then None else scan true acc n r
      else if prev then None else Some (acc, n, s)
  end.

(** [sys.get_int_max_str_digits()]. *)
Definition MAX_STR_DIGITS : Z := 4300.

(** [int(s)], base ten. *)
Definition int (s : string) : result Z :=
  let invalid := Raise (ValueError "invalid literal for int() with base 10") in
  let s := lstrip s in
  let '(sign, s) :=
    match s with
    | String c r =>
        if Ascii.eqb c "+" then (1, r) else if Ascii.eqb c "-" then (-1, r) else (1, s)
    | EmptyString => (1, s)
    end in
  match scan true 0 0 s with
  | None => invalid
  | Some (v, n, rest) =>
      if MAX_STR_DIGITS <? n then
        Raise (ValueError "Exceeds the limit (4300 digits) for integer string conversion")
      else if String.eqb (lstrip rest) "" then Ok (sign * v)
      else invalid
  end.

End PyInt.

(** ** The environment checks of [run] *)

(** [not v] for a variable of the environment: unset or empty. *)
Definition unset (v : option string) : bool :=
  match v with
  | None => true
  | Some s => String.eqb s ""
  end.

(** The second part of [run]: the environment checks.  The result is the
    guild id. *)
Definition resolve_env (token guild_id_str : option string) : result Z :=
  if (unset token || unset guild_id_str)%bool then
    Raise (SystemExit "Missing DISCORD_TOKEN and/or GUILD_ID environment variables.")
  else
    match PyInt.int (default "" guild_id_str) with
    | Ok guild_id => Ok guild_id
    | Raise (ValueError _) => Raise (SystemExit "GUILD_ID must be an integer.")
    | Raise e => Raise e
    end.

(** [run] with its environment: the dates, then the environment checks,
    then the storage and the scan. *)
Definition run_from_env (date_start : string) (date_end : option string) (now : datetime)
    (token guild_id_str : option string) (env : remote) (client_guilds : list guild)
    (db : option table) (disk : gmap string string) : result state :=
  w ← resolve_window date_start date_end now;
  guild_id ← resolve_env token guild_id_str;
  _ ← mkdir disk DOWNLOAD_DIR;
  let conn := db_init db in
  on_ready env (w_start w) (w_end w) (w_after w) (w_before w) client_guilds guild_id conn disk.


(** ** Parts of [run] and of [compute_filename], by name *)

(** The end of the window as [run] computes it from the command line. *)
Definition resolve_end (date_end : option string) (now : datetime) : result datetime :=
  match date_end with
  | Some s =>
      if negb (String.eqb s "") then
        d ← parse_date_utc s; add d (mk_timedelta 0 23 59 59 999999)
      else Ok now
  | None => Ok now
  end.

(** The text that [compute_filename] hashes. *)
Definition base_of (author_id : Z) (created_at : datetime) (attachment_id : Z) : string :=
  PyStr.of_int author_id +:+ "-" +:+ PyStr.of_int attachment_id +:+ "-"
  +:+ isoformat (astimezone_utc created_at).

(** ** File names the file system takes *)

(** The stored name of the attachment is at most [NAME_MAX] bytes long, so
    that [exists] on its destination does not raise. *)
Definition name_fits (msg : message) (att : attachment) : bool :=
  PyStr.utf8_len (PyPath.name (dest_of msg att)) <=? NAME_MAX.

(** The stored name is sixteen digits and the lowered extension, so whether
    it fits depends on the file name of the attachment alone. *)
Definition att_fits (att : attachment) : bool :=
  16 + PyStr.utf8_len (PyStr.lower (PyPath.suffix (PyPath.parse (att_filename att))))
  <=? NAME_MAX.

(** The same for the media attachments of a message, of a channel, of a
    guild and of the guilds of the client. *)
Definition message_fits (msg : message) : bool :=
  forallb (fun att => negb (is_media att) || name_fits msg att)%bool (msg_attachments msg).
Definition channel_fits (ch : channel) : bool := forallb message_fits (ch_messages ch).
Definition guild_fits (g : guild) : bool := forallb channel_fits (g_text_channels g).
Definition names_fit (client_guilds : list guild) : bool := forallb guild_fits client_guilds.

(** ** Accounting for a run *)

(** How many events of a log satisfy [p]. *)
Definition count_events (p : event -> bool) (l : list event) : Z :=
  Z.of_nat (length (List.filter p l)).

Definition is_saved_line (e : event) : bool :=
  match e with PrintSaved _ => true | _ => false end.
Definition is_save_call (e : event) : bool :=
  match e with CallSave _ _ => true | _ => false end.
Definition is_save_error_line (e : event) : bool :=
  match e with PrintErrorSaving _ _ => true | _ => false end.
Definition is_history_call (e : event) : bool :=
  match e with CallHistory _ _ _ => true | _ => false end.

(** The messages the history of a channel delivers in a run: those between
    the bounds, up to the fault if there is one. *)
Definition delivered (env : remote) (after before : datetime) (ch : channel) : list message :=
  fst (bounded_history env ch after before).

(** The path of the file a manifest row names. *)
Definition file_of_row (r : row) : string := "discord-downloads/" +:+ r_filename r.

(** A path directly inside the download directory. *)
Definition inside_download_dir (p : string) : Prop :=
  exists f, p = "discord-downloads/" +:+ f /\ PyStr.contains_char "/" f = false.

(** What happened between [st] and [st']: rows were appended to the
    manifest, each for an attachment of [atts] whose stored name fits and
    with its file on disk; files were only added, inside the download
    directory; a download was only called for an id the manifest did not
    hold and a path the disk did not hold; each attachment of [atts] has a
    stored name that fits or is in the manifest; [nmsgs] messages were seen;
    each attachment of [atts] was counted once, as downloaded, as skipped or
    by an error line; the history queries were [qs]. *)
Definition accounts (st st' : state) (atts : list attachment) (nmsgs : Z) (qs : list event)
  : Prop :=
  exists rows evs,
    st_manifest st' = (st_manifest st ++ rows)%list
    /\ st_log st' = (st_log st ++ evs)%list
    /\ st_disk st ⊆ st_disk st'
    /\ (forall r, In r rows ->
          (exists a, In a atts /\ r_attachment_id r = PyStr.of_int (att_id a)
                     /\ att_fits a = true)
          /\ is_Some (st_disk st' !! file_of_row r))
    /\ (forall p, st_disk st !! p = None -> is_Some (st_disk st' !! p) ->
          inside_download_dir p)
    /\ (forall id dest, In (CallSave id dest) evs ->
          has_key (st_manifest st) (PyStr.of_int id) = false /\ st_disk st !! dest = None)
    /\ (forall a, In a atts ->
          att_fits a = true \/ has_key (st_manifest st') (PyStr.of_int (att_id a)) = true)
    /\ total_seen st' = total_seen st + nmsgs
    /\ total_downloaded st' = total_downloaded st + count_events is_saved_line evs
    /\ total_skipped st' + count_events is_saved_line evs
       + count_events is_save_error_line evs
       = total_skipped st + Z.of_nat (length atts)
    /\ count_events is_save_call evs
       = count_events is_saved_line evs + count_events is_save_error_line evs
    /\ List.filter is_history_call evs = qs.

(** The channels a run scans, the messages it is delivered and the media
    attachments it meets in them, the queries it makes and the summary line
    of a state. *)
Definition readable (g : guild) : list channel :=
  List.filter ch_read_message_history (g_text_channels g).

Definition delivered_in (env : remote) (w : window) (g : guild) : list message :=
  flat_map (delivered env (w_after w) (w_before w)) (readable g).

Definition media_met (env : remote) (w : window) (g : guild) : list attachment :=
  flat_map (fun ch => media_of_messages (w_start w) (w_end w)
                        (delivered env (w_after w) (w_before w) ch))
           (readable g).

Definition queries_of (w : window) (g : guild) : list event :=
  map (fun ch => CallHistory (ch_id ch) (w_after w) (w_before w)) (readable g).

Definition summary_of (st : state) : event :=
  PrintSummary (total_seen st) (total_downloaded st) (total_skipped st).

(** ** Statements of the specification, in its own words *)

Module Spec.

(** [s] begins with [p], letter case apart. *)
Definition begins_with_ci (p s : string) : Prop :=
  exists h r, s = h +:+ r /\ PyStr.lower h = p.

(** The lower-cased extension of a file name. *)
Definition extension (filename : string) : string :=
  PyStr.lower (PyPath.suffix (PyPath.parse filename)).

(** Media Classifier: the content type begins with [image/] or [video/],
    or the extension is on the allow-list. *)
Definition accepts (content_type : option string) (filename : string) : Prop :=
  (exists ct, content_type = Some ct
              /\ (begins_with_ci "image/" ct \/ begins_with_ci "video/" ct))
  \/ In (extension filename)
        [".jpg"; ".jpeg"; ".png"; ".gif"; ".webp"; ".bmp"; ".tiff"; ".heic";
         ".mp4"; ".mov"; ".m4v"; ".webm"; ".mkv"; ".avi"].

(** Filename Deriver: [hex16 + extension]. *)
Definition hex16 (author_id attachment_id : Z) (t : datetime) : string :=
  PyStr.take 16
    (Sha256.hexdigest
       (PyStr.of_int author_id +:+ "-" +:+ PyStr.of_int attachment_id +:+ "-" +:+ isoformat t)).

Definition derived_filename (author_id attachment_id : Z) (t : datetime) (original : string)
  : string :=
  hex16 author_id attachment_id t +:+ extension original.



(** The texts [strptime] takes for a month and for a day of the month. *)
Definition month_texts : list string :=
  ["1"; "2"; "3"; "4"; "5"; "6"; "7"; "8"; "9";
   "01"; "02"; "03"; "04"; "05"; "06"; "07"; "08"; "09"; "10"; "11"; "12"].

Definition day_texts : list string :=
  ["1"; "2"; "3"; "4"; "5"; "6"; "7"; "8"; "9";
   "01"; "02"; "03"; "04"; "05"; "06"; "07"; "08"; "09";
   "10"; "11"; "12"; "13"; "14"; "15"; "16"; "17"; "18"; "19";
   "20"; "21"; "22"; "23"; "24"; "25"; "26"; "27"; "28"; "29"; "30"; "31";
   " 1"; " 2"; " 3"; " 4"; " 5"; " 6"; " 7"; " 8"; " 9"].

(** [s] is a year of four digits, a month text and a day text, joined by
    dashes, and the three numbers are a date of the calendar. *)
Definition accepted_date_text (s : string) (y m d : Z) : Prop :=
  exists Y M D,
    s = Y +:+ "-" +:+ M +:+ "-" +:+ D
    /\ String.length Y = 4%nat /\ PyStr.all PyStr.is_digit Y = true
    /\ In M month_texts /\ In D day_texts
    /\ y = Strptime.int_of_group Y /\ m = Strptime.int_of_group M
    /\ d = Strptime.int_of_group D
    /\ check_date_fields y m d = true.

(** The exact YYYY-MM-DD shape: ten characters, digits but for the two
    dashes. *)
Definition exact_shape (s : string) : bool :=
  (Nat.eqb (String.length s) 10
   && PyStr.all PyStr.is_digit (PyStr.take 4 s)
   && String.eqb (PyStr.take 1 (PyStr.drop 4 s)) "-"
   && PyStr.all PyStr.is_digit (PyStr.take 2 (PyStr.drop 5 s))
   && String.eqb (PyStr.take 1 (PyStr.drop 7 s)) "-"
   && PyStr.all PyStr.is_digit (PyStr.drop 8 s))%bool.

Definition exact_year (s : string) : Z := Strptime.int_of_group (PyStr.take 4 s).
Definition exact_month (s : string) : Z :=
  Strptime.int_of_group (PyStr.take 2 (PyStr.drop 5 s)).
Definition exact_day (s : string) : Z := Strptime.int_of_group (PyStr.drop 8 s).

(** The exact calendar-date pattern: the shape, and numbers that are a
    date of the calendar. *)
Definition is_exact_date (s : string) : bool :=
  (exact_shape s && check_date_fields (exact_year s) (exact_month s) (exact_day s))%bool.

End Spec.

(** On a month text, a dash and a day text, the first match of the tail
    takes both texts whole. *)
Definition tail_first_match (M D : string) : bool :=
  match Strptime.re_tail ("-" +:+ M +:+ "-" +:+ D) with
  | (m, d, r) :: _ => (String.eqb m M && String.eqb d D && String.eqb r "")%bool
  | [] => false
  end.

(** ** Proof automation *)

(** Case analysis on a month number between 1 and 12. *)
Ltac each_month m H :=
  let C := fresh "C" in
  assert (C : m = 1 \/ m = 2 \/ m = 3 \/ m = 4 \/ m = 5 \/ m = 6 \/ m = 7 \/ m = 8
              \/ m = 9 \/ m = 10 \/ m = 11 \/ m = 12) by (clear - H; lia);
  repeat (destruct C as [C|C]; [subst m|]); [..|subst m].

(** Projections of a driver state built by the state updates. *)
Ltac st_simpl :=
  cbn [st_log st_manifest st_disk total_seen total_downloaded total_skipped
       log write_file set_manifest incr_seen incr_downloaded incr_skipped
       length].

(** Membership in a list given in full. *)
Ltac in_list := repeat (first [left; reflexivity | right]).

(** One step of [int_digits] on a digit that is known. *)
Ltac digit_step :=
  cbn [Strptime.int_digits];
  match goal with
  | |- context [PyStr.is_digit ?c] =>
      change (PyStr.is_digit c) with true;
      let v := eval vm_compute in (Z.of_nat (nat_of_ascii c)) in
      change (Z.of_nat (nat_of_ascii c)) with v
  end; cbv iota.

(** * Sanity checks of the embedding against known values *)

Example round_constants_ends :
  List.length Sha256.round_constants = 64%nat
  /\ nth 0 Sha256.round_constants 0 = 0x428a2f98
  /\ nth 63 Sha256.round_constants 0 = 0xc67178f2
  /\ Sha256.wa Sha256.initial_hash = 0x6a09e667
  /\ Sha256.wh Sha256.initial_hash = 0x5be0cd19.
Proof. repeat split. Qed.

Example sha256_abc :
  Sha256.hexdigest "abc" = "ba7816bf8f01cfea414140de5dae2223b00361a396177a9cb410ff61f20015ad".
Proof. vm_compute. reflexivity. Qed.

Example sha256_empty :
  Sha256.hexdigest "" = "e3b0c44298fc1c149afbf4c8996fb92427ae41e4649b934ca495991b7852b855".
Proof. vm_compute. reflexivity. Qed.

Example sha256_two_blocks :
  Sha256.hexdigest "abcdbcdecdefdefgefghfghighijhijkijkljklmklmnlmnomnopnopq"
  = "248d6a61d20638b8e5c026930c3e6039a33ce45964ff2167f6ecedd419db06c1".
Proof. vm_compute. reflexivity. Qed.

Example isoformat_no_us :
  PyDatetime.isoformat (PyDatetime.Datetime 2025 11 5 7 8 9 0) = "2025-11-05T07:08:09+00:00".
Proof. reflexivity. Qed.

Example isoformat_us :
  PyDatetime.isoformat (PyDatetime.Datetime 2025 11 5 7 8 9 123000)
  = "2025-11-05T07:08:09.123000+00:00".
Proof. reflexivity. Qed.

Example ord2ymd_leap_day : PyDatetime.ord2ymd (PyDatetime.ymd2ord 2024 2 29) = (2024, 2, 29).
Proof. reflexivity. Qed.

Example ord2ymd_last : PyDatetime.ord2ymd PyDatetime.MAXORDINAL = (9999, 12, 31).
Proof. reflexivity. Qed.

Example of_int_examples : map PyStr.of_int [0; 7; -5; 1001] = ["0"; "7"; "-5"; "1001"].
Proof. reflexivity. Qed.

Example isoformat_small_year :
  PyDatetime.isoformat (PyDatetime.Datetime 25 1 5 0 0 0 0) = "0025-01-05T00:00:00+00:00".
Proof. reflexivity. Qed.

Example div_examples :
  map (fun s => PyPath.to_string (PyPath.div DOWNLOAD_DIR s))
      ["a/b.JPG"; ".."; "/x.y"; ""; "e51f65ef1d166365.jpg"]
  = ["discord-downloads/a/b.JPG"; "discord-downloads/.."; "/x.y"; "discord-downloads";
     "discord-downloads/e51f65ef1d166365.jpg"].
Proof. reflexivity. Qed.

Example resolve_window_example :
  resolve_window "2025-11-05" (Some "2025-11-09") Sample.now = Ok Sample.window.
Proof. vm_compute. reflexivity. Qed.

Example suffix_examples :
  map (fun s => PyPath.suffix (PyPath.parse s))
      ["a/b.JPG"; "x.tar.gz"; ".bashrc"; "foo."; "dir.d/"; "a.b/c"; ".."; "a/./b.png/."; ""]
  = [".JPG"; ".gz"; ""; ""; ".d"; ""; ""; ".png"; ""].
Proof. reflexivity. Qed.

Example parse_date_examples :
  map parse_date_utc ["2025-11-05"; "2025-1-5"; "2025-11- 5"; "2024-02-29"]
  = [Ok (Datetime 2025 11 5 0 0 0 0); Ok (Datetime 2025 1 5 0 0 0 0);
     Ok (Datetime 2025 11 5 0 0 0 0); Ok (Datetime 2024 2 29 0 0 0 0)].
Proof. reflexivity. Qed.

Example parse_date_rejects :
  map (fun s => match parse_date_utc s with Ok _ => true | Raise _ => false end)
      ["2025-02-29"; "2025-13-01"; "25-11-05"; "2025-11-05 "; " 2025-11-05"; "2025/11/05";
       "0000-01-01"; "2025-11-32"; "2025-00-10"; "2025-11-051"; ""]
  = [false; false; false; false; false; false; false; false; false; false; false].
Proof. reflexivity. Qed.

Example is_media_examples :
  map is_media
      [Attachment 1 "x" (Some "image/png") "u";
       Attachment 2 "report.pdf" (Some "application/pdf") "u";
       Attachment 3 "clip.mp4" (Some "") "u";
       Attachment 4 "archive.zip" None "u";
       Attachment 5 "CLIP.MOV" None "u";
       Attachment 6 "x" (Some "Video/MP4") "u"]
  = [true; false; true; false; true; true].
Proof. reflexivity. Qed.

Example compute_filename_examples :
  compute_filename 42 (Datetime 2025 11 5 7 8 9 123000) 1001 "Photo.JPG" = "e51f65ef1d166365.jpg"
  /\ compute_filename 7 (Datetime 2025 11 9 23 59 59 0) 9 "README" = "0b45f5c7f746993e".
Proof. split; vm_compute; reflexivity. Qed.

(** * Properties *)

#[local] Arguments String.append !s1 s2 : simpl nomatch.

(** ** Strings *)

Lemma append_empty_r (s : string) : s +:+ "" = s.
Proof. induction s as [|c s IH]; simpl; [reflexivity | now rewrite IH]. Qed.

Lemma lower_append (a b : string) : PyStr.lower (a +:+ b) = PyStr.lower a +:+ PyStr.lower b.
Proof. induction a as [|x a IH]; simpl; [reflexivity | now rewrite IH]. Qed.

Lemma take_drop (n : nat) (s : string) : PyStr.take n s +:+ PyStr.drop n s = s.
Proof.
  revert s; induction n as [|n IH]; intros [|c s]; simpl; try reflexivity.
  now rewrite IH.
Qed.

Lemma lower_take (n : nat) (s : string) :
  PyStr.lower (PyStr.take n s) = PyStr.take n (PyStr.lower s).
Proof.
  revert s; induction n as [|n IH]; intros [|c s]; simpl; try reflexivity.
  now rewrite IH.
Qed.

Lemma length_append (a b : string) :
  String.length (a +:+ b) = (String.length a + String.length b)%nat.
Proof. induction a as [|x a IH]; simpl; [reflexivity | now rewrite IH]. Qed.

Lemma startswith_spec (p s : string) :
  PyStr.startswith p s = true <-> exists r, s = p +:+ r.
Proof.
  revert s; induction p as [|a p IH]; intros s; simpl.
  - split; [intros _; now exists s | reflexivity].
  - destruct s as [|b s].
    + split; [discriminate | intros [r Hr]; discriminate].
    + destruct (Ascii.eqb_spec a b) as [->|Hne].
      * rewrite IH. split; intros [r Hr]; exists r; simpl in *; congruence.
      * split; [discriminate | intros [r Hr]; simpl in Hr; congruence].
Qed.

Lemma take_append_exact (a b : string) : PyStr.take (String.length a) (a +:+ b) = a.
Proof. induction a as [|x a IH]; simpl; [now destruct b | now rewrite IH]. Qed.

(** A case-insensitive prefix test is [startswith] on the lower-cased text. *)
Lemma begins_with_ci_startswith (p s : string) :
  PyStr.lower p = p ->
  Spec.begins_with_ci p s <-> PyStr.startswith p (PyStr.lower s) = true.
Proof.
  intros Hp. rewrite startswith_spec. split.
  - intros (h & r & -> & Hh). exists (PyStr.lower r). now rewrite lower_append, Hh.
  - intros [r Hr]. exists (PyStr.take (String.length p) s), (PyStr.drop (String.length p) s).
    split; [now rewrite take_drop|].
    rewrite lower_take, Hr. apply take_append_exact.
Qed.

Lemma str_in_In (x : string) (l : list string) : str_in x l = true <-> In x l.
Proof.
  unfold str_in. rewrite existsb_exists. split.
  - intros (y & Hy & He). apply String.eqb_eq in He. now subst.
  - intros H. exists x. split; [assumption | apply String.eqb_refl].
Qed.

Lemma content_type_prefix (p : string) (o : option string) :
  PyStr.lower p = p -> p <> "" ->
  PyStr.startswith p (PyStr.lower (default "" o)) = true
  <-> exists ct, o = Some ct /\ Spec.begins_with_ci p ct.
Proof.
  intros Hp Hne. destruct o as [ct|]; simpl.
  - rewrite <- (begins_with_ci_startswith p ct Hp). split.
    + intros H. exists ct. auto.
    + intros (ct' & Heq & H). inversion Heq; subst. exact H.
  - split.
    + destruct p; [contradiction | discriminate].
    + intros (ct & Heq & _). discriminate.
Qed.

(** ** Media Classifier *)

(** C7: [is_media] accepts an attachment exactly when its content type
    begins with [image/] or [video/], letter case apart, or the lower-cased
    extension of its file name is on the image or video allow-list; it
    rejects every other attachment. *)
Theorem is_media_iff_accepts (att : attachment) :
  is_media att = true <-> Spec.accepts (att_content_type att) (att_filename att).
Proof.
  unfold is_media, Spec.accepts.
  pose proof (content_type_prefix "image/" (att_content_type att) eq_refl ltac:(discriminate)) as Hi.
  pose proof (content_type_prefix "video/" (att_content_type att) eq_refl ltac:(discriminate)) as Hv.
  fold (Spec.extension (att_filename att)).
  change [".jpg"; ".jpeg"; ".png"; ".gif"; ".webp"; ".bmp"; ".tiff"; ".heic";
          ".mp4"; ".mov"; ".m4v"; ".webm"; ".mkv"; ".avi"]
    with (image_exts ++ video_exts)%list.
  rewrite in_app_iff, <- !str_in_In.
  destruct (PyStr.startswith "image/" _) eqn:Ei; cbn [orb].
  - split; [intros _; left | intros _; reflexivity].
    destruct (proj1 Hi eq_refl) as (ct & ? & ?). exists ct; auto.
  - destruct (PyStr.startswith "video/" _) eqn:Ev; cbn [orb].
    + split; [intros _; left | intros _; reflexivity].
      destruct (proj1 Hv eq_refl) as (ct & ? & ?). exists ct; auto.
    + rewrite orb_true_iff. split; [intros H; right; exact H|].
      intros [(ct & Hct & [H|H]) | H]; [| | exact H].
      * assert (false = true) by (apply Hi; eauto). discriminate.
      * assert (false = true) by (apply Hv; eauto). discriminate.
Qed.

(** ** Manifest Store *)

Lemma select_nil_has_key (t : table) (k : string) :
  has_key t k = false <-> select t k = [].
Proof.
  unfold has_key, select. induction t as [|r t IH]; simpl; [tauto|].
  destruct (String.eqb (r_attachment_id r) k); simpl; [split; discriminate | exact IH].
Qed.

Lemma db_has_attachment_has_key (conn : table) (id : Z) :
  db_has_attachment conn id = has_key conn (PyStr.of_int id).
Proof.
  unfold db_has_attachment.
  destruct (has_key conn (PyStr.of_int id)) eqn:E.
  - destruct (select conn (PyStr.of_int id)) eqn:Es; [|reflexivity].
    apply select_nil_has_key in Es. congruence.
  - apply select_nil_has_key in E. now rewrite E.
Qed.

Lemma has_key_In (t : table) (k : string) :
  has_key t k = true <-> In k (map r_attachment_id t).
Proof.
  unfold has_key. rewrite existsb_exists, in_map_iff.
  split; intros (r & H1 & H2).
  - apply String.eqb_eq in H2. eauto.
  - exists r. split; [assumption | now apply String.eqb_eq].
Qed.

Lemma select_app (t u : table) (k : string) :
  select (t ++ u)%list k = (select t k ++ select u k)%list.
Proof. unfold select. apply List.filter_app. Qed.

Lemma has_key_app (t u : table) (k : string) :
  has_key (t ++ u)%list k = (has_key t k || has_key u k)%bool.
Proof. unfold has_key. apply existsb_app. Qed.

Lemma select_absent (t : table) (k : string) :
  ~ In k (map r_attachment_id t) -> select t k = [].
Proof.
  intros H. apply select_nil_has_key. destruct (has_key t k) eqn:E; [|reflexivity].
  apply has_key_In in E. contradiction.
Qed.

(** Under the primary-key constraint a key selects at most one row. *)
Lemma select_unique (t : table) (k : string) :
  unique_keys t -> has_key t k = true -> exists r, select t k = [r].
Proof.
  unfold unique_keys. induction t as [|r t IH]; simpl; [discriminate|].
  intros Hnd Hk. inversion Hnd as [|? ? Hnotin Hnd']; subst.
  unfold select, has_key in *. cbn [List.filter existsb] in *.
  destruct (String.eqb_spec (r_attachment_id r) k) as [Heq|Hne].
  - exists r. f_equal. apply (select_absent t k). rewrite <- Heq.
    intros Hin. apply Hnotin. now apply list_elem_of_In.
  - apply IH; assumption.
Qed.

Lemma sql_insert_ignore (t : table) (r : row) :
  sql_insert ConflictIgnore t r
  = Ok (if has_key t (r_attachment_id r) then t else t ++ [r])%list.
Proof. unfold sql_insert. now destruct (has_key t (r_attachment_id r)). Qed.

Lemma unique_keys_insert (t : table) (r : row) :
  unique_keys t ->
  unique_keys (if has_key t (r_attachment_id r) then t else t ++ [r])%list.
Proof.
  intros H. destruct (has_key t (r_attachment_id r)) eqn:E; [assumption|].
  unfold unique_keys. rewrite map_app. simpl.
  apply NoDup_app. split; [assumption|]. split.
  - intros x Hx Hin. apply list_elem_of_In in Hx. apply list_elem_of_In in Hin.
    simpl in Hin. destruct Hin as [<-|[]].
    apply has_key_In in Hx. congruence.
  - apply NoDup_singleton.
Qed.

Lemma unique_keys_db_init (db : option table) :
  (forall t, db = Some t -> unique_keys t) -> unique_keys (db_init db).
Proof. destruct db as [t|]; simpl; intros H; [now apply H | constructor]. Qed.

(** C2: under the primary-key constraint, inserting a record returns
    normally; inserting a second record with the same [attachment_id]
    returns normally too and leaves the table as it was; afterwards the id
    selects exactly one row; that row is the one the first insert wrote when
    the id was new, and an id that was there from the start leaves the table
    untouched. *)
Theorem db_insert_first_write_wins
    (conn : table) (id m1 c1 g1 : Z) (u1 f1 : string) (t1 : datetime)
    (m2 c2 g2 : Z) (u2 f2 : string) (t2 : datetime) :
  unique_keys conn ->
  exists conn1,
    db_insert conn id m1 c1 g1 u1 f1 t1 = Ok conn1
    /\ db_insert conn1 id m2 c2 g2 u2 f2 t2 = Ok conn1
    /\ unique_keys conn1
    /\ (exists r, select conn1 (PyStr.of_int id) = [r])
    /\ (db_has_attachment conn id = true -> conn1 = conn)
    /\ (db_has_attachment conn id = false ->
        select conn1 (PyStr.of_int id)
        = [Row (PyStr.of_int id) (PyStr.of_int m1) (PyStr.of_int c1) (PyStr.of_int g1)
               u1 f1 (isoformat t1)]).
Proof.
  intros Hu. unfold db_insert. rewrite sql_insert_ignore. simpl r_attachment_id.
  rewrite db_has_attachment_has_key.
  eexists. split; [reflexivity|].
  pose proof (unique_keys_insert conn
    (Row (PyStr.of_int id) (PyStr.of_int m1) (PyStr.of_int c1) (PyStr.of_int g1)
         u1 f1 (isoformat (astimezone_utc t1))) Hu) as Hu1.
  simpl r_attachment_id in Hu1.
  destruct (has_key conn (PyStr.of_int id)) eqn:E.
  - rewrite sql_insert_ignore. simpl r_attachment_id. rewrite E.
    repeat split; try assumption; try discriminate.
    now apply select_unique.
  - assert (Hk : has_key (conn ++ [Row (PyStr.of_int id) (PyStr.of_int m1) (PyStr.of_int c1)
                     (PyStr.of_int g1) u1 f1 (isoformat (astimezone_utc t1))])%list
                   (PyStr.of_int id) = true).
    { rewrite has_key_app. unfold has_key at 2. simpl. rewrite String.eqb_refl.
      now rewrite orb_true_r. }
    assert (Hs : select (conn ++ [Row (PyStr.of_int id) (PyStr.of_int m1) (PyStr.of_int c1)
                     (PyStr.of_int g1) u1 f1 (isoformat (astimezone_utc t1))])%list
                   (PyStr.of_int id)
                 = [Row (PyStr.of_int id) (PyStr.of_int m1) (PyStr.of_int c1)
                     (PyStr.of_int g1) u1 f1 (isoformat t1)]).
    { rewrite select_app. apply select_nil_has_key in E. rewrite E.
      unfold select. simpl. now rewrite String.eqb_refl. }
    rewrite sql_insert_ignore. simpl r_attachment_id. rewrite Hk.
    repeat split; try assumption; try discriminate.
    + eexists. exact Hs.
    + intros _. exact Hs.
Qed.

Lemma db_insert_first_write_wins_witness :
  exists conn1,
    db_insert [Row "7" "1" "2" "3" "u" "f" "t"] 8 10 20 30 "a" "b" (Datetime 2025 11 5 0 0 0 0)
    = Ok conn1
    /\ db_insert conn1 8 11 21 31 "c" "d" (Datetime 2025 11 6 0 0 0 0) = Ok conn1
    /\ unique_keys conn1
    /\ (exists r, select conn1 (PyStr.of_int 8) = [r])
    /\ (db_has_attachment [Row "7" "1" "2" "3" "u" "f" "t"] 8 = true
        -> conn1 = [Row "7" "1" "2" "3" "u" "f" "t"])
    /\ (db_has_attachment [Row "7" "1" "2" "3" "u" "f" "t"] 8 = false ->
        select conn1 (PyStr.of_int 8)
        = [Row (PyStr.of_int 8) (PyStr.of_int 10) (PyStr.of_int 20) (PyStr.of_int 30)
               "a" "b" (isoformat (Datetime 2025 11 5 0 0 0 0))]).
Proof.
  apply (db_insert_first_write_wins [Row "7" "1" "2" "3" "u" "f" "t"]).
  unfold unique_keys. simpl. apply NoDup_singleton.
Defined.

(** ** Filename Deriver *)

Lemma compute_filename_unfold
    (author_id attachment_id : Z) (created_at : datetime) (original_name : string) :
  compute_filename author_id created_at attachment_id original_name
  = Spec.derived_filename author_id attachment_id created_at original_name.
Proof.
  unfold compute_filename, Spec.derived_filename, Spec.hex16, Spec.extension, astimezone_utc.
  destruct (String.eqb_spec (PyStr.lower (PyPath.suffix (PyPath.parse original_name))) "")
    as [->|_]; simpl negb; cbv iota.
  - now rewrite append_empty_r.
  - reflexivity.
Qed.

(** C5: for every author id, attachment id, UTC timestamp and original
    name, [compute_filename] returns the first 16 hexadecimal characters of
    the SHA-256 digest of "author-attachment-isotimestamp" followed by the
    lower-cased suffix of the original name (nothing when there is none), and
    equal inputs give equal outputs. *)
Theorem compute_filename_is_hex16_plus_extension
    (author_id attachment_id : Z) (created_at : datetime) (original_name : string) :
  compute_filename author_id created_at attachment_id original_name
  = Spec.derived_filename author_id attachment_id created_at original_name
  /\ forall author_id' attachment_id' created_at' original_name',
       author_id' = author_id -> attachment_id' = attachment_id ->
       created_at' = created_at -> original_name' = original_name ->
       compute_filename author_id' created_at' attachment_id' original_name'
       = compute_filename author_id created_at attachment_id original_name.
Proof.
  split.
  - apply compute_filename_unfold.
  - intros ? ? ? ? -> -> -> ->. reflexivity.
Qed.

Lemma compute_filename_is_hex16_plus_extension_witness :
  compute_filename 42 (Datetime 2025 11 5 7 8 9 123000) 1001 "Photo.JPG"
  = Spec.derived_filename 42 1001 (Datetime 2025 11 5 7 8 9 123000) "Photo.JPG"
  /\ compute_filename 42 (Datetime 2025 11 5 7 8 9 123000) 1001 "Photo.JPG"
     = compute_filename 42 (Datetime 2025 11 5 7 8 9 123000) 1001 "Photo.JPG".
Proof.
  destruct (compute_filename_is_hex16_plus_extension
              42 1001 (Datetime 2025 11 5 7 8 9 123000) "Photo.JPG") as [H1 H2].
  split; [exact H1|].
  apply H2; reflexivity.
Defined.

(** *** The shape of a digest *)

Lemma all_append (p : ascii -> bool) (a b : string) :
  PyStr.all p (a +:+ b) = (PyStr.all p a && PyStr.all p b)%bool.
Proof.
  induction a as [|c a IH]; simpl; [reflexivity|].
  now rewrite IH, andb_assoc.
Qed.

Lemma all_take (p : ascii -> bool) (n : nat) (s : string) :
  PyStr.all p s = true -> PyStr.all p (PyStr.take n s) = true.
Proof.
  revert s; induction n as [|n IH]; intros [|c s]; simpl; try reflexivity.
  rewrite !andb_true_iff. intros [H1 H2]. split; [assumption | now apply IH].
Qed.

Lemma length_take (n : nat) (s : string) :
  (n <= String.length s)%nat -> String.length (PyStr.take n s) = n.
Proof.
  revert s; induction n as [|n IH]; intros [|c s]; simpl; intros H; try reflexivity; try lia.
  rewrite IH; [reflexivity | lia].
Qed.

Lemma hex_digit_lower_hex (x : Z) :
  PyStr.is_lower_hex (Sha256.hex_digit (Z.land x 0xf)) = true.
Proof.
  assert (H : 0 <= Z.land x 0xf < 16).
  { change 0xf with (Z.ones 4). rewrite Z.land_ones by lia.
    apply Z.mod_pos_bound. reflexivity. }
  assert (Hc : Z.land x 0xf = 0 \/ Z.land x 0xf = 1 \/ Z.land x 0xf = 2 \/ Z.land x 0xf = 3
               \/ Z.land x 0xf = 4 \/ Z.land x 0xf = 5 \/ Z.land x 0xf = 6 \/ Z.land x 0xf = 7
               \/ Z.land x 0xf = 8 \/ Z.land x 0xf = 9 \/ Z.land x 0xf = 10
               \/ Z.land x 0xf = 11 \/ Z.land x 0xf = 12 \/ Z.land x 0xf = 13
               \/ Z.land x 0xf = 14 \/ Z.land x 0xf = 15) by lia.
  repeat (destruct Hc as [Hc|Hc]; [rewrite Hc; reflexivity|]).
  rewrite Hc; reflexivity.
Qed.

Lemma hex_of_shape (n : nat) (x : Z) :
  String.length (Sha256.hex_of n x) = n
  /\ PyStr.all PyStr.is_lower_hex (Sha256.hex_of n x) = true.
Proof.
  induction n as [|n [IH1 IH2]]; [split; reflexivity|].
  cbn [Sha256.hex_of String.length PyStr.all]. split.
  - now rewrite IH1.
  - now rewrite hex_digit_lower_hex, IH2.
Qed.

(** A SHA-256 hex digest is 64 lower-case hexadecimal characters. *)
Lemma hexdigest_shape (s : string) :
  String.length (Sha256.hexdigest s) = 64%nat
  /\ PyStr.all PyStr.is_lower_hex (Sha256.hexdigest s) = true.
Proof.
  unfold Sha256.hexdigest, Sha256.hex_of_words.
  generalize (Sha256.digest_words (Sha256.bytes_of_string s)). intros h.
  split.
  - rewrite !length_append. now rewrite !(proj1 (hex_of_shape 8 _)).
  - rewrite !all_append. now rewrite !(proj2 (hex_of_shape 8 _)).
Qed.

(** *** Path components *)

Lemma contains_char_append (c : ascii) (a b : string) :
  PyStr.contains_char c (a +:+ b) = (PyStr.contains_char c a || PyStr.contains_char c b)%bool.
Proof.
  induction a as [|x a IH]; simpl; [reflexivity|].
  destruct (Ascii.eqb x c); [reflexivity | exact IH].
Qed.

Lemma contains_char_drop (c : ascii) (n : nat) (s : string) :
  PyStr.contains_char c s = false -> PyStr.contains_char c (PyStr.drop n s) = false.
Proof.
  revert s; induction n as [|n IH]; intros [|x s]; simpl; try tauto.
  destruct (Ascii.eqb x c); [discriminate | apply IH].
Qed.

(** The pieces of [s.split(c)] do not contain [c]. *)
Lemma split_no_sep (c : ascii) (s x : string) :
  In x (PyStr.split c s) -> PyStr.contains_char c x = false.
Proof.
  revert x; induction s as [|a s IH]; intros x; simpl.
  - intros [<-|[]]. reflexivity.
  - destruct (Ascii.eqb a c) eqn:E.
    + intros [<-|H]; [reflexivity | now apply IH].
    + destruct (PyStr.split c s) as [|h t].
      * intros [<-|[]]. simpl. now rewrite E.
      * intros [<-|H].
        -- simpl. rewrite E. apply IH. now left.
        -- apply IH. now right.
Qed.

Lemma split_without_sep (c : ascii) (s : string) :
  PyStr.contains_char c s = false -> PyStr.split c s = [s].
Proof.
  induction s as [|a s IH]; simpl; [reflexivity|].
  destruct (Ascii.eqb a c); [discriminate|].
  intros H. now rewrite (IH H).
Qed.

Lemma split_prefix (c : ascii) (p r : string) :
  PyStr.contains_char c p = false ->
  PyStr.split c (p +:+ String c r) = p :: PyStr.split c r.
Proof.
  induction p as [|a p IH]; simpl.
  - intros _. now rewrite Ascii.eqb_refl.
  - destruct (Ascii.eqb a c); [discriminate|].
    intros H. now rewrite (IH H).
Qed.

Lemma last_default_or_In {A} (l : list A) (d : A) :
  List.last l d = d \/ In (List.last l d) l.
Proof.
  induction l as [|x [|y l] IH]; [now left | right; now left |].
  destruct IH as [IH|IH].
  - left. exact IH.
  - right. right. exact IH.
Qed.

Lemma last_filter_In {A} (f : A -> bool) (l : list A) (d : A) :
  List.last (List.filter f l) d = d \/ In (List.last (List.filter f l) d) l.
Proof.
  destruct (last_default_or_In (List.filter f l) d) as [H|H]; [now left|].
  right. apply List.filter_In in H. tauto.
Qed.

(** The final component of a path has no separator in it. *)
Lemma name_no_sep (s : string) :
  PyStr.contains_char "/" (PyPath.name (PyPath.parse s)) = false.
Proof.
  unfold PyPath.name, PyPath.parse. destruct (PyPath.splitroot s) as [r rel]. simpl.
  destruct (last_filter_In PyPath.keep_part (PyStr.split "/" rel) "") as [H|H].
  - now rewrite H.
  - now apply split_no_sep in H.
Qed.

(** Where [rfind] finds the character, the text from there on starts with it. *)
Lemma rfind_drop (c : ascii) (s : string) :
  0 <= PyStr.rfind c s ->
  exists r, PyStr.drop (Z.to_nat (PyStr.rfind c s)) s = String c r.
Proof.
  induction s as [|a s IH]; simpl; [lia|].
  destruct (0 <=? PyStr.rfind c s) eqn:E.
  - intros _. apply Z.leb_le in E. destruct (IH E) as [r Hr].
    exists r. rewrite Z2Nat.inj_add by lia. rewrite Nat.add_comm. simpl. exact Hr.
  - destruct (Ascii.eqb_spec a c) as [->|]; [|lia].
    intros _. now exists s.
Qed.

(** A suffix is empty or starts with a dot, and it ends the final component. *)
Lemma suffix_shape (p : PyPath.path) :
  PyPath.suffix p = ""
  \/ exists pre r, PyPath.suffix p = String "." r /\ PyPath.name p = pre +:+ PyPath.suffix p.
Proof.
  unfold PyPath.suffix.
  destruct ((0 <? PyStr.rfind "." (PyPath.name p))
            && (PyStr.rfind "." (PyPath.name p) <? PyStr.len (PyPath.name p) - 1))%bool eqn:E;
    [|now left].
  right. apply andb_true_iff in E as [E1 _]. apply Z.ltb_lt in E1.
  destruct (rfind_drop "." (PyPath.name p)) as [r Hr]; [lia|].
  exists (PyStr.take (Z.to_nat (PyStr.rfind "." (PyPath.name p))) (PyPath.name p)), r.
  split; [exact Hr | now rewrite take_drop].
Qed.

Lemma suffix_no_sep (s : string) :
  PyStr.contains_char "/" (PyPath.suffix (PyPath.parse s)) = false.
Proof.
  unfold PyPath.suffix. destruct (_ && _)%bool; [|reflexivity].
  apply contains_char_drop, name_no_sep.
Qed.

Lemma lower_char_sep (c : ascii) :
  Ascii.eqb (PyStr.lower_char c) "/" = Ascii.eqb c "/".
Proof. destruct c as [[] [] [] [] [] [] [] []]; reflexivity. Qed.

Lemma lower_no_sep (s : string) :
  PyStr.contains_char "/" (PyStr.lower s) = PyStr.contains_char "/" s.
Proof.
  induction s as [|c s IH]; simpl; [reflexivity|].
  now rewrite lower_char_sep, IH.
Qed.

Lemma lower_hex_not_sep (c : ascii) :
  PyStr.is_lower_hex c = true -> Ascii.eqb c "/" = false.
Proof. destruct c as [[] [] [] [] [] [] [] []]; intros H; try reflexivity; discriminate H. Qed.

Lemma all_hex_no_sep (s : string) :
  PyStr.all PyStr.is_lower_hex s = true -> PyStr.contains_char "/" s = false.
Proof.
  induction s as [|c s IH]; simpl; [reflexivity|].
  rewrite andb_true_iff. intros [H1 H2]. now rewrite (lower_hex_not_sep c H1), IH.
Qed.

(** Joining a plain file name to the download directory gives the path with
    exactly that one component below the directory. *)
Lemma div_download_dir (f : string) :
  PyStr.contains_char "/" f = false -> f <> "" -> f <> "." ->
  PyPath.div DOWNLOAD_DIR f = PyPath.Path "" ["discord-downloads"; f].
Proof.
  intros Hsep Hne Hdot. unfold PyPath.div.
  change (PyPath.root DOWNLOAD_DIR +:+ PyStr.join "/" (PyPath.tail DOWNLOAD_DIR))
    with "discord-downloads".
  unfold PyPath.posix_join.
  assert (Hs : PyStr.startswith "/" f = false).
  { destruct f as [|c f]; [reflexivity|]. cbn [PyStr.startswith PyStr.contains_char] in *.
    rewrite Ascii.eqb_sym. destruct (Ascii.eqb c "/"); [discriminate | reflexivity]. }
  rewrite Hs. change (String.eqb "discord-downloads" "" || _)%bool with false. cbv iota.
  unfold PyPath.parse.
  change (PyPath.splitroot ("discord-downloads" +:+ "/" +:+ f))
    with ("", "discord-downloads" +:+ String "/" f).
  cbv beta iota. rewrite split_prefix by reflexivity. rewrite (split_without_sep _ _ Hsep).
  cbn [List.filter]. change (PyPath.keep_part "discord-downloads") with true. cbv iota.
  unfold PyPath.keep_part.
  destruct (String.eqb_spec f ""); [contradiction|].
  destruct (String.eqb_spec f "."); [contradiction|]. reflexivity.
Qed.

Lemma hex16_shape (author_id attachment_id : Z) (created_at : datetime) :
  String.length (Spec.hex16 author_id attachment_id created_at) = 16%nat
  /\ PyStr.all PyStr.is_lower_hex (Spec.hex16 author_id attachment_id created_at) = true.
Proof.
  unfold Spec.hex16.
  match goal with |- context [Sha256.hexdigest ?b] =>
    destruct (hexdigest_shape b) as [H1 H2] end.
  split; [apply length_take; lia | now apply all_take].
Qed.

Lemma extension_no_sep (original_name : string) :
  PyStr.contains_char "/" (Spec.extension original_name) = false.
Proof. unfold Spec.extension. rewrite lower_no_sep. apply suffix_no_sep. Qed.

Lemma compute_filename_no_sep
    (author_id attachment_id : Z) (created_at : datetime) (original_name : string) :
  PyStr.contains_char "/"
    (compute_filename author_id created_at attachment_id original_name) = false.
Proof.
  rewrite compute_filename_unfold. unfold Spec.derived_filename.
  destruct (hex16_shape author_id attachment_id created_at) as [_ Hall].
  now rewrite contains_char_append, extension_no_sep, (all_hex_no_sep _ Hall).
Qed.

(** The destination of an attachment: the derived name, directly below the
    download directory. *)
Lemma dest_in_download_dir
    (author_id attachment_id : Z) (created_at : datetime) (original_name : string) :
  PyPath.div DOWNLOAD_DIR (compute_filename author_id created_at attachment_id original_name)
  = PyPath.Path ""
      ["discord-downloads"; compute_filename author_id created_at attachment_id original_name].
Proof.
  apply div_download_dir; [apply compute_filename_no_sep | |];
    rewrite compute_filename_unfold; unfold Spec.derived_filename;
    destruct (hex16_shape author_id attachment_id created_at) as [Hlen Hall];
    destruct (Spec.hex16 author_id attachment_id created_at) as [|c hex'];
    try discriminate Hlen.
  - discriminate.
  - simpl in Hall. apply andb_true_iff in Hall as [Hc _].
    simpl. intros Heq. inversion Heq; subst. discriminate Hc.
Qed.

(** C10: the derived file name is 16 lower-case hexadecimal characters,
    optionally followed by a dot-initial suffix that ends the (lower-cased)
    final component of the original name; it contains no path separator, and
    joined to the download directory it is the single component below that
    directory. *)
Theorem compute_filename_stays_in_download_dir
    (author_id attachment_id : Z) (created_at : datetime) (original_name : string) :
  exists hex ext,
    compute_filename author_id created_at attachment_id original_name = hex +:+ ext
    /\ String.length hex = 16%nat
    /\ PyStr.all PyStr.is_lower_hex hex = true
    /\ (ext = ""
        \/ exists pre r,
             ext = String "." r
             /\ PyStr.lower (PyPath.name (PyPath.parse original_name)) = pre +:+ ext)
    /\ PyStr.contains_char "/"
         (compute_filename author_id created_at attachment_id original_name) = false
    /\ PyPath.div DOWNLOAD_DIR
         (compute_filename author_id created_at attachment_id original_name)
       = PyPath.Path ""
           ["discord-downloads";
            compute_filename author_id created_at attachment_id original_name].
Proof.
  pose proof (compute_filename_no_sep author_id attachment_id created_at original_name) as Hsep.
  pose proof (dest_in_download_dir author_id attachment_id created_at original_name) as Hdest.
  rewrite compute_filename_unfold in *. unfold Spec.derived_filename in *.
  destruct (hex16_shape author_id attachment_id created_at) as [Hlen Hall].
  exists (Spec.hex16 author_id attachment_id created_at), (Spec.extension original_name).
  repeat split; try assumption.
  destruct (suffix_shape (PyPath.parse original_name)) as [H | (pre & r & H1 & H2)].
  - left. unfold Spec.extension. now rewrite H.
  - right. exists (PyStr.lower pre), (PyStr.lower r). unfold Spec.extension. split.
    + now rewrite H1.
    + rewrite H2 at 1. apply lower_append.
Qed.

(** ** Ingestion Driver: one attachment *)

Lemma db_insert_ok (conn : table) (id m c g : Z) (u f : string) (t : datetime) :
  db_insert conn id m c g u f t
  = Ok (if has_key conn (PyStr.of_int id) then conn
        else conn ++ [Row (PyStr.of_int id) (PyStr.of_int m) (PyStr.of_int c) (PyStr.of_int g)
                          u f (isoformat t)])%list.
Proof. unfold db_insert. now rewrite sql_insert_ignore. Qed.

Lemma name_of_dest (f : string) : PyPath.name (PyPath.Path "" ["discord-downloads"; f]) = f.
Proof. reflexivity. Qed.

(** ** Calendar arithmetic *)

Lemma is_leap_spec (y : Z) :
  is_leap y = true <-> (y mod 4 = 0 /\ (y mod 100 <> 0 \/ y mod 400 = 0)).
Proof.
  unfold is_leap. rewrite andb_true_iff, orb_true_iff, negb_true_iff.
  rewrite !Z.eqb_eq, Z.eqb_neq. tauto.
Qed.

Lemma days_before_year_succ (y : Z) :
  days_before_year (y + 1) = days_before_year y + 365 + (if is_leap y then 1 else 0).
Proof.
  unfold days_before_year.
  destruct (is_leap y) eqn:E.
  - apply is_leap_spec in E. replace (y + 1 - 1) with y by lia.
    Z.div_mod_to_equations. lia.
  - assert (H : ~ (y mod 4 = 0 /\ (y mod 100 <> 0 \/ y mod 400 = 0))).
    { rewrite <- is_leap_spec. congruence. }
    replace (y + 1 - 1) with y by lia.
    Z.div_mod_to_equations. lia.
Qed.

Lemma days_before_year_mono (y1 y2 : Z) :
  y1 <= y2 -> days_before_year y1 <= days_before_year y2.
Proof.
  intros H. unfold days_before_year. Z.div_mod_to_equations. lia.
Qed.

Lemma check_date_fields_spec (y m d : Z) :
  check_date_fields y m d = true
  <-> (1 <= y <= 9999 /\ 1 <= m <= 12 /\ 1 <= d <= days_in_month y m).
Proof.
  unfold check_date_fields, MINYEAR, MAXYEAR.
  rewrite !andb_true_iff, !Z.leb_le. tauto.
Qed.

Lemma check_time_fields_spec (h mi s us : Z) :
  check_time_fields h mi s us = true
  <-> (0 <= h <= 23 /\ 0 <= mi <= 59 /\ 0 <= s <= 59 /\ 0 <= us <= 999999).
Proof.
  unfold check_time_fields. rewrite !andb_true_iff, !Z.leb_le. tauto.
Qed.

(** The day of the year of a valid date. *)
Lemma day_of_year_bounds (y m d : Z) :
  1 <= m <= 12 -> 1 <= d <= days_in_month y m ->
  1 <= days_before_month y m + d <= 365 + (if is_leap y then 1 else 0).
Proof.
  intros Hm. unfold days_in_month, days_before_month.
  destruct (is_leap y); each_month m Hm; cbn; lia.
Qed.

Lemma day_of_year_lt (y m1 d1 m2 d2 : Z) :
  1 <= m1 -> m1 < m2 -> m2 <= 12 -> d1 <= days_in_month y m1 -> 1 <= d2 ->
  days_before_month y m1 + d1 < days_before_month y m2 + d2.
Proof.
  intros H1 H12 H2.
  assert (Hm1 : 1 <= m1 <= 12) by lia. assert (Hm2 : 1 <= m2 <= 12) by lia.
  unfold days_in_month, days_before_month.
  destruct (is_leap y); each_month m1 Hm1; each_month m2 Hm2; cbn; lia.
Qed.

(** Ordinals order valid dates as year, month, day do. *)
Lemma ymd2ord_compare (y1 m1 d1 y2 m2 d2 : Z) :
  check_date_fields y1 m1 d1 = true -> check_date_fields y2 m2 d2 = true ->
  (ymd2ord y1 m1 d1 ?= ymd2ord y2 m2 d2)
  = match y1 ?= y2 with
    | Eq => match m1 ?= m2 with Eq => d1 ?= d2 | c => c end
    | c => c
    end.
Proof.
  rewrite !check_date_fields_spec. intros (Hy1 & Hm1 & Hd1) (Hy2 & Hm2 & Hd2).
  pose proof (day_of_year_bounds y1 m1 d1 Hm1 Hd1) as B1.
  pose proof (day_of_year_bounds y2 m2 d2 Hm2 Hd2) as B2.
  unfold ymd2ord.
  destruct (Z.compare_spec y1 y2) as [->|Hlt|Hgt].
  - destruct (Z.compare_spec m1 m2) as [->|Hlt|Hgt].
    + destruct (Z.compare_spec d1 d2); [apply Z.compare_eq_iff | apply Z.compare_lt_iff
                                       | apply Z.compare_gt_iff]; lia.
    + apply Z.compare_lt_iff.
      pose proof (day_of_year_lt y2 m1 d1 m2 d2). lia.
    + apply Z.compare_gt_iff.
      pose proof (day_of_year_lt y2 m2 d2 m1 d1). lia.
  - apply Z.compare_lt_iff.
    pose proof (days_before_year_succ y1). pose proof (days_before_year_mono (y1 + 1) y2).
    lia.
  - apply Z.compare_gt_iff.
    pose proof (days_before_year_succ y2). pose proof (days_before_year_mono (y2 + 1) y1).
    lia.
Qed.

Lemma valid_spec (d : datetime) :
  valid d = true
  <-> check_date_fields (year d) (month d) (day d) = true
      /\ check_time_fields (hour d) (minute d) (second d) (microsecond d) = true.
Proof. unfold valid. apply andb_true_iff. Qed.

(** Field-by-field comparison of valid datetimes is comparison of instants. *)
Lemma cmp_to_us (a b : datetime) :
  valid a = true -> valid b = true -> cmp a b = (to_us a ?= to_us b).
Proof.
  rewrite !valid_spec, !check_time_fields_spec.
  intros [Da Ta] [Db Tb].
  pose proof (ymd2ord_compare _ _ _ _ _ _ Da Db) as Hord.
  unfold cmp, to_us, toordinal.
  set (oa := ymd2ord (year a) (month a) (day a)) in *.
  set (ob := ymd2ord (year b) (month b) (day b)) in *.
  assert (Hcase : forall c, (oa ?= ob) = c ->
            match c with
            | Eq => match hour a ?= hour b with
                    | Eq => match minute a ?= minute b with
                            | Eq => match second a ?= second b with
                                    | Eq => microsecond a ?= microsecond b
                                    | c => c end
                            | c => c end
                    | c => c end
            | c => c
            end
            = ((((oa * 24 + hour a) * 60 + minute a) * 60 + second a) * 1000000 + microsecond a
               ?= (((ob * 24 + hour b) * 60 + minute b) * 60 + second b) * 1000000
                  + microsecond b)).
  { intros c Hc. symmetry. destruct c.
    - apply Z.compare_eq_iff in Hc. rewrite Hc.
      destruct (Z.compare_spec (hour a) (hour b)) as [Hh|Hh|Hh];
        [|apply Z.compare_lt_iff; lia|apply Z.compare_gt_iff; lia].
      destruct (Z.compare_spec (minute a) (minute b)) as [Hm|Hm|Hm];
        [|apply Z.compare_lt_iff; lia|apply Z.compare_gt_iff; lia].
      destruct (Z.compare_spec (second a) (second b)) as [Hs|Hs|Hs];
        [|apply Z.compare_lt_iff; lia|apply Z.compare_gt_iff; lia].
      destruct (Z.compare_spec (microsecond a) (microsecond b)) as [Hu|Hu|Hu];
        [apply Z.compare_eq_iff|apply Z.compare_lt_iff|apply Z.compare_gt_iff]; lia.
    - pose proof (proj1 (Z.compare_lt_iff oa ob) Hc). apply Z.compare_lt_iff. lia.
    - pose proof (proj1 (Z.compare_gt_iff oa ob) Hc). apply Z.compare_gt_iff. lia. }
  rewrite <- (Hcase _ Hord).
  destruct (year a ?= year b); [|reflexivity|reflexivity].
  destruct (month a ?= month b); [|reflexivity|reflexivity].
  destruct (day a ?= day b); reflexivity.
Qed.

Lemma le_to_us (a b : datetime) :
  valid a = true -> valid b = true -> (le a b = true <-> to_us a <= to_us b).
Proof.
  intros Ha Hb. unfold le. rewrite (cmp_to_us a b Ha Hb).
  destruct (Z.compare_spec (to_us a) (to_us b)); split; intros; try reflexivity; try lia;
    discriminate.
Qed.

Lemma lt_to_us (a b : datetime) :
  valid a = true -> valid b = true -> (lt a b = true <-> to_us a < to_us b).
Proof.
  intros Ha Hb. unfold lt. rewrite (cmp_to_us a b Ha Hb).
  destruct (Z.compare_spec (to_us a) (to_us b)); split; intros; try reflexivity; try lia;
    discriminate.
Qed.

Lemma cmp_eq (a b : datetime) : cmp a b = Eq -> a = b.
Proof.
  unfold cmp. destruct a, b; simpl.
  repeat match goal with
         | |- context [?x ?= ?y] =>
             destruct (Z.compare_spec x y); try discriminate; subst
         end.
  reflexivity.
Qed.

(** Valid datetimes with the same instant are the same. *)
Lemma to_us_inj (a b : datetime) :
  valid a = true -> valid b = true -> to_us a = to_us b -> a = b.
Proof.
  intros Ha Hb H. apply cmp_eq. rewrite (cmp_to_us a b Ha Hb). now apply Z.compare_eq_iff.
Qed.

Lemma month_day_all (leap : bool) :
  forallb (fun k => month_day_ok leap (Z.of_nat k)) (seq 0 (365 + (if leap then 1 else 0))) = true.
Proof. destruct leap; vm_compute; reflexivity. Qed.

Lemma month_day_of_ok (leap : bool) (n : Z) :
  0 <= n < 365 + (if leap then 1 else 0) -> month_day_ok leap n = true.
Proof.
  intros H. pose proof (month_day_all leap) as A.
  rewrite forallb_forall in A.
  rewrite <- (Z2Nat.id n) by lia. apply A. apply in_seq. destruct leap; lia.
Qed.

Lemma ord2ymd_unfold (n : Z) :
  ord2ymd n =
  let n0 := n - 1 in
  let n400 := n0 / DI400Y in let r1 := n0 mod DI400Y in
  let n100 := r1 / DI100Y in let r2 := r1 mod DI100Y in
  let n4 := r2 / DI4Y in let r3 := r2 mod DI4Y in
  let n1 := r3 / 365 in let r4 := r3 mod 365 in
  let y := n400 * 400 + 1 + n100 * 100 + n4 * 4 + n1 in
  if ((n1 =? 4) || (n100 =? 4))%bool then (y - 1, 12, 31)
  else let '(m, d) := month_day_of ((n1 =? 3) && (negb (n4 =? 24) || (n100 =? 3)))%bool r4 in
       (y, m, d).
Proof.
  unfold ord2ymd, month_day_of. cbv zeta.
  destruct ((_ =? 4) || (_ =? 4))%bool; [reflexivity|].
  destruct (_ <? _); reflexivity.
Qed.

Lemma ord2ymd_spec (n : Z) :
  1 <= n ->
  let '(y, m, d) := ord2ymd n in
  1 <= y /\ 1 <= m <= 12 /\ 1 <= d <= days_in_month y m /\ ymd2ord y m d = n.
Proof.
  intros Hn. rewrite ord2ymd_unfold. cbv zeta.
  unfold DI400Y, DI100Y, DI4Y.
  set (n0 := n - 1).
  set (n400 := n0 / 146097). set (r1 := n0 mod 146097).
  set (n100 := r1 / 36524). set (r2 := r1 mod 36524).
  set (n4 := r2 / 1461). set (r3 := r2 mod 1461).
  set (n1 := r3 / 365). set (r4 := r3 mod 365).
  assert (E1 : n0 = 146097 * n400 + r1 /\ 0 <= r1 < 146097) by (subst n400 r1; split; [apply Z.div_mod; lia | apply Z.mod_pos_bound; lia]).
  assert (E2 : r1 = 36524 * n100 + r2 /\ 0 <= r2 < 36524) by (subst n100 r2; split; [apply Z.div_mod; lia | apply Z.mod_pos_bound; lia]).
  assert (E3 : r2 = 1461 * n4 + r3 /\ 0 <= r3 < 1461) by (subst n4 r3; split; [apply Z.div_mod; lia | apply Z.mod_pos_bound; lia]).
  assert (E4 : r3 = 365 * n1 + r4 /\ 0 <= r4 < 365) by (subst n1 r4; split; [apply Z.div_mod; lia | apply Z.mod_pos_bound; lia]).
  clearbody n400 r1 n100 r2 n4 r3 n1 r4.
  assert (B400 : 0 <= n400) by lia.
  assert (B100 : 0 <= n100 <= 4) by lia.
  assert (B4 : 0 <= n4 <= 24) by lia.
  assert (B1 : 0 <= n1 <= 4) by lia.
  destruct ((n1 =? 4) || (n100 =? 4))%bool eqn:Ex.
  - (* the last day of a leap year *)
    apply orb_true_iff in Ex. rewrite !Z.eqb_eq in Ex.
    set (y := n400 * 400 + 1 + n100 * 100 + n4 * 4 + n1 - 1).
    assert (Hleap : is_leap y = true).
    { apply is_leap_spec. subst y. Z.div_mod_to_equations. lia. }
    assert (Hdby : days_before_year y = n0 - 365).
    { unfold days_before_year. subst y. Z.div_mod_to_equations. lia. }
    unfold ymd2ord, days_in_month, days_before_month. rewrite Hleap, Hdby. cbn.
    subst y n0. lia.
  - apply orb_false_iff in Ex as [Ex1 Ex2]. apply Z.eqb_neq in Ex1, Ex2.
    set (leap := ((n1 =? 3) && (negb (n4 =? 24) || (n100 =? 3)))%bool).
    set (y := n400 * 400 + 1 + n100 * 100 + n4 * 4 + n1).
    assert (Hdby : days_before_year y = n0 - r4).
    { unfold days_before_year. subst y. Z.div_mod_to_equations. lia. }
    assert (Hleap : is_leap y = leap).
    { apply Bool.eq_iff_eq_true. rewrite is_leap_spec. subst leap.
      rewrite andb_true_iff, orb_true_iff, negb_true_iff, !Z.eqb_eq, Z.eqb_neq.
      subst y. Z.div_mod_to_equations. lia. }
    pose proof (month_day_of_ok leap r4) as Hmd.
    unfold month_day_ok in Hmd.
    destruct (month_day_of leap r4) as [m d].
    assert (Hr : 0 <= r4 < 365 + (if leap then 1 else 0)) by (destruct leap; lia).
    specialize (Hmd Hr).
    rewrite !andb_true_iff, !Z.leb_le, Z.eqb_eq in Hmd.
    destruct Hmd as ((((Hm1 & Hm2) & Hd1) & Hd2) & Hsum).
    unfold ymd2ord, days_in_month, days_before_month. rewrite Hleap, Hdby.
    assert (Hdim : (if ((m =? 2) && leap)%bool then 29 else DAYS_IN_MONTH m)
                   = DAYS_IN_MONTH m + (if ((m =? 2) && leap)%bool then 1 else 0)).
    { destruct (Z.eqb_spec m 2) as [->|]; destruct leap; cbn; lia. }
    rewrite Hdim. subst y n0. lia.
Qed.

Lemma mk_timedelta_us (days h m s us : Z) :
  td_us (mk_timedelta days h m s us)
  = (((days * 24 + h) * 60 + m) * 60 + s) * 1000000 + us.
Proof. unfold td_us, mk_timedelta. cbn [td_days td_seconds td_microseconds]. Z.div_mod_to_equations. lia. Qed.

Lemma mk_timedelta_norm (days h m s us : Z) :
  0 <= td_seconds (mk_timedelta days h m s us) < 86400
  /\ 0 <= td_microseconds (mk_timedelta days h m s us) < 1000000.
Proof. unfold mk_timedelta. cbn [td_seconds td_microseconds]. Z.div_mod_to_equations. lia. Qed.

Lemma td_add_us (a b : timedelta) : td_us (td_add a b) = td_us a + td_us b.
Proof. unfold td_add. rewrite mk_timedelta_us. unfold td_us. lia. Qed.

Lemma td_neg_us (a : timedelta) : td_us (td_neg a) = - td_us a.
Proof. unfold td_neg. rewrite mk_timedelta_us. unfold td_us. lia. Qed.

Lemma year_of_ordinal_le (y m d : Z) :
  1 <= m <= 12 -> 1 <= d -> ymd2ord y m d <= MAXORDINAL -> y <= 9999.
Proof.
  intros Hm Hd H. destruct (Z_le_gt_dec y 9999) as [|Hgt]; [assumption|].
  pose proof (days_before_year_mono 10000 y ltac:(lia)) as Hmono.
  change (days_before_year 10000) with 3652059 in Hmono.
  unfold ymd2ord, MAXORDINAL in H.
  assert (0 <= days_before_month y m).
  { unfold days_before_month. destruct (is_leap y); each_month m Hm; cbn; lia. }
  lia.
Qed.

Lemma add_spec (d : datetime) (t : timedelta) :
  valid d = true ->
  (us_per_day <= to_us d + td_us t < (MAXORDINAL + 1) * us_per_day ->
   exists d', add d t = Ok d' /\ valid d' = true /\ to_us d' = to_us d + td_us t)
  /\ (~ us_per_day <= to_us d + td_us t < (MAXORDINAL + 1) * us_per_day ->
      add d t = Raise (OverflowError "date value out of range")).
Proof.
  intros Hv. apply valid_spec in Hv as [Hd Ht]. apply check_time_fields_spec in Ht.
  unfold add.
  set (delta := td_add (mk_timedelta (toordinal d) (hour d) (minute d) (second d)
                                     (microsecond d)) t).
  assert (Hus : td_us delta = to_us d + td_us t).
  { subst delta. rewrite td_add_us, mk_timedelta_us. reflexivity. }
  assert (Hnorm : 0 <= td_seconds delta < 86400 /\ 0 <= td_microseconds delta < 1000000).
  { subst delta. unfold td_add. apply mk_timedelta_norm. }
  change (td_us delta)
    with ((td_days delta * 86400 + td_seconds delta) * 1000000 + td_microseconds delta) in Hus.
  unfold us_per_day, MAXORDINAL in *.
  destruct ((0 <? td_days delta) && (td_days delta <=? 3652059))%bool eqn:E.
  - apply andb_true_iff in E as [E1 E2]. apply Z.ltb_lt in E1. apply Z.leb_le in E2.
    split; [|intros Hn; exfalso; apply Hn; lia].
    intros _.
    pose proof (ord2ymd_spec (td_days delta) ltac:(lia)) as Ho.
    destruct (ord2ymd (td_days delta)) as [[y m] dd].
    destruct Ho as (Hy & Hm & Hdd & Hord).
    eexists. split; [reflexivity|].
    assert (Hy' : y <= 9999).
    { apply (year_of_ordinal_le y m dd); unfold MAXORDINAL; lia. }
    split.
    + apply valid_spec. cbn [year month day hour minute second microsecond]. split.
      * apply check_date_fields_spec. lia.
      * apply check_time_fields_spec. Z.div_mod_to_equations. lia.
    + rewrite <- Hus. unfold to_us, toordinal.
      cbn [year month day hour minute second microsecond].
      rewrite Hord. Z.div_mod_to_equations. lia.
  - split; [|reflexivity].
    intros Hr. exfalso.
    apply andb_false_iff in E. rewrite Z.ltb_ge, Z.leb_gt in E. lia.
Qed.

(** ** Date Window Resolver *)

Lemma toordinal_range (y m d : Z) :
  check_date_fields y m d = true -> 1 <= ymd2ord y m d <= MAXORDINAL.
Proof.
  rewrite check_date_fields_spec. intros (Hy & Hm & Hd).
  pose proof (day_of_year_bounds y m d Hm Hd) as B.
  pose proof (days_before_year_succ y) as S1.
  pose proof (days_before_year_mono (y + 1) 10000 ltac:(lia)) as M1.
  pose proof (days_before_year_mono 1 y ltac:(lia)) as M2.
  change (days_before_year 10000) with 3652059 in M1.
  change (days_before_year 1) with 0 in M2.
  unfold ymd2ord, MAXORDINAL. lia.
Qed.

Lemma strptime_valid (s : string) (d : datetime) :
  Strptime.strptime s = Ok d ->
  valid d = true /\ hour d = 0 /\ minute d = 0 /\ second d = 0 /\ microsecond d = 0.
Proof.
  unfold Strptime.strptime.
  destruct (Strptime.format_regex s) as [|[[[y m] dd] rest] l]; [discriminate|].
  destruct (negb (String.eqb rest "")); [discriminate|].
  destruct (check_date_fields _ _ _) eqn:E; [|discriminate].
  intros [= <-]. unfold valid. cbn [year month day hour minute second microsecond].
  rewrite E. repeat split.
Qed.

Lemma parse_date_utc_strptime (s : string) (d : datetime) :
  parse_date_utc s = Ok d <-> Strptime.strptime s = Ok d.
Proof.
  unfold parse_date_utc, replace_tz_utc.
  destruct (Strptime.strptime s) as [d'|[]]; split; intros H; try discriminate H; exact H.
Qed.

Lemma parse_date_utc_valid (s : string) (d : datetime) :
  parse_date_utc s = Ok d ->
  valid d = true /\ hour d = 0 /\ minute d = 0 /\ second d = 0 /\ microsecond d = 0.
Proof. rewrite parse_date_utc_strptime. apply strptime_valid. Qed.

(** Adding 23:59:59.999999 to the midnight of a date gives the last instant
    of that date. *)
Lemma end_of_day (d : datetime) :
  valid d = true -> hour d = 0 -> minute d = 0 -> second d = 0 -> microsecond d = 0 ->
  add d (mk_timedelta 0 23 59 59 999999)
  = Ok (Datetime (year d) (month d) (day d) 23 59 59 999999).
Proof.
  intros Hv Hh Hm Hs Hu.
  destruct (add_spec d (mk_timedelta 0 23 59 59 999999) Hv) as [Hok _].
  pose proof Hv as Hv'. apply valid_spec in Hv' as [Hd _].
  pose proof (toordinal_range _ _ _ Hd) as Hr.
  assert (Hus : to_us d = toordinal d * us_per_day).
  { unfold to_us, us_per_day. rewrite Hh, Hm, Hs, Hu. lia. }
  change (td_us (mk_timedelta 0 23 59 59 999999)) with 86399999999 in Hok.
  unfold toordinal in Hus. unfold us_per_day, MAXORDINAL in *.
  destruct Hok as (d' & Hadd & Hv2 & Hus2); [lia|].
  rewrite Hadd. f_equal. apply to_us_inj; [assumption| |].
  - apply valid_spec. cbn [year month day hour minute second microsecond].
    split; [assumption | reflexivity].
  - rewrite Hus2, Hus. unfold to_us, toordinal.
    cbn [year month day hour minute second microsecond]. lia.
Qed.

(** What a successful resolution computed. *)
Lemma resolve_window_inv (date_start : string) (date_end : option string) (now : datetime)
    (w : window) :
  resolve_window date_start date_end now = Ok w ->
  parse_date_utc date_start = Ok (w_start w)
  /\ match date_end with
     | Some s =>
         if negb (String.eqb s "") then
           exists d, parse_date_utc s = Ok d
                     /\ w_end w = Datetime (year d) (month d) (day d) 23 59 59 999999
         else w_end w = now
     | None => w_end w = now
     end
  /\ lt (w_end w) (w_start w) = false
  /\ sub (w_start w) (mk_timedelta 0 0 0 1 0) = Ok (w_after w)
  /\ add (w_end w) (mk_timedelta 0 0 0 1 0) = Ok (w_before w).
Proof.
  unfold resolve_window.
  destruct (parse_date_utc date_start) as [s0|e] eqn:Es; [|discriminate].
  cbn [mbind result_bind].
  set (e := match date_end with
            | Some s => if negb (String.eqb s "")
                        then d ← parse_date_utc s; add d (mk_timedelta 0 23 59 59 999999)
                        else Ok now
            | None => Ok now
            end).
  destruct e as [e0|] eqn:Ee; [|discriminate].
  cbn [mbind result_bind].
  destruct (lt e0 s0) eqn:Elt; [discriminate|].
  destruct (sub s0 (mk_timedelta 0 0 0 1 0)) as [a|] eqn:Ea; [|discriminate].
  cbn [mbind result_bind].
  destruct (add e0 (mk_timedelta 0 0 0 1 0)) as [b|] eqn:Eb; [|discriminate].
  cbn [mbind result_bind]. intros [= <-]. cbn [w_start w_end w_after w_before].
  repeat split; try assumption.
  subst e. destruct date_end as [s|]; [|congruence].
  destruct (negb (String.eqb s "")); [|congruence].
  destruct (parse_date_utc s) as [d|] eqn:Ed; [|discriminate].
  cbn [mbind result_bind] in Ee.
  destruct (parse_date_utc_valid s d Ed) as (Hv & Hh & Hm & Hs & Hu).
  rewrite (end_of_day d Hv Hh Hm Hs Hu) in Ee. exists d. split; congruence.
Qed.

(** ** Ingestion Driver: the shape of a step *)

(** The six ways the body of the attachment loop ends: five return, the
    sixth is [exists] raising, which nothing in the loop catches. *)
Lemma process_attachment_cases
    (env : remote) (g : guild) (ch : channel) (msg : message) (created_utc : datetime)
    (st : state) (att : attachment) :
  let key := PyStr.of_int (att_id att) in
  let dest := dest_of msg att in
  let recorded := (st_manifest st ++ [row_of g ch msg created_utc att])%list in
  let called := log [CallSave (att_id att) (PyPath.to_string dest)] st in
  (is_media att = false
   /\ process_attachment env g ch msg created_utc st att = Ok st)
  \/ (is_media att = true /\ has_key (st_manifest st) key = true
      /\ process_attachment env g ch msg created_utc st att = Ok (incr_skipped st))
  \/ (is_media att = true /\ has_key (st_manifest st) key = false
      /\ path_exists (st_disk st) dest = Ok true
      /\ process_attachment env g ch msg created_utc st att
         = Ok (incr_skipped (set_manifest recorded st)))
  \/ (is_media att = true /\ has_key (st_manifest st) key = false
      /\ path_exists (st_disk st) dest = Ok false
      /\ exists data,
           save env msg att = SaveOk data
           /\ process_attachment env g ch msg created_utc st att
              = Ok (incr_downloaded
                      (log [PrintSaved (PyPath.name dest)]
                           (set_manifest recorded (write_file dest (Some data) called)))))
  \/ (is_media att = true /\ has_key (st_manifest st) key = false
      /\ path_exists (st_disk st) dest = Ok false
      /\ exists partial,
           save env msg att = SaveRaises partial
           /\ process_attachment env g ch msg created_utc st att
              = Ok (log [PrintErrorSaving (att_id att) (msg_id msg)]
                        (write_file dest partial called)))
  \/ (is_media att = true /\ has_key (st_manifest st) key = false
      /\ exists e,
           path_exists (st_disk st) dest = Raise e
           /\ process_attachment env g ch msg created_utc st att = Raise e).
Proof.
  cbv zeta. unfold process_attachment. fold (dest_of msg att).
  assert (Hname : PyPath.name (dest_of msg att)
                  = compute_filename (msg_author_id msg) (msg_created_at msg) (att_id att)
                      (att_filename att)).
  { unfold dest_of. now rewrite dest_in_download_dir. }
  destruct (is_media att); [|left; split; reflexivity]. right. cbn [negb].
  rewrite db_has_attachment_has_key.
  destruct (has_key (st_manifest st) (PyStr.of_int (att_id att))) eqn:Ek;
    [left; repeat split; reflexivity|]. right.
  destruct (path_exists (st_disk st) (dest_of msg att)) as [[|]|e] eqn:Ex;
    cbn [mbind result_bind].
  - left. repeat split. rewrite db_insert_ok, Ek. cbn [mbind result_bind].
    unfold row_of. now rewrite Hname.
  - right. destruct (save env msg att) as [data|partial] eqn:Es.
    + left. repeat split. exists data. split; [reflexivity|].
      rewrite db_insert_ok.
      cbn [write_file log st_manifest]. rewrite Ek. unfold row_of. now rewrite Hname.
    + right. left. repeat split. exists partial. split; reflexivity.
  - right. right. right. repeat split. exists e. split; reflexivity.
Qed.

(** ** Ingestion Driver: a run that meets every attachment *)

Lemma clean_app (l1 l2 : list event) : clean (l1 ++ l2) <-> clean l1 /\ clean l2.
Proof. unfold clean. apply Forall_app. Qed.

Lemma handled_refl (st : state) : handled st st [].
Proof.
  exists []. rewrite app_nil_r. split; [reflexivity|]. split; [auto|].
  intros _. split; [intros a [] | cbn; lia].
Qed.

Lemma handled_trans (st st' st'' : state) (l1 l2 : list attachment) :
  handled st st' l1 -> handled st' st'' l2 -> handled st st'' (l1 ++ l2).
Proof.
  intros (e1 & L1 & M1 & C1) (e2 & L2 & M2 & C2).
  exists (e1 ++ e2)%list. split; [now rewrite L2, L1, app_assoc|].
  split; [auto|].
  intros Hc. apply clean_app in Hc as [Hc1 Hc2].
  destruct (C1 Hc1) as [K1 N1]. destruct (C2 Hc2) as [K2 N2]. split.
  - intros a Ha. apply in_app_iff in Ha as [Ha|Ha]; auto.
  - rewrite length_app, Nat2Z.inj_add. lia.
Qed.

Lemma handled_log (evs : list event) (st : state) : handled st (log evs st) [].
Proof.
  exists evs. split; [reflexivity|]. split; [auto|].
  intros _. split; [intros a [] | cbn; lia].
Qed.

Lemma handled_incr_seen (st : state) : handled st (incr_seen st) [].
Proof.
  exists []. cbn [incr_seen st_log st_manifest total_downloaded total_skipped length].
  rewrite app_nil_r. split; [reflexivity|]. split; [auto|].
  intros _. split; [intros a [] | lia].
Qed.

(** Once a failure line is printed the summary holds for any list. *)
Lemma handled_failed (st st' : state) (l l' : list attachment) (e : event) :
  is_error_event e = true -> handled st st' l -> handled st (log [e] st') l'.
Proof.
  intros He (e1 & L1 & M1 & _).
  exists (e1 ++ [e])%list. cbn [log st_log st_manifest].
  split; [now rewrite L1, app_assoc|]. split; [assumption|].
  intros Hc. apply clean_app in Hc as [_ Hc]. inversion Hc; subst. congruence.
Qed.

Lemma has_key_snoc (t : table) (r : row) (k : string) :
  has_key (t ++ [r])%list k = (has_key t k || String.eqb (r_attachment_id r) k)%bool.
Proof. rewrite has_key_app. unfold has_key at 2. cbn. now rewrite orb_false_r. Qed.

Lemma process_attachment_handled
    (env : remote) (g : guild) (ch : channel) (msg : message) (created_utc : datetime)
    (st st' : state) (att : attachment) :
  process_attachment env g ch msg created_utc st att = Ok st' ->
  handled st st' (if is_media att then [att] else []).
Proof.
  intros E.
  destruct (process_attachment_cases env g ch msg created_utc st att)
    as [(Hm & Hs) | [(Hm & Hk & Hs) | [(Hm & Hk & Hx & Hs) | [(Hm & Hk & Hx & d & Hd & Hs)
       | [(Hm & Hk & Hx & p & Hp & Hs) | (Hm & Hk & e & Hx & Hs)]]]]];
    rewrite Hs in E; [injection E as <-..|discriminate]; rewrite Hm.
  - apply handled_refl.
  - exists []. st_simpl. rewrite app_nil_r. split; [reflexivity|]. split; [auto|].
    intros _. split; [|lia]. intros a [<-|[]]. exact Hk.
  - exists []. st_simpl. rewrite app_nil_r. split; [reflexivity|]. split.
    + intros k H. rewrite has_key_snoc, H. reflexivity.
    + intros _. split; [|lia].
      intros a [<-|[]]. rewrite has_key_snoc. cbn [row_of r_attachment_id].
      rewrite String.eqb_refl. apply orb_true_r.
  - eexists. st_simpl. rewrite <- app_assoc. split; [reflexivity|]. split.
    + intros k H. rewrite has_key_snoc, H. reflexivity.
    + intros _. split; [|lia].
      intros a [<-|[]]. rewrite has_key_snoc. cbn [row_of r_attachment_id].
      rewrite String.eqb_refl. apply orb_true_r.
  - eexists. split; [|split].
    + destruct p; st_simpl; rewrite <- app_assoc; reflexivity.
    + destruct p; st_simpl; auto.
    + intros Hc. apply clean_app in Hc as [_ Hc]. inversion Hc; subst. discriminate.
Qed.

Lemma process_attachments_handled
    (env : remote) (g : guild) (ch : channel) (msg : message) (created_utc : datetime)
    (atts : list attachment) (st st' : state) :
  process_attachments env g ch msg created_utc st atts = Ok st' ->
  handled st st' (List.filter is_media atts).
Proof.
  revert st. induction atts as [|a atts IH]; intros st; cbn [process_attachments List.filter].
  - intros [= <-]. apply handled_refl.
  - destruct (process_attachment env g ch msg created_utc st a) as [st1|] eqn:E1;
      [|discriminate].
    cbn [mbind result_bind]. intros E2.
    pose proof (handled_trans _ _ _ _ _
                  (process_attachment_handled _ _ _ _ _ _ _ _ E1) (IH _ E2)) as H.
    destruct (is_media a); exact H.
Qed.

Lemma process_message_handled
    (env : remote) (start_dt end_dt : datetime) (g : guild) (ch : channel)
    (st st' : state) (msg : message) :
  process_message env start_dt end_dt g ch st msg = Ok st' ->
  handled st st' (media_of_message start_dt end_dt msg).
Proof.
  unfold process_message, media_of_message.
  destruct (msg_attachments msg) as [|a atts] eqn:Ea.
  - intros [= <-]. apply handled_incr_seen.
  - destruct (in_window start_dt end_dt (replace_tz_utc (msg_created_at msg))); cbn [negb].
    + intros E.
      apply (handled_trans _ _ _ [] _ (handled_incr_seen st)
               (process_attachments_handled _ _ _ _ _ _ _ _ E)).
    + intros [= <-]. apply handled_incr_seen.
Qed.

Lemma process_messages_handled
    (env : remote) (start_dt end_dt : datetime) (g : guild) (ch : channel)
    (msgs : list message) (st st' : state) :
  process_messages env start_dt end_dt g ch st msgs = Ok st' ->
  handled st st' (media_of_messages start_dt end_dt msgs).
Proof.
  revert st. induction msgs as [|m msgs IH]; intros st; cbn [process_messages].
  - intros [= <-]. apply handled_refl.
  - destruct (process_message env start_dt end_dt g ch st m) as [st1|] eqn:E1; [|discriminate].
    cbn [mbind result_bind]. intros E2.
    exact (handled_trans _ _ _ _ _ (process_message_handled _ _ _ _ _ _ _ _ E1) (IH _ E2)).
Qed.

Lemma process_channel_handled
    (env : remote) (start_dt end_dt after before : datetime) (g : guild)
    (st st' : state) (ch : channel) :
  process_channel env start_dt end_dt after before g st ch = Ok st' ->
  handled st st' (media_of_messages start_dt end_dt (messages_between after before ch)).
Proof.
  unfold process_channel, bounded_history, history.
  fold (messages_between after before ch).
  set (st0 := log [PrintChannel (ch_id ch); CallHistory (ch_id ch) after before] st).
  assert (H0 : handled st st0 []) by apply handled_log.
  destruct (fault env ch) as [[n f]|].
  - destruct (process_messages env start_dt end_dt g ch st0
                (firstn n (messages_between after before ch))) as [st1|] eqn:E1;
      [|discriminate].
    cbn [mbind result_bind]. intros [= <-].
    pose proof (handled_trans _ _ _ _ _ H0 (process_messages_handled _ _ _ _ _ _ _ _ E1)) as H.
    destruct f; eapply handled_failed; try exact H; reflexivity.
  - destruct (process_messages env start_dt end_dt g ch st0
                (messages_between after before ch)) as [st1|] eqn:E1; [|discriminate].
    cbn [mbind result_bind]. intros [= <-].
    exact (handled_trans _ _ _ _ _ H0 (process_messages_handled _ _ _ _ _ _ _ _ E1)).
Qed.

Lemma process_channels_handled
    (env : remote) (start_dt end_dt after before : datetime) (g : guild)
    (chs : list channel) (st st' : state) :
  process_channels env start_dt end_dt after before g st chs = Ok st' ->
  handled st st'
    (flat_map (fun ch => media_of_messages start_dt end_dt
                           (messages_between after before ch)) chs).
Proof.
  revert st. induction chs as [|c chs IH]; intros st; cbn [process_channels flat_map].
  - intros [= <-]. apply handled_refl.
  - destruct (process_channel env start_dt end_dt after before g st c) as [st1|] eqn:E1;
      [|discriminate].
    cbn [mbind result_bind]. intros E2.
    exact (handled_trans _ _ _ _ _ (process_channel_handled _ _ _ _ _ _ _ _ _ E1) (IH _ E2)).
Qed.

Lemma on_ready_handled
    (env : remote) (w : window) (client_guilds : list guild) (guild_id : Z)
    (conn : table) (disk : gmap string string) (st' : state) :
  on_ready env (w_start w) (w_end w) (w_after w) (w_before w) client_guilds guild_id conn disk
  = Ok st' ->
  handled (State conn disk 0 0 0 []) st' (media_of_run w client_guilds guild_id).
Proof.
  unfold on_ready, media_of_run, media_of_guild.
  destruct (List.find _ client_guilds) as [g|].
  - set (st0 := log [PrintScanning (g_id g)] (State conn disk 0 0 0 [])).
    destruct (process_channels env (w_start w) (w_end w) (w_after w) (w_before w) g st0
                (List.filter ch_read_message_history (g_text_channels g)))
      as [st1|] eqn:E1; [|discriminate].
    cbn [mbind result_bind]. intros [= <-].
    pose proof (handled_trans _ _ _ _ _ (handled_log [PrintScanning (g_id g)] _)
                  (process_channels_handled _ _ _ _ _ _ _ _ _ E1)) as H.
    pose proof (handled_trans _ _ _ _ _ H
                  (handled_log [PrintSummary (total_seen st1) (total_downloaded st1)
                                             (total_skipped st1)] st1)) as H'.
    rewrite app_nil_r in H'. exact H'.
  - intros [= <-]. apply handled_log.
Qed.

(** ** Ingestion Driver: a run over attachments the manifest knows *)

Lemma replayed_refl (st : state) : replayed st st [].
Proof.
  repeat split. exists []. rewrite app_nil_r. cbn [length]. repeat split; auto; lia.
Qed.

Lemma replayed_trans (st st' st'' : state) (l1 l2 : list attachment) :
  replayed st st' l1 -> replayed st' st'' l2 -> replayed st st'' (l1 ++ l2).
Proof.
  intros (M1 & D1 & N1 & e1 & L1 & S1 & B1 & C1) (M2 & D2 & N2 & e2 & L2 & S2 & B2 & C2).
  unfold replayed. rewrite M2, D2, N2. repeat split; try assumption.
  exists (e1 ++ e2)%list. rewrite L2, L1, app_assoc, length_app, Nat2Z.inj_add.
  split; [reflexivity|]. split; [now apply Forall_app|]. split; [lia|].
  intros Hc. apply clean_app in Hc as [Hc1 Hc2]. rewrite (C2 Hc2), (C1 Hc1). lia.
Qed.

Lemma replayed_log (evs : list event) (st : state) :
  Forall (fun e => is_save_event e = false) evs -> replayed st (log evs st) [].
Proof.
  intros H. repeat split. exists evs. st_simpl. repeat split; auto; lia.
Qed.

Lemma replayed_incr_seen (st : state) : replayed st (incr_seen st) [].
Proof.
  repeat split. exists []. st_simpl. rewrite app_nil_r. repeat split; auto; lia.
Qed.

Lemma replayed_failed (st st' : state) (l l' : list attachment) (e : event) :
  is_error_event e = true -> (length l <= length l')%nat ->
  replayed st st' l -> replayed st (log [e] st') l'.
Proof.
  intros He Hl (M1 & D1 & N1 & e1 & L1 & S1 & B1 & C1).
  repeat split; try assumption.
  exists (e1 ++ [e])%list. st_simpl. rewrite L1, app_assoc.
  split; [reflexivity|]. split.
  - apply Forall_app. split; [assumption|]. constructor; [|constructor].
    destruct e; try discriminate He; reflexivity.
  - split; [lia|].
    intros Hc. apply clean_app in Hc as [_ Hc]. inversion Hc; subst. congruence.
Qed.

Lemma process_attachment_replayed
    (env : remote) (g : guild) (ch : channel) (msg : message) (created_utc : datetime)
    (st : state) (att : attachment) :
  known (st_manifest st) (if is_media att then [att] else []) ->
  exists st',
    process_attachment env g ch msg created_utc st att = Ok st'
    /\ replayed st st' (if is_media att then [att] else []).
Proof.
  intros Hk.
  destruct (process_attachment_cases env g ch msg created_utc st att)
    as [(Hm & Hs) | [(Hm & Hk' & Hs) | [(Hm & Hk' & _) | [(Hm & Hk' & _)
       | [(Hm & Hk' & _) | (Hm & Hk' & _)]]]]];
    rewrite Hm in *.
  - rewrite Hs. eexists. split; [reflexivity | apply replayed_refl].
  - rewrite Hs. eexists. split; [reflexivity|].
    repeat split. exists []. st_simpl. rewrite app_nil_r. repeat split; auto; lia.
  - rewrite (Hk att) in Hk' by now left. discriminate.
  - rewrite (Hk att) in Hk' by now left. discriminate.
  - rewrite (Hk att) in Hk' by now left. discriminate.
  - rewrite (Hk att) in Hk' by now left. discriminate.
Qed.

Lemma known_app (t : table) (l1 l2 : list attachment) :
  known t (l1 ++ l2) <-> known t l1 /\ known t l2.
Proof.
  unfold known. split.
  - intros H. split; intros a Ha; apply H, in_app_iff; auto.
  - intros [H1 H2] a Ha. apply in_app_iff in Ha as [Ha|Ha]; auto.
Qed.

Lemma process_attachments_replayed
    (env : remote) (g : guild) (ch : channel) (msg : message) (created_utc : datetime)
    (atts : list attachment) (st : state) :
  known (st_manifest st) (List.filter is_media atts) ->
  exists st',
    process_attachments env g ch msg created_utc st atts = Ok st'
    /\ replayed st st' (List.filter is_media atts).
Proof.
  revert st. induction atts as [|a atts IH]; intros st Hk;
    cbn [process_attachments List.filter] in *.
  - eexists. split; [reflexivity | apply replayed_refl].
  - assert (Hk' : known (st_manifest st)
                    ((if is_media a then [a] else []) ++ List.filter is_media atts)).
    { destruct (is_media a); exact Hk. }
    apply known_app in Hk' as [Hk1 Hk2].
    destruct (process_attachment_replayed env g ch msg created_utc st a Hk1)
      as (st1 & E1 & H1).
    rewrite E1. cbn [mbind result_bind].
    destruct (IH st1) as (st2 & E2 & H2).
    { destruct H1 as [-> _]. exact Hk2. }
    exists st2. split; [exact E2|].
    pose proof (replayed_trans _ _ _ _ _ H1 H2) as H.
    destruct (is_media a); exact H.
Qed.

Lemma process_message_replayed
    (env : remote) (start_dt end_dt : datetime) (g : guild) (ch : channel)
    (st : state) (msg : message) :
  known (st_manifest st) (media_of_message start_dt end_dt msg) ->
  exists st',
    process_message env start_dt end_dt g ch st msg = Ok st'
    /\ replayed st st' (media_of_message start_dt end_dt msg).
Proof.
  unfold process_message, media_of_message.
  destruct (msg_attachments msg) as [|a atts] eqn:Ea.
  - intros _. eexists. split; [reflexivity | apply replayed_incr_seen].
  - destruct (in_window start_dt end_dt (replace_tz_utc (msg_created_at msg))); cbn [negb].
    + intros Hk.
      destruct (process_attachments_replayed env g ch msg (replace_tz_utc (msg_created_at msg))
                  (a :: atts) (incr_seen st) Hk) as (st' & E & H).
      exists st'. split; [exact E|].
      apply (replayed_trans _ _ _ [] _ (replayed_incr_seen st) H).
    + intros _. eexists. split; [reflexivity | apply replayed_incr_seen].
Qed.

Lemma process_messages_replayed
    (env : remote) (start_dt end_dt : datetime) (g : guild) (ch : channel)
    (msgs : list message) (st : state) :
  known (st_manifest st) (media_of_messages start_dt end_dt msgs) ->
  exists st',
    process_messages env start_dt end_dt g ch st msgs = Ok st'
    /\ replayed st st' (media_of_messages start_dt end_dt msgs).
Proof.
  revert st. induction msgs as [|m msgs IH]; intros st Hk;
    cbn [process_messages media_of_messages flat_map] in *.
  - eexists. split; [reflexivity | apply replayed_refl].
  - apply known_app in Hk as [Hk1 Hk2].
    destruct (process_message_replayed env start_dt end_dt g ch st m Hk1) as (st1 & E1 & H1).
    rewrite E1. cbn [mbind result_bind].
    destruct (IH st1) as (st2 & E2 & H2).
    { destruct H1 as [-> _]. exact Hk2. }
    exists st2. split; [exact E2|].
    exact (replayed_trans _ _ _ _ _ H1 H2).
Qed.

Lemma media_of_messages_firstn (start_dt end_dt : datetime) (n : nat) (ms : list message) :
  media_of_messages start_dt end_dt ms
  = (media_of_messages start_dt end_dt (firstn n ms)
     ++ media_of_messages start_dt end_dt (skipn n ms))%list.
Proof.
  unfold media_of_messages. rewrite <- flat_map_app. now rewrite firstn_skipn.
Qed.

Lemma process_channel_replayed
    (env : remote) (start_dt end_dt after before : datetime) (g : guild)
    (st : state) (ch : channel) :
  known (st_manifest st)
        (media_of_messages start_dt end_dt (messages_between after before ch)) ->
  exists st',
    process_channel env start_dt end_dt after before g st ch = Ok st'
    /\ replayed st st' (media_of_messages start_dt end_dt (messages_between after before ch)).
Proof.
  intros Hk. unfold process_channel, bounded_history, history.
  fold (messages_between after before ch).
  set (st0 := log [PrintChannel (ch_id ch); CallHistory (ch_id ch) after before] st).
  assert (H0 : replayed st st0 []).
  { apply replayed_log. repeat constructor. }
  destruct (fault env ch) as [[n f]|].
  - rewrite (media_of_messages_firstn start_dt end_dt n) in Hk.
    apply known_app in Hk as [Hk _].
    destruct (process_messages_replayed env start_dt end_dt g ch
                (firstn n (messages_between after before ch)) st0 Hk) as (st1 & E1 & H1).
    rewrite E1. cbn [mbind result_bind]. eexists. split; [reflexivity|].
    pose proof (replayed_trans _ _ _ _ _ H0 H1) as H.
    assert (Hlen : (length ([] ++ media_of_messages start_dt end_dt
                                    (firstn n (messages_between after before ch)))
                    <= length (media_of_messages start_dt end_dt
                                 (messages_between after before ch)))%nat).
    { rewrite (media_of_messages_firstn start_dt end_dt n (messages_between after before ch)).
      cbn [app]. rewrite length_app. lia. }
    destruct f; eapply replayed_failed; try exact H; try exact Hlen; reflexivity.
  - destruct (process_messages_replayed env start_dt end_dt g ch
                (messages_between after before ch) st0 Hk) as (st1 & E1 & H1).
    rewrite E1. cbn [mbind result_bind]. eexists. split; [reflexivity|].
    exact (replayed_trans _ _ _ _ _ H0 H1).
Qed.

Lemma process_channels_replayed
    (env : remote) (start_dt end_dt after before : datetime) (g : guild)
    (chs : list channel) (st : state) :
  known (st_manifest st)
        (flat_map (fun ch => media_of_messages start_dt end_dt
                               (messages_between after before ch)) chs) ->
  exists st',
    process_channels env start_dt end_dt after before g st chs = Ok st'
    /\ replayed st st'
         (flat_map (fun ch => media_of_messages start_dt end_dt
                                (messages_between after before ch)) chs).
Proof.
  revert st. induction chs as [|c chs IH]; intros st Hk;
    cbn [process_channels flat_map] in *.
  - eexists. split; [reflexivity | apply replayed_refl].
  - apply known_app in Hk as [Hk1 Hk2].
    destruct (process_channel_replayed env start_dt end_dt after before g st c Hk1)
      as (st1 & E1 & H1).
    rewrite E1. cbn [mbind result_bind].
    destruct (IH st1) as (st2 & E2 & H2).
    { destruct H1 as [-> _]. exact Hk2. }
    exists st2. split; [exact E2|].
    exact (replayed_trans _ _ _ _ _ H1 H2).
Qed.

Lemma on_ready_replayed
    (env : remote) (w : window) (client_guilds : list guild) (guild_id : Z)
    (conn : table) (disk : gmap string string) :
  known conn (media_of_run w client_guilds guild_id) ->
  exists st',
    on_ready env (w_start w) (w_end w) (w_after w) (w_before w) client_guilds guild_id conn disk
    = Ok st'
    /\ replayed (State conn disk 0 0 0 []) st' (media_of_run w client_guilds guild_id).
Proof.
  unfold on_ready, media_of_run, media_of_guild.
  destruct (List.find _ client_guilds) as [g|]; intros Hk.
  - set (st0 := log [PrintScanning (g_id g)] (State conn disk 0 0 0 [])).
    destruct (process_channels_replayed env (w_start w) (w_end w) (w_after w) (w_before w) g
                (List.filter ch_read_message_history (g_text_channels g)) st0 Hk)
      as (st1 & E1 & H1).
    rewrite E1. cbn [mbind result_bind]. eexists. split; [reflexivity|].
    assert (Ha : replayed (State conn disk 0 0 0 []) st0 []).
    { apply replayed_log. repeat constructor. }
    pose proof (replayed_trans _ _ _ _ _ Ha H1) as H.
    assert (Hb : replayed st1 (log [PrintSummary (total_seen st1) (total_downloaded st1)
                                                 (total_skipped st1)] st1) []).
    { apply replayed_log. repeat constructor. }
    pose proof (replayed_trans _ _ _ _ _ H Hb) as H'.
    rewrite app_nil_r in H'. exact H'.
  - eexists. split; [reflexivity|]. apply replayed_log. repeat constructor.
Qed.

(** ** Ingestion Driver: the history queries of a run *)






(** ** Ingestion Driver: what a run keeps *)

Lemma keeps_refl (st : state) : keeps st st.
Proof. split; [auto | reflexivity]. Qed.

Lemma keeps_trans (st st' st'' : state) : keeps st st' -> keeps st' st'' -> keeps st st''.
Proof. intros [U1 D1] [U2 D2]. split; [auto | now transitivity (st_disk st')]. Qed.

Lemma path_exists_false (disk : gmap string string) (p : PyPath.path) :
  path_exists disk p = Ok false -> disk !! PyPath.to_string p = None.
Proof.
  unfold path_exists. destruct (NAME_MAX <? _); [discriminate|].
  now destruct (disk !! PyPath.to_string p).
Qed.

Lemma process_attachment_keeps
    (env : remote) (g : guild) (ch : channel) (msg : message) (created_utc : datetime)
    (st st' : state) (att : attachment) :
  process_attachment env g ch msg created_utc st att = Ok st' -> keeps st st'.
Proof.
  intros E.
  destruct (process_attachment_cases env g ch msg created_utc st att)
    as [(_ & Hs) | [(_ & _ & Hs) | [(_ & Hk & _ & Hs) | [(_ & Hk & Hx & d & _ & Hs)
       | [(_ & Hk & Hx & p & _ & Hs) | (_ & _ & e & _ & Hs)]]]]];
    rewrite Hs in E; [injection E as <-..|discriminate].
  - apply keeps_refl.
  - split; st_simpl; [auto | reflexivity].
  - split; [|reflexivity]. st_simpl. intros Hu.
    pose proof (unique_keys_insert _ (row_of g ch msg created_utc att) Hu) as Hu'.
    cbn [row_of r_attachment_id] in Hu'. now rewrite Hk in Hu'.
  - split; st_simpl.
    + intros Hu.
      pose proof (unique_keys_insert _ (row_of g ch msg created_utc att) Hu) as Hu'.
      cbn [row_of r_attachment_id] in Hu'. now rewrite Hk in Hu'.
    + apply insert_subseteq. now apply path_exists_false.
  - split; [destruct p; st_simpl; auto|].
    destruct p; st_simpl; [|reflexivity].
    apply insert_subseteq. now apply path_exists_false.
Qed.

Lemma process_attachments_keeps
    (env : remote) (g : guild) (ch : channel) (msg : message) (created_utc : datetime)
    (atts : list attachment) (st st' : state) :
  process_attachments env g ch msg created_utc st atts = Ok st' -> keeps st st'.
Proof.
  revert st. induction atts as [|a atts IH]; intros st; cbn [process_attachments].
  - intros [= <-]. apply keeps_refl.
  - destruct (process_attachment env g ch msg created_utc st a) as [st1|] eqn:E1;
      [|discriminate].
    cbn [mbind result_bind]. intros E2.
    exact (keeps_trans _ _ _ (process_attachment_keeps _ _ _ _ _ _ _ _ E1) (IH _ E2)).
Qed.

Lemma process_messages_keeps
    (env : remote) (start_dt end_dt : datetime) (g : guild) (ch : channel)
    (msgs : list message) (st st' : state) :
  process_messages env start_dt end_dt g ch st msgs = Ok st' -> keeps st st'.
Proof.
  revert st. induction msgs as [|m msgs IH]; intros st; cbn [process_messages].
  - intros [= <-]. apply keeps_refl.
  - destruct (process_message env start_dt end_dt g ch st m) as [st1|] eqn:E1; [|discriminate].
    cbn [mbind result_bind]. intros E2. refine (keeps_trans _ _ _ _ (IH _ E2)).
    unfold process_message in E1.
    destruct (msg_attachments m) as [|a atts];
      [injection E1 as <-; split; st_simpl; [auto | reflexivity]|].
    destruct (negb _); [injection E1 as <-; split; st_simpl; [auto | reflexivity]|].
    refine (keeps_trans _ (incr_seen st) _ _ _); [split; st_simpl; [auto | reflexivity]|].
    apply (process_attachments_keeps _ _ _ _ _ _ _ _ E1).
Qed.

Lemma process_channels_keeps
    (env : remote) (start_dt end_dt after before : datetime) (g : guild)
    (chs : list channel) (st st' : state) :
  process_channels env start_dt end_dt after before g st chs = Ok st' -> keeps st st'.
Proof.
  revert st. induction chs as [|c chs IH]; intros st; cbn [process_channels].
  - intros [= <-]. apply keeps_refl.
  - destruct (process_channel env start_dt end_dt after before g st c) as [st1|] eqn:E1;
      [|discriminate].
    cbn [mbind result_bind]. intros E2. refine (keeps_trans _ _ _ _ (IH _ E2)).
    unfold process_channel in E1.
    destruct (bounded_history env c after before) as [msgs f].
    destruct (process_messages env start_dt end_dt g c _ msgs) as [st0|] eqn:E0;
      [|discriminate].
    cbn [mbind result_bind] in E1. injection E1 as <-.
    pose proof (process_messages_keeps _ _ _ _ _ _ _ _ E0) as [U0 D0].
    destruct f as [[|e]|]; split; st_simpl; assumption.
Qed.

(** A run keeps the primary-key constraint of the manifest and every file
    that was in the download directory, with its content. *)
Lemma on_ready_keeps
    (env : remote) (start_dt end_dt after before : datetime)
    (client_guilds : list guild) (guild_id : Z) (conn : table) (disk : gmap string string)
    (st' : state) :
  on_ready env start_dt end_dt after before client_guilds guild_id conn disk = Ok st' ->
  (unique_keys conn -> unique_keys (st_manifest st'))
  /\ forall p data, disk !! p = Some data -> st_disk st' !! p = Some data.
Proof.
  unfold on_ready. intros E.
  assert (H : keeps (State conn disk 0 0 0 []) st').
  { destruct (List.find _ client_guilds) as [g|].
    - destruct (process_channels env start_dt end_dt after before g _ _) as [st1|] eqn:E1;
        [|discriminate].
      cbn [mbind result_bind] in E. injection E as <-.
      destruct (process_channels_keeps _ _ _ _ _ _ _ _ _ E1) as [U1 D1].
      split; st_simpl; assumption.
    - injection E as <-. split; st_simpl; [auto | reflexivity]. }
  destruct H as [Hu Hd]. split; [exact Hu|].
  intros p data Hp. exact (lookup_weaken _ _ _ _ Hp Hd).
Qed.

(** ** Ingestion Driver: repair and failure *)

(** C3: for a media attachment that the manifest does not know and whose
    destination file is already on disk, the driver makes no call to [save],
    leaves the disk as it is, ends with exactly one manifest row for the
    attachment, keeps the primary-key constraint, and counts the attachment
    as skipped, not as downloaded. *)
Theorem disk_repair_records_without_fetching
    (env : remote) (g : guild) (ch : channel) (msg : message) (created_utc : datetime)
    (st : state) (att : attachment) :
  is_media att = true ->
  db_has_attachment (st_manifest st) (att_id att) = false ->
  path_exists (st_disk st) (dest_of msg att) = Ok true ->
  exists st',
    process_attachment env g ch msg created_utc st att = Ok st'
    /\ st_log st' = st_log st
    /\ st_disk st' = st_disk st
    /\ select (st_manifest st') (PyStr.of_int (att_id att)) = [row_of g ch msg created_utc att]
    /\ total_skipped st' = total_skipped st + 1
    /\ total_downloaded st' = total_downloaded st
    /\ (unique_keys (st_manifest st) -> unique_keys (st_manifest st')).
Proof.
  intros Hm Hdb Hex.
  assert (Hkeeps : forall st', process_attachment env g ch msg created_utc st att = Ok st' ->
                     unique_keys (st_manifest st) -> unique_keys (st_manifest st')).
  { intros st' E. apply (process_attachment_keeps _ _ _ _ _ _ _ _ E). }
  revert Hkeeps. unfold process_attachment. fold (dest_of msg att).
  rewrite Hm, Hdb, Hex. cbn [negb mbind result_bind]. cbv iota.
  rewrite db_insert_ok. rewrite db_has_attachment_has_key in Hdb. rewrite Hdb.
  cbn [mbind result_bind]. intros Hkeeps. eexists. split; [reflexivity|].
  specialize (Hkeeps _ eq_refl).
  cbn [st_log st_disk st_manifest total_skipped total_downloaded incr_skipped set_manifest]
    in *.
  repeat split; [|exact Hkeeps].
  rewrite select_app. apply select_nil_has_key in Hdb. rewrite Hdb.
  unfold select, row_of, dest_of. cbn [List.filter r_attachment_id]. rewrite String.eqb_refl.
  now rewrite dest_in_download_dir, name_of_dest.
Qed.

(** ** Ingestion Driver: a scan that runs to its end *)

Lemma name_fits_exists (disk : gmap string string) (msg : message) (att : attachment) :
  name_fits msg att = true ->
  exists found, path_exists disk (dest_of msg att) = Ok found.
Proof.
  unfold name_fits, path_exists. intros H. apply Z.leb_le in H.
  destruct (Z.ltb_spec NAME_MAX (PyStr.utf8_len (PyPath.name (dest_of msg att)))); [lia|].
  eauto.
Qed.

Lemma process_attachment_returns
    (env : remote) (g : guild) (ch : channel) (msg : message) (created_utc : datetime)
    (st : state) (att : attachment) :
  (negb (is_media att) || name_fits msg att)%bool = true ->
  exists st', process_attachment env g ch msg created_utc st att = Ok st'.
Proof.
  intros Hfit.
  destruct (process_attachment_cases env g ch msg created_utc st att)
    as [(Hm & Hs) | [(Hm & Hk & Hs) | [(Hm & Hk & Hx & Hs) | [(Hm & Hk & Hx & d & Hd & Hs)
       | [(Hm & Hk & Hx & p & Hp & Hs) | (Hm & Hk & e & Hx & Hs)]]]]];
    try (rewrite Hs; eauto).
  rewrite Hm in Hfit. cbn [negb orb] in Hfit.
  destruct (name_fits_exists (st_disk st) msg att Hfit) as [found Hf]. congruence.
Qed.

Lemma process_attachments_returns
    (env : remote) (g : guild) (ch : channel) (msg : message) (created_utc : datetime)
    (atts : list attachment) (st : state) :
  forallb (fun att => negb (is_media att) || name_fits msg att)%bool atts = true ->
  exists st', process_attachments env g ch msg created_utc st atts = Ok st'.
Proof.
  revert st. induction atts as [|a atts IH]; intros st; cbn [process_attachments forallb].
  - eauto.
  - rewrite andb_true_iff. intros [Ha Hatts].
    destruct (process_attachment_returns env g ch msg created_utc st a Ha) as [st1 ->].
    cbn [mbind result_bind]. now apply IH.
Qed.

Lemma process_message_returns
    (env : remote) (start_dt end_dt : datetime) (g : guild) (ch : channel)
    (st : state) (msg : message) :
  message_fits msg = true ->
  exists st', process_message env start_dt end_dt g ch st msg = Ok st'.
Proof.
  unfold process_message, message_fits. intros H.
  destruct (msg_attachments msg) as [|a atts]; [eauto|].
  destruct (negb _); [eauto|]. now apply process_attachments_returns.
Qed.

Lemma process_messages_returns
    (env : remote) (start_dt end_dt : datetime) (g : guild) (ch : channel)
    (msgs : list message) (st : state) :
  forallb message_fits msgs = true ->
  exists st', process_messages env start_dt end_dt g ch st msgs = Ok st'.
Proof.
  revert st. induction msgs as [|m msgs IH]; intros st; cbn [process_messages forallb].
  - eauto.
  - rewrite andb_true_iff. intros [Hm Hmsgs].
    destruct (process_message_returns env start_dt end_dt g ch st m Hm) as [st1 ->].
    cbn [mbind result_bind]. now apply IH.
Qed.

Lemma forallb_sub {A} (p : A -> bool) (l l' : list A) :
  (forall x, In x l' -> In x l) -> forallb p l = true -> forallb p l' = true.
Proof. rewrite !forallb_forall. auto. Qed.

(** The messages a channel delivers are messages of the channel. *)
Lemma delivered_sub (env : remote) (after before : datetime) (ch : channel) (m : message) :
  In m (fst (bounded_history env ch after before)) -> In m (ch_messages ch).
Proof.
  unfold bounded_history, history. intros Hin.
  assert (Hin' : In m (List.filter
                         (fun m => (lt after (msg_created_at m)
                                    && lt (msg_created_at m) before)%bool)
                         (ch_messages ch))).
  { destruct (fault env ch) as [[n f]|]; cbn [fst] in Hin; [|exact Hin].
    apply list_elem_of_In. apply (subseteq_take n). now apply list_elem_of_In. }
  now apply filter_In in Hin'.
Qed.

Lemma process_channel_returns
    (env : remote) (start_dt end_dt after before : datetime) (g : guild)
    (st : state) (ch : channel) :
  channel_fits ch = true ->
  exists st', process_channel env start_dt end_dt after before g st ch = Ok st'.
Proof.
  unfold process_channel, channel_fits. intros H.
  pose proof (delivered_sub env after before ch) as Hsub.
  destruct (bounded_history env ch after before) as [msgs f]. cbn [fst] in Hsub.
  destruct (process_messages_returns env start_dt end_dt g ch msgs
              (log [PrintChannel (ch_id ch); CallHistory (ch_id ch) after before] st)
              (forallb_sub _ _ _ Hsub H)) as [st1 ->].
  cbn [mbind result_bind]. eauto.
Qed.

Lemma process_channels_returns
    (env : remote) (start_dt end_dt after before : datetime) (g : guild)
    (chs : list channel) (st : state) :
  forallb channel_fits chs = true ->
  exists st', process_channels env start_dt end_dt after before g st chs = Ok st'.
Proof.
  revert st. induction chs as [|c chs IH]; intros st; cbn [process_channels forallb].
  - eauto.
  - rewrite andb_true_iff. intros [Hc Hchs].
    destruct (process_channel_returns env start_dt end_dt after before g st c Hc) as [st1 ->].
    cbn [mbind result_bind]. now apply IH.
Qed.

(** The readable channels of the guild a run scans take the names of their
    media attachments when the guilds of the client do. *)
Lemma names_fit_readable (client_guilds : list guild) (guild_id : Z) (g : guild) :
  names_fit client_guilds = true ->
  List.find (fun g => g_id g =? guild_id) client_guilds = Some g ->
  forallb channel_fits (List.filter ch_read_message_history (g_text_channels g)) = true.
Proof.
  unfold names_fit. intros H Hg. apply List.find_some in Hg as [Hg _].
  rewrite forallb_forall in H. specialize (H g Hg). unfold guild_fits in H.
  apply (forallb_sub _ _ _ (fun x Hx => proj1 (proj1 (filter_In _ _ _) Hx)) H).
Qed.

(** When every stored name fits, the scan of the guild runs to its end,
    whatever the downloads and the channel histories do. *)
Lemma on_ready_returns
    (env : remote) (start_dt end_dt after before : datetime)
    (client_guilds : list guild) (guild_id : Z) (conn : table) (disk : gmap string string) :
  names_fit client_guilds = true ->
  exists st',
    on_ready env start_dt end_dt after before client_guilds guild_id conn disk = Ok st'.
Proof.
  intros H. unfold on_ready.
  destruct (List.find _ client_guilds) as [g|] eqn:Hg; [|eauto].
  destruct (process_channels_returns env start_dt end_dt after before g
              (List.filter ch_read_message_history (g_text_channels g))
              (log [PrintScanning (g_id g)] (State conn disk 0 0 0 []))
              (names_fit_readable _ _ _ H Hg)) as [st1 ->].
  cbn [mbind result_bind]. eauto.
Qed.

(** C6: when [save] raises on a media attachment that is neither in the
    manifest nor on disk, the step still returns normally; the manifest and
    the downloaded and skipped counters are unchanged, the error is printed,
    and the loop goes on with the attachments that follow; whatever the
    downloads do, the scan of a guild runs to its end, provided the stored
    names of its media attachments are names the file system takes (the
    test [dest.exists()] is outside the [try] and its [OSError] on a name
    that is too long would end the scan). *)
Theorem save_failure_is_attachment_local
    (env : remote) (g : guild) (ch : channel) (msg : message) (created_utc : datetime)
    (st : state) (att : attachment) (rest : list attachment) (partial : option string) :
  is_media att = true ->
  db_has_attachment (st_manifest st) (att_id att) = false ->
  path_exists (st_disk st) (dest_of msg att) = Ok false ->
  save env msg att = SaveRaises partial ->
  exists st',
    process_attachment env g ch msg created_utc st att = Ok st'
    /\ st_manifest st' = st_manifest st
    /\ total_downloaded st' = total_downloaded st
    /\ total_skipped st' = total_skipped st
    /\ st_log st'
       = (st_log st ++ [CallSave (att_id att) (PyPath.to_string (dest_of msg att));
                        PrintErrorSaving (att_id att) (msg_id msg)])%list
    /\ process_attachments env g ch msg created_utc st (att :: rest)
       = process_attachments env g ch msg created_utc st' rest
    /\ forall w client_guilds guild_id conn disk,
         names_fit client_guilds = true ->
         exists st_end,
           on_ready env (w_start w) (w_end w) (w_after w) (w_before w)
                    client_guilds guild_id conn disk = Ok st_end.
Proof.
  intros Hm Hdb Hex Hsave.
  assert (Hstep : process_attachment env g ch msg created_utc st att
                  = Ok (log [PrintErrorSaving (att_id att) (msg_id msg)]
                          (write_file (dest_of msg att) partial
                             (log [CallSave (att_id att) (PyPath.to_string (dest_of msg att))]
                                  st)))).
  { unfold process_attachment. fold (dest_of msg att).
    rewrite Hm, Hdb, Hex, Hsave. reflexivity. }
  eexists. split; [exact Hstep|].
  cbn [process_attachments]. rewrite Hstep. cbn [mbind result_bind].
  assert (Hend : forall w client_guilds guild_id conn disk,
            names_fit client_guilds = true ->
            exists st_end,
              on_ready env (w_start w) (w_end w) (w_after w) (w_before w)
                       client_guilds guild_id conn disk = Ok st_end).
  { intros w client_guilds guild_id conn disk Hfit. now apply on_ready_returns. }
  destruct partial as [d|]; st_simpl; rewrite <- ?app_assoc; repeat split;
    try reflexivity; exact Hend.
Qed.

(** ** The resolved window *)

Lemma add_inv (d d' : datetime) (t : timedelta) :
  valid d = true -> add d t = Ok d' ->
  valid d' = true /\ to_us d' = to_us d + td_us t.
Proof.
  intros Hv Hadd. destruct (add_spec d t Hv) as [Hok Hko].
  destruct (Z_le_dec us_per_day (to_us d + td_us t)) as [H1|H1];
    [destruct (Z_lt_dec (to_us d + td_us t) ((MAXORDINAL + 1) * us_per_day)) as [H2|H2]|].
  - destruct (Hok (conj H1 H2)) as (d'' & E & Hv' & Hus). rewrite E in Hadd.
    injection Hadd as <-. split; assumption.
  - rewrite Hko in Hadd by lia. discriminate.
  - rewrite Hko in Hadd by lia. discriminate.
Qed.

Lemma sub_inv (d d' : datetime) (t : timedelta) :
  valid d = true -> sub d t = Ok d' ->
  valid d' = true /\ to_us d' = to_us d - td_us t.
Proof.
  unfold sub. intros Hv H. destruct (add_inv d d' (td_neg t) Hv H) as [Hv' Hus].
  rewrite td_neg_us in Hus. split; [assumption | lia].
Qed.

(** The four instants of a resolved window are valid datetimes, and the
    query bounds lie one second outside the inclusive bounds. *)
Lemma resolve_window_bounds (date_start : string) (date_end : option string)
    (now : datetime) (w : window) :
  valid now = true \/ (exists s, date_end = Some s /\ s <> "") ->
  resolve_window date_start date_end now = Ok w ->
  valid (w_start w) = true /\ valid (w_end w) = true
  /\ valid (w_after w) = true /\ valid (w_before w) = true
  /\ to_us (w_after w) = to_us (w_start w) - 1000000
  /\ to_us (w_before w) = to_us (w_end w) + 1000000.
Proof.
  intros Hnow Hw.
  destruct (resolve_window_inv _ _ _ _ Hw) as (Hs & He & _ & Ha & Hb).
  destruct (parse_date_utc_valid _ _ Hs) as (Hvs & _).
  assert (Hve : valid (w_end w) = true).
  { destruct date_end as [s|].
    - destruct (String.eqb_spec s "") as [->|Hne]; cbn [negb] in He.
      + destruct Hnow as [Hn|(s & [= <-] & Hn)]; [now rewrite He | contradiction].
      + destruct He as (d & Hd & ->).
        destruct (parse_date_utc_valid _ _ Hd) as (Hvd & _).
        apply valid_spec in Hvd as [Hdd _]. apply valid_spec.
        cbn [year month day hour minute second microsecond]. split; [assumption | reflexivity].
    - destruct Hnow as [Hn|(s & [=] & _)]. now rewrite He. }
  destruct (sub_inv _ _ _ Hvs Ha) as [Hva Hua].
  destruct (add_inv _ _ _ Hve Hb) as [Hvb Hub].
  change (td_us (mk_timedelta 0 0 0 1 0)) with 1000000 in *.
  repeat split; assumption.
Qed.

(** A run is the scan of [on_ready] once the dates are resolved and the
    download directory is made. *)
Lemma run_on_made_dir
    (date_start : string) (date_end : option string) (now : datetime) (guild_id : Z)
    (env : remote) (client_guilds : list guild) (db : option table)
    (disk : gmap string string) (w : window) :
  resolve_window date_start date_end now = Ok w ->
  disk !! "discord-downloads" = None ->
  run date_start date_end now guild_id env client_guilds db disk
  = on_ready env (w_start w) (w_end w) (w_after w) (w_before w) client_guilds guild_id
             (db_init db) disk.
Proof.
  intros Hw Hd. unfold run, mkdir. rewrite Hw. cbn [mbind result_bind].
  change (PyPath.to_string DOWNLOAD_DIR) with "discord-downloads". now rewrite Hd.
Qed.

Lemma run_inv
    (date_start : string) (date_end : option string) (now : datetime) (guild_id : Z)
    (env : remote) (client_guilds : list guild) (db : option table)
    (disk : gmap string string) (st : state) :
  run date_start date_end now guild_id env client_guilds db disk = Ok st ->
  exists w,
    resolve_window date_start date_end now = Ok w
    /\ disk !! "discord-downloads" = None
    /\ on_ready env (w_start w) (w_end w) (w_after w) (w_before w) client_guilds guild_id
                (db_init db) disk = Ok st.
Proof.
  unfold run, mkdir. destruct (resolve_window date_start date_end now) as [w|]; [|discriminate].
  cbn [mbind result_bind]. change (PyPath.to_string DOWNLOAD_DIR) with "discord-downloads".
  destruct (disk !! "discord-downloads"); [discriminate|].
  cbn [mbind result_bind]. intros E. exists w. auto.
Qed.

(** C4: the window starts at the midnight that begins the start date; when
    an end date is supplied, it ends at 23:59:59.999999 of that date; the
    re-check of the driver accepts a message exactly when its instant lies
    between that start and that end, both included; a message with
    attachments outside the window is only counted as seen, one inside has
    its attachments processed; with start 2025-11-05 and end 2025-11-09 the
    window is 2025-11-05T00:00:00 to 2025-11-09T23:59:59.999999, these two
    instants are accepted, and 2025-11-10T00:00:00 and
    2025-11-04T23:59:59.999999 are not. *)
Theorem window_is_inclusive
    (date_start date_end : string) (now : datetime) (w : window) :
  date_end <> "" ->
  resolve_window date_start (Some date_end) now = Ok w ->
  (parse_date_utc date_start = Ok (w_start w)
   /\ hour (w_start w) = 0 /\ minute (w_start w) = 0 /\ second (w_start w) = 0
   /\ microsecond (w_start w) = 0)
  /\ (exists d, parse_date_utc date_end = Ok d
                /\ w_end w = Datetime (year d) (month d) (day d) 23 59 59 999999)
  /\ (forall t, valid t = true ->
        (in_window (w_start w) (w_end w) (replace_tz_utc t) = true
         <-> to_us (w_start w) <= to_us t <= to_us (w_end w)))
  /\ (forall env g ch st msg,
        valid (msg_created_at msg) = true -> msg_attachments msg <> [] ->
        process_message env (w_start w) (w_end w) g ch st msg
        = if decide (to_us (w_start w) <= to_us (msg_created_at msg) <= to_us (w_end w))
          then process_attachments env g ch msg (msg_created_at msg) (incr_seen st)
                 (msg_attachments msg)
          else Ok (incr_seen st))
  /\ (forall now', exists w',
        resolve_window "2025-11-05" (Some "2025-11-09") now' = Ok w'
        /\ w_start w' = Datetime 2025 11 5 0 0 0 0
        /\ w_end w' = Datetime 2025 11 9 23 59 59 999999
        /\ in_window (w_start w') (w_end w') (Datetime 2025 11 9 23 59 59 999999) = true
        /\ in_window (w_start w') (w_end w') (Datetime 2025 11 10 0 0 0 0) = false
        /\ in_window (w_start w') (w_end w') (Datetime 2025 11 5 0 0 0 0) = true
        /\ in_window (w_start w') (w_end w') (Datetime 2025 11 4 23 59 59 999999) = false).
Proof.
  intros Hne Hw.
  destruct (resolve_window_bounds _ _ now _ (or_intror (ex_intro _ date_end (conj eq_refl Hne)))
              Hw) as (Hvs & Hve & _).
  destruct (resolve_window_inv _ _ _ _ Hw) as (Hstart & He & _).
  split; [split; [exact Hstart | exact (proj2 (parse_date_utc_valid _ _ Hstart))]|].
  destruct (String.eqb_spec date_end "") as [|_]; [contradiction|]. cbn [negb] in He.
  assert (Hin : forall t, valid t = true ->
            (in_window (w_start w) (w_end w) (replace_tz_utc t) = true
             <-> to_us (w_start w) <= to_us t <= to_us (w_end w))).
  { intros t Ht. unfold in_window, replace_tz_utc.
    rewrite andb_true_iff, (le_to_us _ _ Hvs Ht), (le_to_us _ _ Ht Hve). reflexivity. }
  split; [exact He|]. split; [exact Hin|]. split.
  - intros env g ch st msg Hv Hatts. unfold process_message.
    destruct (msg_attachments msg) as [|a atts]; [contradiction|].
    specialize (Hin _ Hv). unfold replace_tz_utc in *.
    destruct (decide _) as [Hd|Hd].
    + apply Hin in Hd. now rewrite Hd.
    + destruct (in_window (w_start w) (w_end w) (msg_created_at msg)); [|reflexivity].
      exfalso. apply Hd, Hin. reflexivity.
  - intros now'.
    exists (Window (Datetime 2025 11 5 0 0 0 0) (Datetime 2025 11 9 23 59 59 999999)
                   (Datetime 2025 11 4 23 59 59 0) (Datetime 2025 11 10 0 0 0 999999)).
    split; [vm_compute; reflexivity|]. repeat split; vm_compute; reflexivity.
Qed.

Lemma window_is_inclusive_witness :
  parse_date_utc "2025-11-05" = Ok (Datetime 2025 11 5 0 0 0 0)
  /\ (exists d, parse_date_utc "2025-11-09" = Ok d
             /\ Datetime 2025 11 9 23 59 59 999999
                = Datetime (year d) (month d) (day d) 23 59 59 999999)
  /\ in_window (Datetime 2025 11 5 0 0 0 0) (Datetime 2025 11 9 23 59 59 999999)
       (replace_tz_utc (Datetime 2025 11 7 12 0 0 0)) = true.
Proof.
  destruct (window_is_inclusive "2025-11-05" "2025-11-09" Sample.now
              (Window (Datetime 2025 11 5 0 0 0 0) (Datetime 2025 11 9 23 59 59 999999)
                      (Datetime 2025 11 4 23 59 59 0) (Datetime 2025 11 10 0 0 0 999999)))
    as ((H0 & _) & H1 & H2 & _).
  - discriminate.
  - reflexivity.
  - split; [exact H0|]. split; [exact H1|].
    apply (H2 (Datetime 2025 11 7 12 0 0 0)); [reflexivity|].
    vm_compute. split; discriminate.
Defined.



(** The padding can leave the range of [datetime]: the first and the last
    representable day raise [OverflowError] before any query is made. *)
Lemma resolve_window_overflow :
  resolve_window "0001-01-01" None Sample.now
  = Raise (OverflowError "date value out of range")
  /\ resolve_window "2025-01-01" (Some "9999-12-31") Sample.now
     = Raise (OverflowError "date value out of range").
Proof. split; reflexivity. Qed.

(** Away from these two days, well-formed dates in order always resolve. *)
Lemma resolve_window_total (date_start : string) (date_end : option string)
    (now start_dt end_dt : datetime) :
  parse_date_utc date_start = Ok start_dt ->
  match date_end with
  | Some s => if negb (String.eqb s "")
              then exists d, parse_date_utc s = Ok d
                     /\ end_dt = Datetime (year d) (month d) (day d) 23 59 59 999999
              else end_dt = now
  | None => end_dt = now
  end ->
  valid end_dt = true ->
  to_us start_dt <= to_us end_dt ->
  2 * us_per_day <= to_us start_dt ->
  to_us end_dt < MAXORDINAL * us_per_day ->
  exists w, resolve_window date_start date_end now = Ok w
            /\ w_start w = start_dt /\ w_end w = end_dt.
Proof.
  intros Hs He Hve Hle Hlo Hhi. unfold resolve_window. rewrite Hs. cbn [mbind result_bind].
  destruct (parse_date_utc_valid _ _ Hs) as (Hvs & _).
  assert (Hend : match date_end with
                 | Some s => if negb (String.eqb s "")
                             then d ← parse_date_utc s; add d (mk_timedelta 0 23 59 59 999999)
                             else Ok now
                 | None => Ok now
                 end = Ok end_dt).
  { destruct date_end as [s|]; [|now subst].
    destruct (negb (String.eqb s "")); [|now subst].
    destruct He as (d & Hd & ->). rewrite Hd. cbn [mbind result_bind].
    destruct (parse_date_utc_valid _ _ Hd) as (Hvd & Hh & Hm & Hss & Hu).
    now apply end_of_day. }
  rewrite Hend. cbn [mbind result_bind].
  assert (Hlt : lt end_dt start_dt = false).
  { destruct (lt end_dt start_dt) eqn:E; [|reflexivity].
    apply (lt_to_us _ _ Hve Hvs) in E. lia. }
  rewrite Hlt.
  unfold us_per_day, MAXORDINAL in *.
  destruct (add_spec start_dt (td_neg (mk_timedelta 0 0 0 1 0)) Hvs) as [Ha _].
  destruct (add_spec end_dt (mk_timedelta 0 0 0 1 0) Hve) as [Hb _].
  change (td_us (td_neg (mk_timedelta 0 0 0 1 0))) with (-1000000) in Ha.
  change (td_us (mk_timedelta 0 0 0 1 0)) with 1000000 in Hb.
  unfold us_per_day, MAXORDINAL in *.
  destruct Ha as (a & Ea & _); [lia|]. destruct Hb as (b & Eb & _); [lia|].
  unfold sub. rewrite Ea. cbn [mbind result_bind]. rewrite Eb. cbn [mbind result_bind].
  eexists. repeat split.
Qed.

(** ** Running the pipeline twice *)

Lemma flat_map_ext_in {A B} (f g : A -> list B) (l : list A) :
  (forall x, In x l -> f x = g x) -> flat_map f l = flat_map g l.
Proof.
  induction l as [|x l IH]; intros H; cbn [flat_map]; [reflexivity|].
  rewrite (H x) by now left. rewrite IH; [reflexivity|].
  intros y Hy. apply H. now right.
Qed.

(** When no end date is given the window ends at the time of the run; a
    later run over a history with no message after the first run's time
    meets the same media attachments. *)
Lemma media_of_run_later_now
    (date_start : string) (date_end : option string) (now1 now2 : datetime)
    (w1 w2 : window) (client_guilds : list guild) (guild_id : Z) :
  date_end = None \/ date_end = Some "" ->
  valid now1 = true -> valid now2 = true -> to_us now1 <= to_us now2 ->
  (forall g ch m, In g client_guilds -> In ch (g_text_channels g) -> In m (ch_messages ch) ->
     valid (msg_created_at m) = true /\ to_us (msg_created_at m) <= to_us now1) ->
  resolve_window date_start date_end now1 = Ok w1 ->
  resolve_window date_start date_end now2 = Ok w2 ->
  media_of_run w2 client_guilds guild_id = media_of_run w1 client_guilds guild_id.
Proof.
  intros Hde Hv1 Hv2 Hle Hmsgs Hw1 Hw2.
  destruct (resolve_window_bounds _ _ _ _ (or_introl Hv1) Hw1)
    as (Hs1 & He1 & Ha1 & Hb1 & Ua1 & Ub1).
  destruct (resolve_window_bounds _ _ _ _ (or_introl Hv2) Hw2)
    as (Hs2 & He2 & Ha2 & Hb2 & Ua2 & Ub2).
  destruct (resolve_window_inv _ _ _ _ Hw1) as (P1 & E1 & _ & S1 & _).
  destruct (resolve_window_inv _ _ _ _ Hw2) as (P2 & E2 & _ & S2 & _).
  assert (Hstart : w_start w2 = w_start w1) by congruence.
  assert (Hafter : w_after w2 = w_after w1) by (rewrite Hstart in S2; congruence).
  assert (Hend1 : w_end w1 = now1) by (destruct Hde as [->| ->]; exact E1).
  assert (Hend2 : w_end w2 = now2) by (destruct Hde as [->| ->]; exact E2).
  unfold media_of_run.
  destruct (List.find (fun g => g_id g =? guild_id) client_guilds) as [g|] eqn:Eg;
    [|reflexivity].
  apply List.find_some in Eg as [Hg _].
  unfold media_of_guild. apply flat_map_ext_in. intros ch Hch.
  apply List.filter_In in Hch as [Hch _].
  assert (Hbetween : messages_between (w_after w2) (w_before w2) ch
                     = messages_between (w_after w1) (w_before w1) ch).
  { unfold messages_between. apply List.filter_ext_in. intros m Hm.
    destruct (Hmsgs g ch m Hg Hch Hm) as [Hvm Hum]. rewrite Hafter. f_equal.
    apply Bool.eq_iff_eq_true.
    rewrite (lt_to_us _ _ Hvm Hb2), (lt_to_us _ _ Hvm Hb1), Ub1, Ub2, Hend1, Hend2. lia. }
  rewrite Hbetween. unfold media_of_messages. apply flat_map_ext_in. intros m Hm.
  apply List.filter_In in Hm as [Hm _].
  destruct (Hmsgs g ch m Hg Hch Hm) as [Hvm Hum].
  unfold media_of_message, in_window, replace_tz_utc. rewrite Hstart.
  destruct (msg_attachments m); [reflexivity|].
  assert (Hin : le (msg_created_at m) (w_end w2) = le (msg_created_at m) (w_end w1)).
  { apply Bool.eq_iff_eq_true.
    rewrite (le_to_us _ _ Hvm He2), (le_to_us _ _ Hvm He1), Hend1, Hend2. lia. }
  now rewrite Hin.
Qed.

(** C1, as the code has it: after a run that printed no failure line, a
    second run over the same guilds whose window selects the same media
    attachments (the same window, or a later time of run with no message in
    between), whatever the remote side does and whatever files the disk
    holds, stops at once with [FileExistsError] if the download directory
    has been replaced by a regular file, and otherwise returns normally and
    downloads nothing (the counter is zero, no download
    event is logged, the manifest is the same); its skipped counter is at
    most the sum of the first run's downloaded and skipped counters, and
    equals that sum when it prints no failure line either -- hence equals the
    first run's downloaded counter exactly when the first run skipped
    nothing. *)
Theorem second_run_downloads_nothing
    (date_start : string) (date_end : option string) (now1 now2 : datetime) (guild_id : Z)
    (env1 env2 : remote) (client_guilds : list guild)
    (db : option table) (disk disk2 : gmap string string) (w1 w2 : window) (st1 : state) :
  resolve_window date_start date_end now1 = Ok w1 ->
  resolve_window date_start date_end now2 = Ok w2 ->
  media_of_run w2 client_guilds guild_id = media_of_run w1 client_guilds guild_id ->
  run date_start date_end now1 guild_id env1 client_guilds db disk = Ok st1 ->
  clean (st_log st1) ->
  match disk2 !! "discord-downloads" with
  | Some _ =>
      run date_start date_end now2 guild_id env2 client_guilds (Some (st_manifest st1)) disk2
      = Raise (FileExistsError "[Errno 17] File exists")
  | None =>
      exists st2,
        run date_start date_end now2 guild_id env2 client_guilds (Some (st_manifest st1)) disk2
        = Ok st2
        /\ total_downloaded st2 = 0
        /\ Forall (fun e => is_save_event e = false) (st_log st2)
        /\ st_manifest st2 = st_manifest st1
        /\ total_skipped st2 <= total_downloaded st1 + total_skipped st1
        /\ (clean (st_log st2) ->
            total_skipped st2 = total_downloaded st1 + total_skipped st1
            /\ (total_skipped st1 = 0 -> total_skipped st2 = total_downloaded st1))
  end.
Proof.
  intros Hw1 Hw2 Hmedia Hrun Hclean.
  destruct (disk2 !! "discord-downloads") as [x|] eqn:Hdir.
  { unfold run, mkdir. rewrite Hw2. cbn [mbind result_bind].
    change (PyPath.to_string DOWNLOAD_DIR) with "discord-downloads". now rewrite Hdir. }
  rewrite (run_on_made_dir _ _ _ _ _ _ _ _ _ Hw2 Hdir).
  apply run_inv in Hrun as (w & Hw & _ & Hrun). rewrite Hw1 in Hw. injection Hw as <-.
  destruct (on_ready_handled env1 w1 client_guilds guild_id (db_init db) disk st1 Hrun)
    as (evs & L1 & _ & C1).
  cbn [st_log app] in L1. rewrite L1 in Hclean.
  destruct (C1 Hclean) as [Hknown Hcount]. cbn [total_downloaded total_skipped] in Hcount.
  rewrite <- Hmedia in Hknown, Hcount.
  destruct (on_ready_replayed env2 w2 client_guilds guild_id (st_manifest st1) disk2 Hknown)
    as (st2 & E2 & M2 & _ & N2 & evs2 & L2 & S2 & B2 & C2).
  exists st2. cbn [db_init]. split; [exact E2|].
  cbn [st_manifest total_downloaded total_skipped st_log app] in *.
  rewrite L2. repeat split; try assumption; try lia;
    intros; rewrite C2 by assumption; lia.
Qed.

(** ** Concrete runs *)

Lemma disk_repair_records_without_fetching_witness :
  exists st',
    process_attachment Sample.env_ok Sample.guild Sample.general Sample.post
      (msg_created_at Sample.post) (Sample.start_state Sample.disk_with_photo) Sample.photo
    = Ok st'
    /\ st_log st' = []
    /\ st_disk st' = Sample.disk_with_photo
    /\ select (st_manifest st') (PyStr.of_int 1001)
       = [row_of Sample.guild Sample.general Sample.post (msg_created_at Sample.post)
                 Sample.photo]
    /\ total_skipped st' = 0 + 1
    /\ total_downloaded st' = 0
    /\ (unique_keys [] -> unique_keys (st_manifest st')).
Proof.
  apply (disk_repair_records_without_fetching Sample.env_ok Sample.guild Sample.general
           Sample.post (msg_created_at Sample.post)
           (Sample.start_state Sample.disk_with_photo) Sample.photo).
  - reflexivity.
  - reflexivity.
  - vm_compute. reflexivity.
Defined.

Lemma save_failure_is_attachment_local_witness :
  exists st',
    process_attachment Sample.env_photo_fails Sample.guild Sample.general Sample.post
      (msg_created_at Sample.post) (Sample.start_state ∅) Sample.photo
    = Ok st'
    /\ st_manifest st' = []
    /\ total_downloaded st' = 0
    /\ total_skipped st' = 0
    /\ st_log st'
       = ([] ++ [CallSave 1001 (PyPath.to_string (dest_of Sample.post Sample.photo));
                 PrintErrorSaving 1001 500])%list
    /\ process_attachments Sample.env_photo_fails Sample.guild Sample.general Sample.post
         (msg_created_at Sample.post) (Sample.start_state ∅)
         [Sample.photo; Sample.report; Sample.clip]
       = process_attachments Sample.env_photo_fails Sample.guild Sample.general Sample.post
           (msg_created_at Sample.post) st' [Sample.report; Sample.clip]
    /\ forall w client_guilds guild_id conn disk,
         names_fit client_guilds = true ->
         exists st_end,
           on_ready Sample.env_photo_fails (w_start w) (w_end w) (w_after w) (w_before w)
                    client_guilds guild_id conn disk = Ok st_end.
Proof.
  apply (save_failure_is_attachment_local Sample.env_photo_fails Sample.guild Sample.general
           Sample.post (msg_created_at Sample.post) (Sample.start_state ∅) Sample.photo
           [Sample.report; Sample.clip] None).
  - reflexivity.
  - reflexivity.
  - vm_compute. reflexivity.
  - reflexivity.
Defined.

(** The claim C1 as the specification words it fails when the first run
    repairs a file left on disk: that run downloads one file and skips one,
    and the second run skips two. *)
Lemma second_run_skipped_differs :
  exists st1 st2,
    run "2025-11-05" (Some "2025-11-09") Sample.now 77 Sample.env_ok
        [Sample.guild] None Sample.disk_with_photo = Ok st1
    /\ clean (st_log st1)
    /\ run "2025-11-05" (Some "2025-11-09") Sample.now 77 Sample.env_ok
           [Sample.guild] (Some (st_manifest st1)) (st_disk st1) = Ok st2
    /\ clean (st_log st2)
    /\ total_downloaded st1 = 1
    /\ total_downloaded st2 = 0
    /\ total_skipped st2 = 2
    /\ total_skipped st2 <> total_downloaded st1.
Proof.
  exists Sample.after_first_run. eexists.
  split; [vm_compute; reflexivity|].
  split; [repeat constructor|].
  split; [vm_compute; reflexivity|].
  split; [repeat constructor|].
  repeat split. discriminate.
Qed.

Lemma second_run_downloads_nothing_witness :
  exists st2,
    run "2025-11-05" (Some "2025-11-09") Sample.now 77 Sample.env_photo_fails
        [Sample.guild] (Some (st_manifest Sample.after_first_run)) ∅ = Ok st2
    /\ total_downloaded st2 = 0
    /\ Forall (fun e => is_save_event e = false) (st_log st2)
    /\ st_manifest st2 = st_manifest Sample.after_first_run
    /\ total_skipped st2
       <= total_downloaded Sample.after_first_run + total_skipped Sample.after_first_run
    /\ (clean (st_log st2) ->
        total_skipped st2
        = total_downloaded Sample.after_first_run + total_skipped Sample.after_first_run
        /\ (total_skipped Sample.after_first_run = 0 ->
            total_skipped st2 = total_downloaded Sample.after_first_run)).
Proof.
  refine (second_run_downloads_nothing "2025-11-05" (Some "2025-11-09") Sample.now Sample.now 77
            Sample.env_ok Sample.env_photo_fails [Sample.guild] None Sample.disk_with_photo ∅
            Sample.window Sample.window Sample.after_first_run _ _ _ _ _).
  - vm_compute. reflexivity.
  - vm_compute. reflexivity.
  - reflexivity.
  - vm_compute. reflexivity.
  - repeat constructor.
Defined.

(** ** Date parsing *)

(** ** The matchers *)

Lemma cls_elem (p : ascii -> bool) (s x r : string) :
  (x, r) ∈ Strptime.cls p s <-> exists c, s = String c r /\ x = String c "" /\ p c = true.
Proof.
  unfold Strptime.cls. destruct s as [|c s].
  - split; [intros H; inversion H | intros (c & H & _); discriminate].
  - destruct (p c) eqn:E.
    + rewrite list_elem_of_singleton. split.
      * intros [= -> ->]. eauto.
      * intros (c' & [= -> ->] & -> & _). reflexivity.
    + split; [intros H; inversion H|].
      intros (c' & [= -> ->] & _ & H). congruence.
Qed.

Lemma seq_elem (a b : Strptime.matcher) (s z r' : string) :
  (z, r') ∈ Strptime.seq a b s
  <-> exists x r y, (x, r) ∈ a s /\ (y, r') ∈ b r /\ z = x +:+ y.
Proof.
  unfold Strptime.seq. rewrite list_elem_of_bind. split.
  - intros ([x r] & H & Ha). apply list_elem_of_bind in H as ([y r2] & H & Hb).
    apply list_elem_of_singleton in H. injection H as -> ->. eauto 6.
  - intros (x & r & y & Ha & Hb & ->). exists (x, r). split; [|exact Ha].
    apply list_elem_of_bind. exists (y, r'). split; [|exact Hb].
    now apply list_elem_of_singleton.
Qed.

Lemma alt_elem (a b : Strptime.matcher) (s z r : string) :
  (z, r) ∈ Strptime.alt a b s <-> (z, r) ∈ a s \/ (z, r) ∈ b s.
Proof. unfold Strptime.alt. apply elem_of_app. Qed.

(** The characters between two bounds. *)
Lemma range_chars (lo hi c : nat) (a : ascii) :
  (Nat.leb lo (nat_of_ascii a) && Nat.leb (nat_of_ascii a) hi)%bool = true ->
  In a (map ascii_of_nat (seq lo (S hi - lo))).
Proof.
  rewrite andb_true_iff, !Nat.leb_le. intros [H1 H2].
  apply in_map_iff. exists (nat_of_ascii a). split; [apply ascii_nat_embedding|].
  apply in_seq. lia.
Qed.

Lemma range_elem (lo hi : ascii) (s x r : string) :
  (x, r) ∈ Strptime.range lo hi s ->
  exists c, s = String c r /\ x = String c ""
            /\ In c (map ascii_of_nat
                       (seq (nat_of_ascii lo) (S (nat_of_ascii hi) - nat_of_ascii lo))).
Proof.
  unfold Strptime.range. rewrite cls_elem. intros (c & -> & -> & H).
  exists c. repeat split. now apply (range_chars _ _ 0).
Qed.

Lemma lit_elem (c : ascii) (s x r : string) :
  (x, r) ∈ Strptime.lit c s <-> s = String c r /\ x = String c "".
Proof.
  unfold Strptime.lit. rewrite cls_elem. split.
  - intros (c' & -> & -> & H). apply Ascii.eqb_eq in H. now subst.
  - intros [-> ->]. exists c. repeat split. apply Ascii.eqb_refl.
Qed.

Lemma digit_elem (s x r : string) :
  (x, r) ∈ Strptime.digit s
  <-> exists c, s = String c r /\ x = String c "" /\ PyStr.is_digit c = true.
Proof. apply cls_elem. Qed.

(** What the year group matches. *)
Lemma re_Y_elem (s y r : string) :
  (y, r) ∈ Strptime.re_Y s ->
  s = y +:+ r /\ String.length y = 4%nat /\ PyStr.all PyStr.is_digit y = true.
Proof.
  unfold Strptime.re_Y. rewrite seq_elem.
  intros (x1 & r1 & y1 & H1 & H & ->). apply seq_elem in H as (x2 & r2 & y2 & H2 & H & ->).
  apply seq_elem in H as (x3 & r3 & y3 & H3 & H4 & ->).
  apply digit_elem in H1 as (c1 & -> & -> & D1). apply digit_elem in H2 as (c2 & -> & -> & D2).
  apply digit_elem in H3 as (c3 & -> & -> & D3). apply digit_elem in H4 as (c4 & -> & -> & D4).
  cbn. rewrite D1, D2, D3, D4. repeat split.
Qed.

(** What the month group matches. *)
Lemma re_m_elem (s m r : string) :
  (m, r) ∈ Strptime.re_m s -> s = m +:+ r /\ In m Spec.month_texts.
Proof.
  unfold Strptime.re_m. rewrite !alt_elem, !seq_elem.
  intros [(x & r1 & y & H1 & H2 & ->) | [(x & r1 & y & H1 & H2 & ->) | H1]].
  - apply lit_elem in H1 as [-> ->]. apply range_elem in H2 as (c & -> & -> & Hc).
    cbn in Hc. split; [reflexivity|].
    repeat (destruct Hc as [<-|Hc]; [unfold Spec.month_texts; in_list|]). destruct Hc.
  - apply lit_elem in H1 as [-> ->]. apply range_elem in H2 as (c & -> & -> & Hc).
    cbn in Hc. split; [reflexivity|].
    repeat (destruct Hc as [<-|Hc]; [unfold Spec.month_texts; in_list|]). destruct Hc.
  - apply range_elem in H1 as (c & -> & -> & Hc).
    cbn in Hc. split; [reflexivity|].
    repeat (destruct Hc as [<-|Hc]; [unfold Spec.month_texts; in_list|]). destruct Hc.
Qed.

Lemma digit_chars (c : ascii) :
  PyStr.is_digit c = true ->
  In c ["0"; "1"; "2"; "3"; "4"; "5"; "6"; "7"; "8"; "9"]%char.
Proof. intros H. apply (range_chars 48 57 0 c) in H. exact H. Qed.

(** What the day group matches. *)
Lemma re_d_elem (s d r : string) :
  (d, r) ∈ Strptime.re_d s -> s = d +:+ r /\ In d Spec.day_texts.
Proof.
  unfold Strptime.re_d. rewrite !alt_elem, !seq_elem.
  intros [(x & r1 & y & H1 & H2 & ->) | [(x & r1 & y & H1 & H2 & ->)
         | [(x & r1 & y & H1 & H2 & ->) | [H1 | (x & r1 & y & H1 & H2 & ->)]]]].
  - apply lit_elem in H1 as [-> ->]. apply range_elem in H2 as (c & -> & -> & Hc).
    cbn in Hc. split; [reflexivity|].
    repeat (destruct Hc as [<-|Hc]; [unfold Spec.day_texts; in_list|]). destruct Hc.
  - apply range_elem in H1 as (c1 & -> & -> & Hc1).
    apply digit_elem in H2 as (c2 & -> & -> & Hc2). apply digit_chars in Hc2.
    cbn in Hc1, Hc2. split; [reflexivity|].
    repeat (destruct Hc1 as [<-|Hc1];
            [repeat (destruct Hc2 as [<-|Hc2]; [unfold Spec.day_texts; in_list|]);
             destruct Hc2|]).
    destruct Hc1.
  - apply lit_elem in H1 as [-> ->]. apply range_elem in H2 as (c & -> & -> & Hc).
    cbn in Hc. split; [reflexivity|].
    repeat (destruct Hc as [<-|Hc]; [unfold Spec.day_texts; in_list|]). destruct Hc.
  - apply range_elem in H1 as (c & -> & -> & Hc).
    cbn in Hc. split; [reflexivity|].
    repeat (destruct Hc as [<-|Hc]; [unfold Spec.day_texts; in_list|]). destruct Hc.
  - apply lit_elem in H1 as [-> ->]. apply range_elem in H2 as (c & -> & -> & Hc).
    cbn in Hc. split; [reflexivity|].
    repeat (destruct Hc as [<-|Hc]; [unfold Spec.day_texts; in_list|]). destruct Hc.
Qed.

Lemma re_tail_elem (s m d r : string) :
  (m, d, r) ∈ Strptime.re_tail s ->
  s = "-" +:+ m +:+ "-" +:+ d +:+ r /\ In m Spec.month_texts /\ In d Spec.day_texts.
Proof.
  unfold Strptime.re_tail. rewrite list_elem_of_bind.
  intros ([x1 r1] & H & H1). apply list_elem_of_bind in H as ([m' r2] & H & H2).
  apply list_elem_of_bind in H as ([x3 r3] & H & H3).
  apply list_elem_of_bind in H as ([d' r4] & H & H4).
  apply list_elem_of_singleton in H. injection H as -> -> ->.
  apply lit_elem in H1 as [-> ->]. apply re_m_elem in H2 as [-> Hm].
  apply lit_elem in H3 as [-> ->]. apply re_d_elem in H4 as [-> Hd].
  repeat split; assumption.
Qed.

Lemma format_regex_elem (s y m d r : string) :
  (y, m, d, r) ∈ Strptime.format_regex s ->
  s = y +:+ "-" +:+ m +:+ "-" +:+ d +:+ r
  /\ String.length y = 4%nat /\ PyStr.all PyStr.is_digit y = true
  /\ In m Spec.month_texts /\ In d Spec.day_texts.
Proof.
  unfold Strptime.format_regex. rewrite list_elem_of_bind.
  intros ([y' r1] & H & H1). apply list_elem_of_bind in H as ([[m' d'] r5] & H & H2).
  apply list_elem_of_singleton in H. injection H as -> -> -> ->.
  apply re_Y_elem in H1 as (-> & Hl & Hd). apply re_tail_elem in H2 as (-> & Hm & Hdd).
  repeat split; assumption.
Qed.

Lemma tail_first_match_all :
  forallb (fun M => forallb (tail_first_match M) Spec.day_texts) Spec.month_texts = true.
Proof. vm_compute. reflexivity. Qed.

Lemma re_tail_first (M D : string) :
  In M Spec.month_texts -> In D Spec.day_texts ->
  exists l, Strptime.re_tail ("-" +:+ M +:+ "-" +:+ D) = (M, D, "") :: l.
Proof.
  intros HM HD. pose proof tail_first_match_all as H.
  rewrite forallb_forall in H. specialize (H M HM).
  rewrite forallb_forall in H. specialize (H D HD).
  unfold tail_first_match in H.
  destruct (Strptime.re_tail _) as [|[[m d] r] l]; [discriminate|].
  rewrite !andb_true_iff, !String.eqb_eq in H. destruct H as [[-> ->] ->]. now exists l.
Qed.

Lemma re_Y_digits (Y r : string) :
  String.length Y = 4%nat -> PyStr.all PyStr.is_digit Y = true ->
  Strptime.re_Y (Y +:+ r) = [(Y, r)].
Proof.
  destruct Y as [|c1 [|c2 [|c3 [|c4 [|c5 Y]]]]]; try discriminate. intros _.
  cbn [PyStr.all]. rewrite !andb_true_iff. intros (D1 & D2 & D3 & D4 & _).
  unfold Strptime.re_Y, Strptime.seq, Strptime.digit, Strptime.cls.
  cbn. rewrite D1. cbn. rewrite D2. cbn. rewrite D3. cbn. rewrite D4. reflexivity.
Qed.

(** A text of the accepted form is matched whole, by the first match. *)
Lemma format_regex_first (Y M D : string) :
  String.length Y = 4%nat -> PyStr.all PyStr.is_digit Y = true ->
  In M Spec.month_texts -> In D Spec.day_texts ->
  exists l, Strptime.format_regex (Y +:+ "-" +:+ M +:+ "-" +:+ D) = (Y, M, D, "") :: l.
Proof.
  intros HY HYd HM HD. unfold Strptime.format_regex.
  rewrite (re_Y_digits Y _ HY HYd).
  destruct (re_tail_first M D HM HD) as [l Hl].
  change ("-" +:+ M +:+ "-" +:+ D) with ("-" +:+ M +:+ "-" +:+ D) in Hl.
  rewrite bind_cons. cbn [mbind list_bind app]. rewrite Hl, bind_cons. cbn [app].
  eexists. reflexivity.
Qed.

Lemma strptime_accepts (s : string) (dt : datetime) :
  Strptime.strptime s = Ok dt
  <-> exists y m d, Spec.accepted_date_text s y m d /\ dt = Datetime y m d 0 0 0 0.
Proof.
  unfold Strptime.strptime. split.
  - destruct (Strptime.format_regex s) as [|[[[Y M] D] rest] l] eqn:E; [discriminate|].
    destruct (String.eqb_spec rest "") as [->|]; [|discriminate]. cbn [negb].
    destruct (check_date_fields _ _ _) eqn:Ec; [|discriminate].
    intros [= <-].
    assert (Hin : (Y, M, D, "") ∈ Strptime.format_regex s) by (rewrite E; left).
    apply format_regex_elem in Hin as (Hs & HY & HYd & HM & HD).
    rewrite append_empty_r in Hs.
    eexists _, _, _. split; [|reflexivity].
    exists Y, M, D. repeat split; assumption.
  - intros (y & m & d & (Y & M & D & -> & HY & HYd & HM & HD & -> & -> & -> & Hc) & ->).
    destruct (format_regex_first Y M D HY HYd HM HD) as [l ->].
    cbn [negb String.eqb]. now rewrite Hc.
Qed.

Lemma parse_date_utc_error (s : string) (e : exn) :
  parse_date_utc s = Raise e ->
  e = SystemExit ("Invalid date format: " +:+ s +:+ ". Expected YYYY-MM-DD.").
Proof.
  unfold parse_date_utc, Strptime.strptime.
  destruct (Strptime.format_regex s) as [|[[[Y M] D] rest] l]; [now intros [= <-]|].
  destruct (negb _); [now intros [= <-]|].
  destruct (check_date_fields _ _ _); [discriminate | now intros [= <-]].
Qed.

Lemma two_digit_month (c1 c2 : ascii) :
  PyStr.is_digit c1 = true -> PyStr.is_digit c2 = true ->
  1 <= Strptime.int_of_group (String c1 (String c2 "")) <= 12 ->
  In (String c1 (String c2 "")) Spec.month_texts.
Proof.
  intros H1 H2. apply digit_chars in H1, H2. cbn in H1, H2.
  repeat (destruct H1 as [<-|H1];
          [repeat (destruct H2 as [<-|H2];
                   [intros H; first [solve [unfold Spec.month_texts; in_list]
                                    | exfalso; vm_compute in H; destruct H as [Ha Hb];
                                      first [now apply Ha | now apply Hb]]|]);
           destruct H2|]).
  destruct H1.
Qed.

Lemma two_digit_day (c1 c2 : ascii) :
  PyStr.is_digit c1 = true -> PyStr.is_digit c2 = true ->
  1 <= Strptime.int_of_group (String c1 (String c2 "")) <= 31 ->
  In (String c1 (String c2 "")) Spec.day_texts.
Proof.
  intros H1 H2. apply digit_chars in H1, H2. cbn in H1, H2.
  repeat (destruct H1 as [<-|H1];
          [repeat (destruct H2 as [<-|H2];
                   [intros H; first [solve [unfold Spec.day_texts; in_list]
                                    | exfalso; vm_compute in H; destruct H as [Ha Hb];
                                      first [now apply Ha | now apply Hb]]|]);
           destruct H2|]).
  destruct H1.
Qed.

Lemma days_in_month_le_31 (y m : Z) : 1 <= m <= 12 -> days_in_month y m <= 31.
Proof.
  intros Hm. unfold days_in_month. destruct (is_leap y); each_month m Hm; cbn; lia.
Qed.

(** A text of the exact shape whose numbers are a date is of the accepted
    form. *)
Lemma exact_date_accepted (s : string) :
  Spec.is_exact_date s = true ->
  Spec.accepted_date_text s (Spec.exact_year s) (Spec.exact_month s) (Spec.exact_day s).
Proof.
  unfold Spec.is_exact_date, Spec.exact_shape, Spec.exact_year, Spec.exact_month,
    Spec.exact_day.
  destruct s as [|c1 [|c2 [|c3 [|c4 [|c5 [|c6 [|c7 [|c8 [|c9 [|c10 [|c11 s]]]]]]]]]]];
    try discriminate.
  cbn [String.length Nat.eqb PyStr.take PyStr.drop PyStr.all andb].
  rewrite !andb_true_iff, !String.eqb_eq.
  intros [[[[[(D1 & D2 & D3 & D4 & _) E5] (D6 & D7 & _)] E8] (D9 & D10 & _)] Hc].
  injection E5 as ->. injection E8 as ->.
  pose proof Hc as Hc'. apply check_date_fields_spec in Hc' as (_ & Hm & Hd).
  pose proof (days_in_month_le_31
                (Strptime.int_of_group (String c1 (String c2 (String c3 (String c4 "")))))
                _ Hm) as H31.
  exists (String c1 (String c2 (String c3 (String c4 "")))),
         (String c6 (String c7 "")), (String c9 (String c10 "")).
  repeat split; try assumption.
  - cbn [PyStr.all]. now rewrite D1, D2, D3, D4.
  - now apply two_digit_month.
  - apply two_digit_day; [assumption..|lia].
Qed.

(** C9, as the code has it, for the texts of the embedding (every code
    point below 256, where the decimal digits are [0] to [9]):
    [parse_date_utc] succeeds exactly on a year of four digits, a dash, a
    month written with one or two digits, a dash and a day written with one
    or two digits or with a blank before one digit, when the three numbers
    are a date of the calendar, and then returns the midnight of that date;
    on every other such text it raises [SystemExit] with the
    invalid-date-format message; every text of the exact YYYY-MM-DD shape
    that is a date of the calendar is parsed as the midnight of that date.
    Texts with a code point from U+0100 on, among them dates written with
    the digits of another script, which [strptime] reads too, are not texts
    of the embedding and the statement is silent about them. *)
Theorem parse_date_utc_accepts (s : string) :
  (forall dt, parse_date_utc s = Ok dt
     <-> exists y m d, Spec.accepted_date_text s y m d /\ dt = Datetime y m d 0 0 0 0)
  /\ ((exists e, parse_date_utc s = Raise e)
      <-> ~ exists y m d, Spec.accepted_date_text s y m d)
  /\ (forall e, parse_date_utc s = Raise e ->
        e = SystemExit ("Invalid date format: " +:+ s +:+ ". Expected YYYY-MM-DD."))
  /\ (Spec.is_exact_date s = true ->
      parse_date_utc s
      = Ok (Datetime (Spec.exact_year s) (Spec.exact_month s) (Spec.exact_day s) 0 0 0 0)).
Proof.
  assert (H1 : forall dt, parse_date_utc s = Ok dt
            <-> exists y m d, Spec.accepted_date_text s y m d /\ dt = Datetime y m d 0 0 0 0).
  { intros dt. rewrite parse_date_utc_strptime. apply strptime_accepts. }
  split; [exact H1|]. split; [|split].
  - split.
    + intros [e He] (y & m & d & Ha).
      assert (Hok : parse_date_utc s = Ok (Datetime y m d 0 0 0 0)) by (apply H1; eauto).
      congruence.
    + intros Hn. destruct (parse_date_utc s) as [dt|e] eqn:E; [|eauto].
      exfalso. apply Hn. destruct (proj1 (H1 dt) eq_refl) as (y & m & d & Ha & _). eauto.
  - apply parse_date_utc_error.
  - intros He. apply H1. eexists _, _, _. split; [|reflexivity].
    now apply exact_date_accepted.
Qed.

Lemma parse_date_utc_accepts_witness :
  parse_date_utc "2024-02-29" = Ok (Datetime 2024 2 29 0 0 0 0)
  /\ (forall e, parse_date_utc "2025-02-29" = Raise e ->
        e = SystemExit "Invalid date format: 2025-02-29. Expected YYYY-MM-DD.").
Proof.
  split.
  - apply (proj2 (proj2 (proj2 (parse_date_utc_accepts "2024-02-29")))). reflexivity.
  - apply (proj1 (proj2 (proj2 (parse_date_utc_accepts "2025-02-29")))).
Defined.

(** The claim C9 as the specification words it fails on dates written with
    one digit or with a blank: they are not of the exact shape and are
    parsed all the same. *)
Lemma parse_date_utc_accepts_short_dates :
  Spec.is_exact_date "2025-1-5" = false
  /\ parse_date_utc "2025-1-5" = Ok (Datetime 2025 1 5 0 0 0 0)
  /\ Spec.is_exact_date "2025-11- 5" = false
  /\ parse_date_utc "2025-11- 5" = Ok (Datetime 2025 11 5 0 0 0 0).
Proof. repeat split. Qed.

(** * Further properties of the code *)

(** ** Decimal texts *)

Lemma of_int_inj (a b : Z) : PyStr.of_int a = PyStr.of_int b -> a = b.
Proof.
  unfold PyStr.of_int. intros H.
  assert (Hn : forall n, Z.to_int n <> Decimal.Pos Decimal.Nil
                         /\ Z.to_int n <> Decimal.Neg Decimal.Nil).
  { intros [|p|p]; cbn [Z.to_int]; split; try discriminate;
      intros E; injection E as E; exact (Unsigned.to_uint_nonnil p E). }
  pose proof (NilZero.isi _ (proj1 (Hn a)) (proj2 (Hn a))) as Ea.
  pose proof (NilZero.isi _ (proj1 (Hn b)) (proj2 (Hn b))) as Eb.
  rewrite H in Ea. rewrite Ea in Eb. injection Eb as Eb.
  rewrite <- (DecimalZ.of_to a), <- (DecimalZ.of_to b). now rewrite Eb.
Qed.

Lemma int_digits_of_uint_acc (d : Decimal.uint) (acc : positive) :
  Strptime.int_digits (Z.pos acc) (NilEmpty.string_of_uint d)
  = Z.pos (Pos.of_uint_acc d acc).
Proof.
  revert acc. induction d; intros acc; cbn [NilEmpty.string_of_uint Pos.of_uint_acc];
    [reflexivity|..];
    (etransitivity; [|apply IHd]); digit_step; f_equal; lia.
Qed.

Lemma int_digits_of_uint (d : Decimal.uint) :
  Strptime.int_digits 0 (NilEmpty.string_of_uint d) = Z.of_uint d.
Proof.
  unfold Z.of_uint. induction d; cbn [NilEmpty.string_of_uint Pos.of_uint];
    [reflexivity | exact IHd |..];
    (etransitivity; [|cbn [Z.of_N]; apply int_digits_of_uint_acc]); reflexivity.
Qed.

Lemma all_digits_of_uint (d : Decimal.uint) :
  PyStr.all PyStr.is_digit (NilEmpty.string_of_uint d) = true.
Proof. induction d; cbn [NilEmpty.string_of_uint PyStr.all]; [reflexivity|..]; exact IHd. Qed.

Lemma of_int_nonneg (n : Z) :
  0 <= n -> exists d, PyStr.of_int n = NilEmpty.string_of_uint d /\ d <> Decimal.Nil
                      /\ Z.of_uint d = n.
Proof.
  intros Hn. unfold PyStr.of_int. destruct n as [|p|p]; [| |lia].
  - exists (Decimal.D0 Decimal.Nil). repeat split. discriminate.
  - exists (Pos.to_uint p). pose proof (Unsigned.to_uint_nonnil p) as Hnn.
    split; [|split; [exact Hnn|]].
    + cbn [Z.to_int NilZero.string_of_int]. unfold NilZero.string_of_uint.
      destruct (Pos.to_uint p); [congruence|..]; reflexivity.
    + exact (DecimalZ.of_to (Z.pos p)).
Qed.

(** The decimal text of a natural number is made of digits and reads back
    as the number. *)
Lemma of_int_digits (n : Z) : 0 <= n -> PyStr.all PyStr.is_digit (PyStr.of_int n) = true.
Proof. intros Hn. destruct (of_int_nonneg n Hn) as (d & -> & _). apply all_digits_of_uint. Qed.

Lemma int_digits_of_int (n : Z) : 0 <= n -> Strptime.int_digits 0 (PyStr.of_int n) = n.
Proof.
  intros Hn. destruct (of_int_nonneg n Hn) as (d & -> & _ & <-). apply int_digits_of_uint.
Qed.

Lemma of_int_nonempty (n : Z) : PyStr.of_int n <> "".
Proof.
  unfold PyStr.of_int. destruct n as [|p|p]; cbn [Z.to_int NilZero.string_of_int];
    try discriminate.
  unfold NilZero.string_of_uint. pose proof (Unsigned.to_uint_nonnil p).
  destruct (Pos.to_uint p); try congruence; discriminate.
Qed.

Lemma all_digits_zeros (k : nat) :
  PyStr.all PyStr.is_digit (string_of_list_ascii (repeat "0"%char k)) = true.
Proof. induction k; [reflexivity | exact IHk]. Qed.

Lemma int_digits_zeros (k : nat) (s : string) :
  Strptime.int_digits 0 (string_of_list_ascii (repeat "0"%char k) +:+ s)
  = Strptime.int_digits 0 s.
Proof. induction k; [reflexivity | exact IHk]. Qed.

Lemma zpad_digits (w : nat) (n : Z) : 0 <= n -> PyStr.all PyStr.is_digit (zpad w n) = true.
Proof.
  intros Hn. unfold zpad. cbv zeta. now rewrite all_append, all_digits_zeros, of_int_digits.
Qed.

Lemma zpad_inj (w : nat) (a b : Z) : 0 <= a -> 0 <= b -> zpad w a = zpad w b -> a = b.
Proof.
  intros Ha Hb H. apply (f_equal (Strptime.int_digits 0)) in H. unfold zpad in H.
  cbv zeta in H. rewrite !int_digits_zeros, !int_digits_of_int in H by assumption. exact H.
Qed.

(** Two texts that start with digits and go on with something else agree
    only if they agree on the digits and on the rest. *)
Lemma digits_then_rest (a1 a2 : string) (c1 c2 : ascii) (r1 r2 : string) :
  PyStr.all PyStr.is_digit a1 = true -> PyStr.all PyStr.is_digit a2 = true ->
  PyStr.is_digit c1 = false -> PyStr.is_digit c2 = false ->
  a1 +:+ String c1 r1 = a2 +:+ String c2 r2 ->
  a1 = a2 /\ c1 = c2 /\ r1 = r2.
Proof.
  revert a2. induction a1 as [|x a1 IH]; intros [|y a2]; cbn [String.append PyStr.all];
    intros H1 H2 Hc1 Hc2 E.
  - injection E as -> ->. auto.
  - injection E as -> _. apply andb_true_iff in H2 as [H2 _]. congruence.
  - injection E as -> _. apply andb_true_iff in H1 as [H1 _]. congruence.
  - injection E as -> E. apply andb_true_iff in H1 as [_ H1]. apply andb_true_iff in H2 as [_ H2].
    destruct (IH a2 H1 H2 Hc1 Hc2 E) as (-> & -> & ->). auto.
Qed.

Lemma zpad_field (w : nat) (a b : Z) (c1 c2 : ascii) (r1 r2 : string) :
  0 <= a -> 0 <= b -> PyStr.is_digit c1 = false -> PyStr.is_digit c2 = false ->
  zpad w a +:+ String c1 r1 = zpad w b +:+ String c2 r2 ->
  a = b /\ c1 = c2 /\ r1 = r2.
Proof.
  intros Ha Hb Hc1 Hc2 E.
  apply digits_then_rest in E; try assumption; try (apply zpad_digits; assumption).
  destruct E as (E & Hc & Hr). apply zpad_inj in E; auto.
Qed.

(** The ISO text of a valid datetime determines it. *)
Lemma isoformat_inj (t1 t2 : datetime) :
  valid t1 = true -> valid t2 = true -> isoformat t1 = isoformat t2 -> t1 = t2.
Proof.
  rewrite !valid_spec, !check_date_fields_spec, !check_time_fields_spec.
  intros (D1 & T1) (D2 & T2).
  destruct t1 as [y1 m1 d1 h1 mi1 s1 u1], t2 as [y2 m2 d2 h2 mi2 s2 u2].
  cbn [year month day hour minute second microsecond] in *.
  unfold isoformat. cbn [year month day hour minute second microsecond].
  intros E. cbn [String.append] in E.
  apply zpad_field in E; [destruct E as (Hy & _ & E) | lia | lia | reflexivity | reflexivity].
  apply zpad_field in E; [destruct E as (Hm & _ & E) | lia | lia | reflexivity | reflexivity].
  apply zpad_field in E; [destruct E as (Hd & _ & E) | lia | lia | reflexivity | reflexivity].
  apply zpad_field in E; [destruct E as (Hh & _ & E) | lia | lia | reflexivity | reflexivity].
  apply zpad_field in E; [destruct E as (Hmi & _ & E) | lia | lia | reflexivity | reflexivity].
  assert (Hs : s1 = s2 /\ u1 = u2).
  { destruct (Z.eqb_spec u1 0) as [U1|U1], (Z.eqb_spec u2 0) as [U2|U2];
      cbn [String.append] in E;
      (apply zpad_field in E;
       [destruct E as (Hs & Hc & E) | lia | lia | reflexivity | reflexivity]);
      try discriminate Hc.
    - split; congruence.
    - apply zpad_field in E; [| lia | lia | reflexivity | reflexivity]. tauto. }
  destruct Hs. congruence.
Qed.

(** ** The manifest: insert, then look up *)

(** X6: recording an attachment makes exactly its id known to the manifest:
    afterwards the lookup answers yes for that id and, for every other id,
    what it answered before. *)
Theorem db_insert_then_db_has_attachment
    (conn : table) (attachment_id message_id channel_id guild_id : Z)
    (url filename : string) (created_at_utc : datetime) (other : Z) :
  exists conn',
    db_insert conn attachment_id message_id channel_id guild_id url filename created_at_utc
    = Ok conn'
    /\ db_has_attachment conn' other
       = (db_has_attachment conn other || (other =? attachment_id))%bool.
Proof.
  rewrite db_insert_ok. eexists. split; [reflexivity|].
  rewrite !db_has_attachment_has_key.
  destruct (Z.eqb_spec other attachment_id) as [->|Hne].
  - rewrite orb_true_r. destruct (has_key conn (PyStr.of_int attachment_id)) eqn:E;
      [exact E|].
    rewrite has_key_snoc. cbn [r_attachment_id]. now rewrite String.eqb_refl, orb_true_r.
  - rewrite orb_false_r. destruct (has_key conn (PyStr.of_int attachment_id)); [reflexivity|].
    rewrite has_key_snoc. cbn [r_attachment_id].
    destruct (String.eqb_spec (PyStr.of_int attachment_id) (PyStr.of_int other)) as [Heq|_].
    + apply of_int_inj in Heq. congruence.
    + now rewrite orb_false_r.
Qed.

(** ** The order of the two dates *)

Lemma resolve_end_valid (date_end : option string) (now end_dt : datetime) :
  valid now = true -> resolve_end date_end now = Ok end_dt -> valid end_dt = true.
Proof.
  intros Hnow. unfold resolve_end.
  assert (Hn : Ok now = Ok end_dt -> valid end_dt = true) by (intros [= <-]; exact Hnow).
  destruct date_end as [s|]; [|exact Hn].
  destruct (negb (String.eqb s "")); [|exact Hn].
  destruct (parse_date_utc s) as [d|e] eqn:Hd; cbn [mbind result_bind]; [|discriminate].
  intros Ha. destruct (parse_date_utc_valid _ _ Hd) as (Hv & _).
  exact (proj1 (add_inv _ _ _ Hv Ha)).
Qed.

(** X7: once both dates are read, the run stops with the date-order message
    exactly when the end of the window lies before its start; this includes
    a start date in the future when no end date is given.  In every other
    case the dates are not the reason of a [SystemExit]. *)
Theorem date_order_error_iff_end_before_start
    (date_start : string) (date_end : option string) (now start_dt end_dt : datetime) :
  valid now = true ->
  parse_date_utc date_start = Ok start_dt ->
  resolve_end date_end now = Ok end_dt ->
  (resolve_window date_start date_end now
   = Raise (SystemExit "date-end must be on/after date-start.")
   <-> to_us end_dt < to_us start_dt)
  /\ (to_us start_dt <= to_us end_dt ->
      forall msg, resolve_window date_start date_end now <> Raise (SystemExit msg)).
Proof.
  intros Hnow Hs He.
  destruct (parse_date_utc_valid _ _ Hs) as (Hvs & _).
  pose proof (resolve_end_valid _ _ _ Hnow He) as Hve.
  unfold resolve_window. rewrite Hs. cbn [mbind result_bind].
  unfold resolve_end in He. rewrite He. cbn [mbind result_bind].
  pose proof (lt_to_us _ _ Hve Hvs) as Hlt.
  assert (Hno : forall msg,
            (after ← sub start_dt (mk_timedelta 0 0 0 1 0);
             before ← add end_dt (mk_timedelta 0 0 0 1 0);
             Ok (Window start_dt end_dt after before)) <> Raise (SystemExit msg)).
  { intros msg. unfold sub.
    destruct (add_spec start_dt (td_neg (mk_timedelta 0 0 0 1 0)) Hvs) as [Ha1 Ha2].
    destruct (add_spec end_dt (mk_timedelta 0 0 0 1 0) Hve) as [Hb1 Hb2].
    destruct (Z_le_dec us_per_day (to_us start_dt + td_us (td_neg (mk_timedelta 0 0 0 1 0))))
      as [H1|H1];
      [destruct (Z_lt_dec (to_us start_dt + td_us (td_neg (mk_timedelta 0 0 0 1 0)))
                          ((MAXORDINAL + 1) * us_per_day)) as [H2|H2]|].
    2,3: rewrite Ha2 by lia; cbn [mbind result_bind]; discriminate.
    destruct (Ha1 (conj H1 H2)) as (a & -> & _). cbn [mbind result_bind].
    destruct (Z_le_dec us_per_day (to_us end_dt + td_us (mk_timedelta 0 0 0 1 0)))
      as [H3|H3];
      [destruct (Z_lt_dec (to_us end_dt + td_us (mk_timedelta 0 0 0 1 0))
                          ((MAXORDINAL + 1) * us_per_day)) as [H4|H4]|].
    2,3: rewrite Hb2 by lia; cbn [mbind result_bind]; discriminate.
    destruct (Hb1 (conj H3 H4)) as (b & -> & _). cbn [mbind result_bind]. discriminate. }
  destruct (lt end_dt start_dt) eqn:E.
  - pose proof (proj1 Hlt eq_refl) as Hl. split; [split; [intros _; exact Hl | reflexivity]|].
    intros Hle. lia.
  - split.
    + split; [intros H; exfalso; exact (Hno _ H)|].
      intros Hl. apply Hlt in Hl. discriminate.
    + intros _. exact Hno.
Qed.

Lemma date_order_error_iff_end_before_start_witness :
  resolve_window "2025-12-01" None Sample.now
  = Raise (SystemExit "date-end must be on/after date-start.").
Proof.
  apply (date_order_error_iff_end_before_start
           "2025-12-01" None Sample.now (Datetime 2025 12 1 0 0 0 0) Sample.now);
    [reflexivity | vm_compute; reflexivity | reflexivity | vm_compute; reflexivity].
Defined.

(** ** After a failed download *)

(** X8: what a failed download leaves behind decides what the next visit of
    the attachment does.  When the failure left no file, the state changed
    only by two log lines and the next visit calls the download again.  When
    it left a file at the destination, the next visit takes that file for a
    finished download: it records the attachment, counts it as skipped and
    never fetches it again. *)
Theorem failed_save_is_retried_unless_a_file_was_left
    (env env' : remote) (g : guild) (ch : channel) (msg : message) (created_utc : datetime)
    (st : state) (att : attachment) (partial : option string) :
  is_media att = true ->
  db_has_attachment (st_manifest st) (att_id att) = false ->
  path_exists (st_disk st) (dest_of msg att) = Ok false ->
  save env msg att = SaveRaises partial ->
  exists st1 st2,
    process_attachment env g ch msg created_utc st att = Ok st1
    /\ process_attachment env' g ch msg created_utc st1 att = Ok st2
    /\ st_manifest st1 = st_manifest st
    /\ total_downloaded st1 = total_downloaded st
    /\ total_skipped st1 = total_skipped st
    /\ match partial with
       | None =>
           st_disk st1 = st_disk st
           /\ exists rest,
                st_log st2
                = (st_log st1
                   ++ CallSave (att_id att) (PyPath.to_string (dest_of msg att)) :: rest)%list
       | Some data =>
           st_log st2 = st_log st1
           /\ db_has_attachment (st_manifest st2) (att_id att) = true
           /\ st_disk st2 !! PyPath.to_string (dest_of msg att) = Some data
           /\ total_downloaded st2 = total_downloaded st
           /\ total_skipped st2 = total_skipped st + 1
       end.
Proof.
  intros Hm Hk Hx Hsave.
  assert (E1 : process_attachment env g ch msg created_utc st att
               = Ok (log [PrintErrorSaving (att_id att) (msg_id msg)]
                       (write_file (dest_of msg att) partial
                          (log [CallSave (att_id att) (PyPath.to_string (dest_of msg att))]
                               st)))).
  { unfold process_attachment. rewrite Hm. cbn [negb]. rewrite Hk.
    fold (dest_of msg att). rewrite Hx, Hsave. reflexivity. }
  assert (Hlen : (NAME_MAX <? PyStr.utf8_len (PyPath.name (dest_of msg att))) = false).
  { unfold path_exists in Hx. now destruct (NAME_MAX <? _). }
  rewrite E1. eexists.
  destruct partial as [data|].
  - (* a file was left *)
    eexists. split; [reflexivity|].
    unfold process_attachment. rewrite Hm. cbn [negb]. st_simpl. rewrite Hk.
    fold (dest_of msg att). unfold path_exists at 1. rewrite Hlen, lookup_insert_eq.
    cbn [mbind result_bind]. rewrite db_insert_ok. rewrite db_has_attachment_has_key in Hk. rewrite Hk.
    cbn [mbind result_bind]. split; [reflexivity|]. st_simpl.
    split; [reflexivity|]. split; [reflexivity|]. split; [reflexivity|].
    split; [reflexivity|]. split.
    { rewrite db_has_attachment_has_key, has_key_snoc. cbn [r_attachment_id].
      now rewrite String.eqb_refl, orb_true_r. }
    split; [apply lookup_insert_eq|]. split; reflexivity.
  - (* no file was left *)
    assert (E2 : exists rest st2,
               process_attachment env' g ch msg created_utc
                 (log [PrintErrorSaving (att_id att) (msg_id msg)]
                    (write_file (dest_of msg att) None
                       (log [CallSave (att_id att) (PyPath.to_string (dest_of msg att))] st)))
                 att = Ok st2
               /\ st_log st2
                  = (((st_log st
                       ++ [CallSave (att_id att) (PyPath.to_string (dest_of msg att))])
                      ++ [PrintErrorSaving (att_id att) (msg_id msg)])
                     ++ CallSave (att_id att) (PyPath.to_string (dest_of msg att)) :: rest)%list).
    { unfold process_attachment. rewrite Hm. cbn [negb]. st_simpl. rewrite Hk.
      fold (dest_of msg att). rewrite Hx.
      destruct (save env' msg att) as [data|partial'].
      - st_simpl. rewrite db_insert_ok. rewrite db_has_attachment_has_key in Hk. rewrite Hk.
        eexists. eexists. split; [reflexivity|]. st_simpl.
        rewrite <- (app_assoc _ [CallSave _ _] [PrintSaved _]). reflexivity.
      - eexists. eexists. split; [reflexivity|].
        destruct partial'; st_simpl;
          rewrite <- (app_assoc _ [CallSave _ _] [PrintErrorSaving _ _]); reflexivity. }
    destruct E2 as (rest & st2 & E2 & Hl2).
    exists st2. split; [reflexivity|]. split; [exact E2|]. st_simpl.
    split; [reflexivity|]. split; [reflexivity|]. split; [reflexivity|].
    split; [reflexivity|]. exists rest. exact Hl2.
Qed.

Lemma failed_save_is_retried_unless_a_file_was_left_witness :
  exists st1 st2,
    process_attachment (Remote (fun _ _ => SaveRaises (Some "half")) (fun _ => None))
      Sample.guild Sample.general Sample.post (msg_created_at Sample.post)
      (Sample.start_state ∅) Sample.photo = Ok st1
    /\ process_attachment Sample.env_ok
         Sample.guild Sample.general Sample.post (msg_created_at Sample.post)
         st1 Sample.photo = Ok st2
    /\ st_log st2 = st_log st1
    /\ total_skipped st2 = 1.
Proof.
  destruct (failed_save_is_retried_unless_a_file_was_left
              (Remote (fun _ _ => SaveRaises (Some "half")) (fun _ => None)) Sample.env_ok
              Sample.guild Sample.general Sample.post (msg_created_at Sample.post)
              (Sample.start_state ∅) Sample.photo (Some "half"))
    as (st1 & st2 & E1 & E2 & _ & _ & _ & Hl & _ & _ & _ & Hs);
    [reflexivity | reflexivity | vm_compute; reflexivity | reflexivity |].
  exists st1, st2. split; [exact E1|]. split; [exact E2|]. split; [exact Hl | exact Hs].
Defined.

(** ** The stored name *)

Lemma compute_filename_base
    (author_id attachment_id : Z) (created_at : datetime) (original_name : string) :
  compute_filename author_id created_at attachment_id original_name
  = PyStr.take 16 (Sha256.hexdigest (base_of author_id created_at attachment_id))
    +:+ PyStr.lower (PyPath.suffix (PyPath.parse original_name)).
Proof. apply compute_filename_unfold. Qed.

(** X9: the text [compute_filename] hashes determines the author, the
    attachment and the creation time, so two attachments can share a stored
    name (apart from its extension) only through a collision of the
    truncated hash; in particular the attachments of one message are hashed
    from different texts. *)
Theorem hashed_text_determines_the_attachment
    (author1 author2 attachment1 attachment2 : Z) (created1 created2 : datetime) :
  0 <= author1 -> 0 <= author2 -> 0 <= attachment1 -> 0 <= attachment2 ->
  valid created1 = true -> valid created2 = true ->
  base_of author1 created1 attachment1 = base_of author2 created2 attachment2 ->
  author1 = author2 /\ attachment1 = attachment2 /\ created1 = created2.
Proof.
  intros Ha1 Ha2 Hi1 Hi2 Hv1 Hv2. unfold base_of, astimezone_utc. cbn [String.append].
  intros E.
  apply digits_then_rest in E; try (apply of_int_digits; assumption); try reflexivity.
  destruct E as (Ea & _ & E).
  apply digits_then_rest in E; try (apply of_int_digits; assumption); try reflexivity.
  destruct E as (Ei & _ & E).
  split; [now apply of_int_inj|]. split; [now apply of_int_inj|].
  now apply isoformat_inj.
Qed.

Lemma hashed_text_determines_the_attachment_witness :
  1001 = 1001 /\ Datetime 2025 11 5 7 8 9 123000 = msg_created_at Sample.post.
Proof.
  destruct (hashed_text_determines_the_attachment
              42 42 1001 (att_id Sample.photo)
              (Datetime 2025 11 5 7 8 9 123000) (msg_created_at Sample.post))
    as (_ & H1 & H2); [lia | lia | lia | vm_compute; discriminate | reflexivity
                      | reflexivity | reflexivity |].
  split; [exact H1 | exact H2].
Defined.

Lemma rfind_absent (c : ascii) (s : string) :
  PyStr.contains_char c s = false -> PyStr.rfind c s = -1.
Proof.
  induction s as [|a s IH]; cbn [PyStr.contains_char PyStr.rfind]; [reflexivity|].
  destruct (Ascii.eqb a c); [discriminate|]. intros H. now rewrite (IH H).
Qed.

Lemma rfind_append_last (c : ascii) (h r : string) :
  PyStr.contains_char c r = false ->
  PyStr.rfind c (h +:+ String c r) = PyStr.len h.
Proof.
  intros Hr. induction h as [|a h IH]; cbn [String.append PyStr.rfind].
  - rewrite (rfind_absent c r Hr). cbn. now rewrite Ascii.eqb_refl.
  - rewrite IH. unfold PyStr.len. cbn [String.length].
    destruct (Z.leb_spec 0 (Z.of_nat (String.length h))); lia.
Qed.

(** Where [rfind] finds the character, nothing after it contains it. *)
Lemma rfind_last (c : ascii) (s : string) :
  0 <= PyStr.rfind c s ->
  exists r, PyStr.drop (Z.to_nat (PyStr.rfind c s)) s = String c r
            /\ PyStr.contains_char c r = false
            /\ PyStr.len s = PyStr.rfind c s + 1 + PyStr.len r.
Proof.
  unfold PyStr.len.
  induction s as [|a s IH]; cbn [PyStr.rfind String.length]; [lia|].
  destruct (0 <=? PyStr.rfind c s) eqn:E.
  - intros _. apply Z.leb_le in E. destruct (IH E) as (r & Hr & Hc & Hl).
    exists r. rewrite Z2Nat.inj_add by lia. rewrite Nat.add_comm. cbn [Nat.add Z.to_nat].
    change (Pos.to_nat 1) with 1%nat. cbn [Nat.add PyStr.drop].
    split; [exact Hr|]. split; [exact Hc | lia].
  - destruct (Ascii.eqb_spec a c) as [->|]; [|lia].
    intros _. exists s. cbn [Z.to_nat PyStr.drop]. split; [reflexivity|].
    split; [|lia].
    destruct (PyStr.contains_char c s) eqn:Hc; [|reflexivity].
    exfalso. apply Z.leb_gt in E. clear -Hc E.
    induction s as [|b s IH]; cbn [PyStr.contains_char PyStr.rfind] in *; [discriminate|].
    destruct (0 <=? PyStr.rfind c s) eqn:E'.
    + apply Z.leb_le in E'. lia.
    + destruct (Ascii.eqb b c); [lia|]. apply IH; [|exact Hc]. apply Z.leb_gt in E'. lia.
Qed.

(** A suffix is empty, or a dot followed by at least one character, none of
    them a dot. *)
Lemma suffix_tail (p : PyPath.path) :
  PyPath.suffix p = ""
  \/ exists r, PyPath.suffix p = String "." r /\ r <> ""
               /\ PyStr.contains_char "." r = false.
Proof.
  unfold PyPath.suffix. cbv zeta.
  destruct ((0 <? PyStr.rfind "." (PyPath.name p))
            && (PyStr.rfind "." (PyPath.name p) <? PyStr.len (PyPath.name p) - 1))%bool eqn:E;
    [|now left].
  right. apply andb_true_iff in E as [E1 E2]. apply Z.ltb_lt in E1. apply Z.ltb_lt in E2.
  destruct (rfind_last "." (PyPath.name p)) as (r & Hr & Hc & Hl); [lia|].
  exists r. split; [exact Hr|]. split; [|exact Hc].
  intros ->. unfold PyStr.len in *. cbn [String.length] in Hl. lia.
Qed.

Lemma lower_char_dot (c : ascii) :
  Ascii.eqb (PyStr.lower_char c) "." = Ascii.eqb c ".".
Proof. destruct c as [[] [] [] [] [] [] [] []]; reflexivity. Qed.

Lemma lower_no_dot (s : string) :
  PyStr.contains_char "." (PyStr.lower s) = PyStr.contains_char "." s.
Proof.
  induction s as [|c s IH]; cbn [PyStr.lower PyStr.contains_char]; [reflexivity|].
  now rewrite lower_char_dot, IH.
Qed.

Lemma lower_char_idem (c : ascii) : PyStr.lower_char (PyStr.lower_char c) = PyStr.lower_char c.
Proof. destruct c as [[] [] [] [] [] [] [] []]; reflexivity. Qed.

(** Lowering twice is lowering once. *)
Lemma lower_idem (s : string) : PyStr.lower (PyStr.lower s) = PyStr.lower s.
Proof.
  induction s as [|c s IH]; cbn [PyStr.lower]; [reflexivity|].
  now rewrite lower_char_idem, IH.
Qed.

Lemma lower_hex_not_dot (c : ascii) :
  PyStr.is_lower_hex c = true -> Ascii.eqb c "." = false.
Proof. destruct c as [[] [] [] [] [] [] [] []]; intros H; try reflexivity; discriminate H. Qed.

Lemma all_hex_no_dot (s : string) :
  PyStr.all PyStr.is_lower_hex s = true -> PyStr.contains_char "." s = false.
Proof.
  induction s as [|c s IH]; cbn [PyStr.all PyStr.contains_char]; [reflexivity|].
  rewrite andb_true_iff. intros [H1 H2]. now rewrite (lower_hex_not_dot c H1), IH.
Qed.

Lemma drop_append_length (h e : string) : PyStr.drop (String.length h) (h +:+ e) = e.
Proof. induction h as [|c h IH]; cbn [String.length String.append PyStr.drop]; [now destruct e | exact IH]. Qed.

(** A plain file name is a path of one component. *)
Lemma parse_plain (s : string) :
  PyStr.contains_char "/" s = false -> s <> "" -> s <> "." ->
  PyPath.parse s = PyPath.Path "" [s].
Proof.
  intros Hsep Hne Hdot. unfold PyPath.parse, PyPath.splitroot.
  destruct s as [|c s]; [congruence|].
  cbn [PyStr.contains_char] in Hsep.
  destruct (Ascii.eqb_spec c "/") as [|Hc]; [discriminate|].
  assert (Ht : String.eqb (PyStr.take 1 (String c s)) "/" = false).
  { destruct (String.eqb_spec (PyStr.take 1 (String c s)) "/") as [E|]; [|reflexivity].
    cbn [PyStr.take] in E. injection E as E. contradiction. }
  rewrite Ht. cbn [negb]. cbv iota.
  rewrite split_without_sep by (cbn [PyStr.contains_char]; now destruct (Ascii.eqb_spec c "/")).
  cbn [List.filter]. unfold PyPath.keep_part.
  destruct (String.eqb_spec (String c s) "") as [|_]; [discriminate|].
  destruct (String.eqb_spec (String c s) ".") as [|_]; [contradiction|]. reflexivity.
Qed.

(** X10: the stored name keeps the extension of the original name, in
    lower case: reading the suffix back from the stored name gives what
    [compute_filename] appended, so the stored file is classified by its
    extension exactly as the original was. *)
Theorem stored_name_keeps_the_extension
    (author_id attachment_id : Z) (created_at : datetime) (original_name : string) :
  PyPath.suffix
    (PyPath.parse (compute_filename author_id created_at attachment_id original_name))
  = PyStr.lower (PyPath.suffix (PyPath.parse original_name))
  /\ forall id id' url url',
       is_media (Attachment id
                   (compute_filename author_id created_at attachment_id original_name)
                   None url)
       = is_media (Attachment id' original_name None url').
Proof.
  assert (Hsuf : PyPath.suffix
                   (PyPath.parse
                      (compute_filename author_id created_at attachment_id original_name))
                 = PyStr.lower (PyPath.suffix (PyPath.parse original_name))).
  { rewrite compute_filename_unfold. unfold Spec.derived_filename, Spec.extension.
    destruct (hex16_shape author_id attachment_id created_at) as [Hlen Hall].
    set (h := Spec.hex16 author_id attachment_id created_at) in *.
    pose proof (suffix_no_sep original_name) as Hsep.
    set (e := PyPath.suffix (PyPath.parse original_name)) in *.
    assert (Hplain : PyPath.parse (h +:+ PyStr.lower e) = PyPath.Path "" [h +:+ PyStr.lower e]).
    { apply parse_plain.
      - now rewrite contains_char_append, lower_no_sep, Hsep, (all_hex_no_sep _ Hall).
      - intros E. apply (f_equal String.length) in E. rewrite length_append, Hlen in E.
        discriminate E.
      - intros E. apply (f_equal String.length) in E. rewrite length_append, Hlen in E.
        discriminate E. }
    rewrite Hplain. unfold PyPath.suffix, PyPath.name. cbn [PyPath.tail List.last]. cbv zeta.
    destruct (suffix_tail (PyPath.parse original_name)) as [He|(r & He & Hr & Hd)];
      fold e in He; rewrite He.
    - cbn [PyStr.lower]. rewrite append_empty_r.
      now rewrite (rfind_absent "." h (all_hex_no_dot _ Hall)).
    - cbn [PyStr.lower]. change (PyStr.lower_char ".") with "."%char.
      rewrite rfind_append_last by now rewrite lower_no_dot.
      unfold PyStr.len. rewrite length_append, Hlen. cbn [String.length].
      assert (Hl : (1 <= String.length (PyStr.lower r))%nat).
      { destruct r; [congruence|]. cbn [PyStr.lower String.length]. lia. }
      replace ((0 <? Z.of_nat 16)
               && (Z.of_nat 16 <? Z.of_nat (16 + S (String.length (PyStr.lower r))) - 1))%bool
        with true by (symmetry; apply andb_true_iff; split; apply Z.ltb_lt; lia).
      rewrite Nat2Z.id, <- Hlen. apply drop_append_length. }
  split; [exact Hsuf|].
  intros id id' url url'. unfold is_media. cbn [att_content_type att_filename default].
  cbn [PyStr.lower PyStr.startswith orb]. cbv iota.
  now rewrite Hsuf, lower_idem.
Qed.

(** ** The environment checks *)

Lemma lstrip_spaces (pre s : string) :
  PyStr.all PyInt.is_space pre = true -> PyInt.lstrip (pre +:+ s) = PyInt.lstrip s.
Proof.
  induction pre as [|c pre IH]; cbn [PyStr.all String.append PyInt.lstrip]; [reflexivity|].
  rewrite andb_true_iff. intros [-> H]. now apply IH.
Qed.

Lemma lstrip_all_spaces (s : string) :
  PyStr.all PyInt.is_space s = true -> PyInt.lstrip s = "".
Proof.
  intros H. rewrite <- (append_empty_r s). now rewrite lstrip_spaces.
Qed.

Lemma space_not_digit (c : ascii) :
  PyInt.is_space c = true -> PyStr.is_digit c = false /\ Ascii.eqb c "_" = false.
Proof. destruct c as [[] [] [] [] [] [] [] []]; intros H; try discriminate H; split; reflexivity. Qed.

Lemma digit_not_space (c : ascii) :
  PyStr.is_digit c = true ->
  PyInt.is_space c = false /\ Ascii.eqb c "+" = false /\ Ascii.eqb c "-" = false.
Proof.
  destruct c as [[] [] [] [] [] [] [] []]; intros H; try discriminate H; repeat split.
Qed.

(** Scanning a run of digits reads its value and counts its characters. *)
Lemma scan_digits (ds rest : string) (c : ascii) (prev : bool) (acc n : Z) :
  PyStr.all PyStr.is_digit (String c ds) = true ->
  PyInt.scan prev acc n (String c ds +:+ rest)
  = PyInt.scan false (Strptime.int_digits acc (String c ds))
      (n + PyStr.len (String c ds)) rest.
Proof.
  revert c prev acc n. unfold PyStr.len.
  induction ds as [|d ds IH]; intros c prev acc n; cbn [PyStr.all];
    rewrite andb_true_iff; intros [Hc Hds].
  - cbn [String.append PyInt.scan Strptime.int_digits String.length]. rewrite Hc.
    reflexivity.
  - change (String c (String d ds) +:+ rest) with (String c (String d ds +:+ rest)).
    cbn [PyInt.scan]. rewrite Hc. rewrite (IH d false _ _ Hds).
    cbn [Strptime.int_digits String.length]. rewrite Hc.
    cbn [PyStr.all] in Hds. apply andb_true_iff in Hds as [Hd _]. rewrite Hd.
    f_equal. lia.
Qed.

Lemma scan_stops_at_spaces (acc n : Z) (post : string) :
  PyStr.all PyInt.is_space post = true ->
  PyInt.scan false acc n post = Some (acc, n, post).
Proof.
  destruct post as [|c post]; cbn [PyStr.all PyInt.scan]; [reflexivity|].
  rewrite andb_true_iff. intros [Hc _].
  destruct (space_not_digit c Hc) as [-> ->]. reflexivity.
Qed.

(** [int] reads back what [str] wrote, blanks around it or not. *)
Lemma int_of_int (pre post : string) (n : Z) :
  PyStr.all PyInt.is_space pre = true -> PyStr.all PyInt.is_space post = true ->
  PyStr.len (PyStr.of_int (Z.abs n)) <= 4300 ->
  PyInt.int (pre +:+ PyStr.of_int n +:+ post) = Ok n.
Proof.
  intros Hpre Hpost Hlen. unfold PyInt.int. cbv zeta. rewrite lstrip_spaces by assumption.
  destruct (of_int_nonneg (Z.abs n) (Z.abs_nonneg n)) as (d & Hd & Hnn & Hval).
  assert (Hds : exists c ds, NilEmpty.string_of_uint d = String c ds).
  { destruct d; [congruence|..]; cbn [NilEmpty.string_of_uint]; eauto. }
  destruct Hds as (c & ds & Hcds).
  pose proof (all_digits_of_uint d) as Hall. rewrite Hcds in Hall.
  pose proof (int_digits_of_uint d) as Hdig. rewrite Hcds, Hval in Hdig.
  rewrite Hd, Hcds in Hlen.
  assert (Hc : PyStr.is_digit c = true).
  { cbn [PyStr.all] in Hall. now apply andb_true_iff in Hall as [Hc _]. }
  destruct (digit_not_space c Hc) as (Hsp & Hplus & Hminus).
  assert (Hscan : PyInt.scan true 0 0 (String c ds +:+ post)
                  = Some (Z.abs n, PyStr.len (String c ds), post)).
  { rewrite scan_digits by assumption. rewrite Hdig. cbn [Z.add].
    now apply scan_stops_at_spaces. }
  assert (Hfin : forall sign,
            sign * Z.abs n = n ->
            match PyInt.scan true 0 0 (String c ds +:+ post) with
            | Some (v, k, rest) =>
                if PyInt.MAX_STR_DIGITS <? k then
                  Raise (ValueError
                           "Exceeds the limit (4300 digits) for integer string conversion")
                else if String.eqb (PyInt.lstrip rest) "" then Ok (sign * v)
                else Raise (ValueError "invalid literal for int() with base 10")
            | None => Raise (ValueError "invalid literal for int() with base 10")
            end = Ok n).
  { intros sign Hsign. rewrite Hscan. unfold PyInt.MAX_STR_DIGITS.
    destruct (Z.ltb_spec 4300 (PyStr.len (String c ds))); [lia|].
    rewrite (lstrip_all_spaces post Hpost). cbn [String.eqb]. now rewrite Hsign. }
  destruct n as [|p|p].
  - unfold Z.abs in Hd. rewrite Hd, Hcds.
    change (String c ds +:+ post) with (String c (ds +:+ post)). cbn [PyInt.lstrip].
    rewrite Hsp, Hplus, Hminus.
    change (String c (ds +:+ post)) with (String c ds +:+ post). apply Hfin. reflexivity.
  - unfold Z.abs in Hd. rewrite Hd, Hcds.
    change (String c ds +:+ post) with (String c (ds +:+ post)). cbn [PyInt.lstrip].
    rewrite Hsp, Hplus, Hminus.
    change (String c (ds +:+ post)) with (String c ds +:+ post). apply Hfin.
    lia.
  - unfold Z.abs in Hd.
    assert (Hneg : PyStr.of_int (Z.neg p) = String "-" (PyStr.of_int (Z.pos p))) by reflexivity.
    rewrite Hneg, Hd, Hcds.
    change (String "-" (String c ds) +:+ post) with (String "-" (String c ds +:+ post)).
    cbn [PyInt.lstrip]. change (PyInt.is_space "-") with false. cbv iota.
    change (Ascii.eqb "-" "+") with false. change (Ascii.eqb "-" "-") with true. cbv iota.
    apply Hfin. lia.
Qed.

(** X11: a GUILD_ID that is the decimal text of an id, with or without
    blanks around it, is read back as that id, and the run then is the run
    on that guild id; ids of up to 4300 digits are read. *)
Theorem guild_id_text_is_read_back (token pre post : string) (n : Z) :
  token <> "" ->
  PyStr.all PyInt.is_space pre = true -> PyStr.all PyInt.is_space post = true ->
  PyStr.len (PyStr.of_int (Z.abs n)) <= 4300 ->
  resolve_env (Some token) (Some (pre +:+ PyStr.of_int n +:+ post)) = Ok n
  /\ forall date_start date_end now env client_guilds db disk,
       run_from_env date_start date_end now (Some token)
         (Some (pre +:+ PyStr.of_int n +:+ post)) env client_guilds db disk
       = run date_start date_end now n env client_guilds db disk.
Proof.
  intros Htok Hpre Hpost Hlen.
  assert (He : resolve_env (Some token) (Some (pre +:+ PyStr.of_int n +:+ post)) = Ok n).
  { unfold resolve_env, unset.
    destruct (String.eqb_spec token "") as [|_]; [contradiction|].
    destruct (String.eqb_spec (pre +:+ PyStr.of_int n +:+ post) "") as [E|_].
    - exfalso. apply (f_equal String.length) in E. rewrite !length_append in E.
      pose proof (of_int_nonempty n) as Hne.
      destruct (PyStr.of_int n); [congruence|]. cbn [String.length] in E. lia.
    - cbn [orb from_option id]. now rewrite int_of_int. }
  split; [exact He|].
  intros. unfold run_from_env, run. rewrite He.
  destruct (resolve_window date_start date_end now); reflexivity.
Qed.

Lemma guild_id_text_is_read_back_witness :
  resolve_env (Some "token") (Some " 77 ") = Ok 77.
Proof.
  destruct (guild_id_text_is_read_back "token" " " " " 77) as [H _];
    [discriminate | reflexivity | reflexivity | vm_compute; discriminate | exact H].
Defined.










(** ** Names that fit *)

Lemma utf8_len_append (a b : string) :
  PyStr.utf8_len (a +:+ b) = PyStr.utf8_len a + PyStr.utf8_len b.
Proof.
  induction a as [|c a IH]; cbn [String.append PyStr.utf8_len]; [reflexivity|].
  rewrite IH. lia.
Qed.

Lemma lower_hex_one_byte (c : ascii) :
  PyStr.is_lower_hex c = true -> Nat.ltb (nat_of_ascii c) 128 = true.
Proof. destruct c as [[] [] [] [] [] [] [] []]; intros H; try reflexivity; discriminate H. Qed.

Lemma utf8_len_hex (s : string) :
  PyStr.all PyStr.is_lower_hex s = true -> PyStr.utf8_len s = Z.of_nat (String.length s).
Proof.
  induction s as [|c s IH]; cbn [PyStr.all PyStr.utf8_len String.length]; [reflexivity|].
  rewrite andb_true_iff. intros [Hc Hs]. rewrite (lower_hex_one_byte c Hc), (IH Hs). lia.
Qed.

(** Whether the stored name fits is a matter of the extension alone. *)
Lemma name_fits_att (msg : message) (att : attachment) : name_fits msg att = att_fits att.
Proof.
  unfold name_fits, att_fits, dest_of.
  rewrite dest_in_download_dir, name_of_dest, compute_filename_unfold.
  unfold Spec.derived_filename, Spec.extension. rewrite utf8_len_append.
  destruct (hex16_shape (msg_author_id msg) (att_id att) (msg_created_at msg)) as [Hlen Hall].
  now rewrite (utf8_len_hex _ Hall), Hlen.
Qed.

Lemma path_exists_fits (disk : gmap string string) (msg : message) (att : attachment)
    (found : bool) :
  path_exists disk (dest_of msg att) = Ok found -> att_fits att = true.
Proof.
  rewrite <- (name_fits_att msg att). unfold path_exists, name_fits.
  destruct (Z.ltb_spec NAME_MAX (PyStr.utf8_len (PyPath.name (dest_of msg att))));
    [discriminate|].
  intros _. now apply Z.leb_le.
Qed.


Lemma path_exists_too_long (disk : gmap string string) (msg : message) (att : attachment) :
  att_fits att = false ->
  path_exists disk (dest_of msg att) = Raise (OSError "[Errno 36] File name too long").
Proof.
  rewrite <- (name_fits_att msg att). unfold path_exists, name_fits. intros H.
  apply Z.leb_gt in H.
  destruct (Z.ltb_spec NAME_MAX (PyStr.utf8_len (PyPath.name (dest_of msg att))));
    [reflexivity | lia].
Qed.

(** ** Accounting for a run *)

Lemma count_events_app (p : event -> bool) (l1 l2 : list event) :
  count_events p (l1 ++ l2) = count_events p l1 + count_events p l2.
Proof. unfold count_events. rewrite List.filter_app, length_app. lia. Qed.

Lemma accounts_refl (st : state) : accounts st st [] 0 [].
Proof.
  exists [], []. rewrite !app_nil_r.
  split; [reflexivity|]. split; [reflexivity|]. split; [reflexivity|].
  split; [intros r []|]. split; [intros p Hn [x Hx]; congruence|].
  split; [intros id dest []|]. split; [intros a []|].
  unfold count_events. cbn [List.filter length Z.of_nat].
  repeat split; lia.
Qed.

Lemma accounts_trans (st st' st'' : state) (l1 l2 : list attachment) (n1 n2 : Z)
    (q1 q2 : list event) :
  accounts st st' l1 n1 q1 -> accounts st' st'' l2 n2 q2 ->
  accounts st st'' (l1 ++ l2) (n1 + n2) (q1 ++ q2).
Proof.
  intros (r1 & e1 & M1 & L1 & D1 & R1 & F1 & G1 & K1 & S1 & N1 & T1 & C1 & Q1)
         (r2 & e2 & M2 & L2 & D2 & R2 & F2 & G2 & K2 & S2 & N2 & T2 & C2 & Q2).
  exists (r1 ++ r2)%list, (e1 ++ e2)%list.
  rewrite !count_events_app, List.filter_app, length_app, Nat2Z.inj_add.
  split; [now rewrite M2, M1, app_assoc|].
  split; [now rewrite L2, L1, app_assoc|].
  split; [now transitivity (st_disk st')|].
  split.
  { intros r Hr. apply in_app_iff in Hr as [Hr|Hr].
    - destruct (R1 r Hr) as [(a & Ha & Hk & Hf) Hs]. split.
      + exists a. split; [apply in_app_iff; now left | split; assumption].
      + destruct Hs as [x Hx]. exists x. exact (lookup_weaken _ _ _ _ Hx D2).
    - destruct (R2 r Hr) as [(a & Ha & Hk & Hf) Hs]. split; [|exact Hs].
      exists a. split; [apply in_app_iff; now right | split; assumption]. }
  split.
  { intros p Hn Hs. destruct (st_disk st' !! p) as [x|] eqn:E.
    - apply (F1 p Hn). now exists x.
    - exact (F2 p E Hs). }
  split.
  { intros id dest Hin. apply in_app_iff in Hin as [Hin|Hin]; [exact (G1 id dest Hin)|].
    destruct (G2 id dest Hin) as [Hk Hd]. split.
    - rewrite M1, has_key_app in Hk. now apply orb_false_iff in Hk as [Hk _].
    - destruct (st_disk st !! dest) as [x|] eqn:E; [|reflexivity].
      rewrite (lookup_weaken _ _ _ _ E D1) in Hd. discriminate. }
  split.
  { intros a Ha. apply in_app_iff in Ha as [Ha|Ha]; [|exact (K2 a Ha)].
    destruct (K1 a Ha) as [Hf|Hk]; [now left|]. right.
    rewrite M2, has_key_app, Hk. reflexivity. }
  repeat split; try lia. now rewrite Q1, Q2.
Qed.

Lemma dest_string (msg : message) (att : attachment) :
  PyPath.to_string (dest_of msg att)
  = "discord-downloads/"
    +:+ compute_filename (msg_author_id msg) (msg_created_at msg) (att_id att)
          (att_filename att).
Proof. unfold dest_of. rewrite dest_in_download_dir. reflexivity. Qed.

Lemma dest_inside (msg : message) (att : attachment) :
  inside_download_dir (PyPath.to_string (dest_of msg att)).
Proof.
  rewrite dest_string. eexists. split; [reflexivity | apply compute_filename_no_sep].
Qed.

Lemma path_exists_true (disk : gmap string string) (p : PyPath.path) :
  path_exists disk p = Ok true -> is_Some (disk !! PyPath.to_string p).
Proof.
  unfold path_exists. destruct (NAME_MAX <? _); [discriminate|].
  destruct (disk !! PyPath.to_string p); [eauto | discriminate].
Qed.

Lemma new_file_at (disk : gmap string string) (k d p : string) :
  disk !! p = None -> is_Some (<[k := d]> disk !! p) -> p = k.
Proof.
  intros Hn Hs. destruct (decide (k = p)) as [->|Hne]; [reflexivity|].
  rewrite lookup_insert_ne in Hs by assumption. rewrite Hn in Hs. destruct Hs; discriminate.
Qed.

Lemma process_attachment_accounts
    (env : remote) (g : guild) (ch : channel) (msg : message) (created_utc : datetime)
    (st st' : state) (att : attachment) :
  process_attachment env g ch msg created_utc st att = Ok st' ->
  accounts st st' (if is_media att then [att] else []) 0 [].
Proof.
  intros E.
  destruct (process_attachment_cases env g ch msg created_utc st att)
    as [(Hm & Hs) | [(Hm & Hk & Hs) | [(Hm & Hk & Hx & Hs) | [(Hm & Hk & Hx & d & Hd & Hs)
       | [(Hm & Hk & Hx & p & Hp & Hs) | (Hm & Hk & e & Hx & Hs)]]]]];
    rewrite Hs in E; [injection E as <-..|discriminate]; rewrite Hm.
  - apply accounts_refl.
  - exists [], []. st_simpl. rewrite !app_nil_r.
    split; [reflexivity|]. split; [reflexivity|]. split; [reflexivity|].
    split; [intros r []|]. split; [intros q Hn [x Hx']; congruence|].
    split; [intros id dest []|].
    split; [intros a [<-|[]]; now right|].
    unfold count_events. cbn [List.filter length Z.of_nat]. repeat split; lia.
  - pose proof (path_exists_fits _ _ _ _ Hx) as Hfit.
    exists [row_of g ch msg created_utc att], []. st_simpl. rewrite !app_nil_r.
    split; [reflexivity|]. split; [reflexivity|]. split; [reflexivity|].
    split.
    { intros r [<-|[]]. split; [exists att; split; [now left | split; [reflexivity|exact Hfit]]|].
      unfold file_of_row, row_of. cbn [r_filename]. rewrite <- dest_string.
      now apply path_exists_true. }
    split; [intros q Hn [x Hx']; congruence|].
    split; [intros id dest []|].
    split; [intros a [<-|[]]; now left|].
    unfold count_events. cbn [List.filter length Z.of_nat]. repeat split; lia.
  - pose proof (path_exists_fits _ _ _ _ Hx) as Hfit.
    exists [row_of g ch msg created_utc att],
           [CallSave (att_id att) (PyPath.to_string (dest_of msg att));
            PrintSaved (PyPath.name (dest_of msg att))].
    st_simpl. rewrite <- app_assoc.
    split; [reflexivity|]. split; [reflexivity|].
    split; [apply insert_subseteq; now apply path_exists_false|].
    split.
    { intros r [<-|[]]. split; [exists att; split; [now left | split; [reflexivity|exact Hfit]]|].
      unfold file_of_row, row_of. cbn [r_filename]. rewrite <- dest_string.
      rewrite lookup_insert_eq. eauto. }
    split.
    { intros q Hn Hq. apply new_file_at in Hq; [|assumption]. subst q. apply dest_inside. }
    split.
    { intros id dest [E|[E|[]]]; [injection E as <- <- | discriminate E].
      split; [exact Hk | now apply path_exists_false]. }
    split; [intros a [<-|[]]; now left|].
    unfold count_events. cbn [List.filter length Z.of_nat is_saved_line is_save_call
                              is_save_error_line is_history_call].
    repeat split; lia.
  - pose proof (path_exists_fits _ _ _ _ Hx) as Hfit.
    exists [], [CallSave (att_id att) (PyPath.to_string (dest_of msg att));
               PrintErrorSaving (att_id att) (msg_id msg)].
    rewrite app_nil_r.
    split; [destruct p; reflexivity|].
    split; [destruct p; st_simpl; rewrite <- app_assoc; reflexivity|].
    split.
    { destruct p; st_simpl; [|reflexivity].
      apply insert_subseteq. now apply path_exists_false. }
    split; [intros r []|].
    split.
    { destruct p; st_simpl.
      - intros q Hn Hq. apply new_file_at in Hq; [|assumption]. subst q. apply dest_inside.
      - intros q Hn [x Hx']. congruence. }
    split.
    { intros id dest [E|[E|[]]]; [injection E as <- <- | discriminate E].
      split; [exact Hk | now apply path_exists_false]. }
    split; [intros a [<-|[]]; now left|].
    unfold count_events. cbn [List.filter length Z.of_nat is_saved_line is_save_call
                              is_save_error_line is_history_call].
    destruct p; st_simpl; repeat split; lia.
Qed.

Lemma process_attachments_accounts
    (env : remote) (g : guild) (ch : channel) (msg : message) (created_utc : datetime)
    (atts : list attachment) (st st' : state) :
  process_attachments env g ch msg created_utc st atts = Ok st' ->
  accounts st st' (List.filter is_media atts) 0 [].
Proof.
  revert st. induction atts as [|a atts IH]; intros st; cbn [process_attachments List.filter].
  - intros [= <-]. apply accounts_refl.
  - destruct (process_attachment env g ch msg created_utc st a) as [st1|] eqn:E1;
      [|discriminate].
    cbn [mbind result_bind]. intros E2.
    pose proof (accounts_trans _ _ _ _ _ _ _ _ _
                  (process_attachment_accounts _ _ _ _ _ _ _ _ E1) (IH _ E2)) as H.
    destruct (is_media a); exact H.
Qed.

Lemma accounts_incr_seen (st : state) : accounts st (incr_seen st) [] 1 [].
Proof.
  exists [], []. st_simpl. rewrite !app_nil_r.
  split; [reflexivity|]. split; [reflexivity|]. split; [reflexivity|].
  split; [intros r []|]. split; [intros q Hn [x Hx']; congruence|].
  split; [intros id dest []|]. split; [intros a []|].
  unfold count_events. cbn [List.filter length Z.of_nat]. repeat split; lia.
Qed.

Lemma process_message_accounts
    (env : remote) (start_dt end_dt : datetime) (g : guild) (ch : channel)
    (st st' : state) (msg : message) :
  process_message env start_dt end_dt g ch st msg = Ok st' ->
  accounts st st' (media_of_message start_dt end_dt msg) 1 [].
Proof.
  unfold process_message, media_of_message.
  destruct (msg_attachments msg) as [|a atts] eqn:Ea.
  - intros [= <-]. apply accounts_incr_seen.
  - destruct (in_window start_dt end_dt (replace_tz_utc (msg_created_at msg))); cbn [negb].
    + intros E.
      apply (accounts_trans _ _ _ [] _ 1 0 [] [] (accounts_incr_seen st)
               (process_attachments_accounts _ _ _ _ _ _ _ _ E)).
    + intros [= <-]. apply accounts_incr_seen.
Qed.

Lemma process_messages_accounts
    (env : remote) (start_dt end_dt : datetime) (g : guild) (ch : channel)
    (msgs : list message) (st st' : state) :
  process_messages env start_dt end_dt g ch st msgs = Ok st' ->
  accounts st st' (media_of_messages start_dt end_dt msgs) (Z.of_nat (length msgs)) [].
Proof.
  revert st. induction msgs as [|m msgs IH]; intros st; cbn [process_messages].
  - intros [= <-]. apply accounts_refl.
  - destruct (process_message env start_dt end_dt g ch st m) as [st1|] eqn:E1; [|discriminate].
    cbn [mbind result_bind]. intros E2.
    pose proof (accounts_trans _ _ _ _ _ _ _ _ _
                  (process_message_accounts _ _ _ _ _ _ _ _ E1) (IH _ E2)) as H.
    cbn [length]. rewrite Nat2Z.inj_succ. replace (Z.succ (Z.of_nat (length msgs)))
      with (1 + Z.of_nat (length msgs)) by lia.
    exact H.
Qed.

(** Printing lines changes nothing but the log. *)
Lemma accounts_log (evs : list event) (st : state) :
  Forall (fun e => is_saved_line e = false /\ is_save_call e = false
                   /\ is_save_error_line e = false) evs ->
  accounts st (log evs st) [] 0 (List.filter is_history_call evs).
Proof.
  intros H. exists [], evs. st_simpl. rewrite !app_nil_r.
  split; [reflexivity|]. split; [reflexivity|]. split; [reflexivity|].
  split; [intros r []|]. split; [intros q Hn [x Hx']; congruence|].
  split.
  { intros id dest Hin. rewrite List.Forall_forall in H.
    destruct (H _ Hin) as (_ & Hcall & _). discriminate Hcall. }
  split; [intros a []|].
  assert (Hc : count_events is_saved_line evs = 0 /\ count_events is_save_call evs = 0
               /\ count_events is_save_error_line evs = 0).
  { unfold count_events. induction H as [|e l (H1 & H2 & H3) _ IH]; [repeat split|].
    cbn [List.filter]. now rewrite H1, H2, H3. }
  destruct Hc as (-> & -> & ->). repeat split; lia.
Qed.

Lemma process_channel_accounts
    (env : remote) (start_dt end_dt after before : datetime) (g : guild)
    (st st' : state) (ch : channel) :
  process_channel env start_dt end_dt after before g st ch = Ok st' ->
  accounts st st'
    (media_of_messages start_dt end_dt (delivered env after before ch))
    (Z.of_nat (length (delivered env after before ch)))
    [CallHistory (ch_id ch) after before].
Proof.
  unfold process_channel, delivered.
  set (st0 := log [PrintChannel (ch_id ch); CallHistory (ch_id ch) after before] st).
  assert (H0 : accounts st st0 [] 0 [CallHistory (ch_id ch) after before]).
  { apply (accounts_log [PrintChannel (ch_id ch); CallHistory (ch_id ch) after before]).
    repeat constructor. }
  destruct (bounded_history env ch after before) as [msgs f]. cbn [fst].
  destruct (process_messages env start_dt end_dt g ch st0 msgs) as [st1|] eqn:E1;
    [|discriminate].
  cbn [mbind result_bind]. intros [= <-].
  pose proof (accounts_trans _ _ _ _ _ _ _ _ _ H0
                (process_messages_accounts _ _ _ _ _ _ _ _ E1)) as H. cbn [app] in H.
  rewrite Z.add_0_l in H.
  destruct f as [[|e]|]; [| |exact H].
  - pose proof (accounts_trans _ _ _ _ _ _ _ _ _ H
                  (accounts_log [PrintSkippingForbidden (ch_id ch)] st1
                     ltac:(repeat constructor))) as H'.
    cbn [List.filter is_history_call app] in H'. rewrite app_nil_r, Z.add_0_r in H'. exact H'.
  - pose proof (accounts_trans _ _ _ _ _ _ _ _ _ H
                  (accounts_log [PrintHttpError (ch_id ch) e] st1
                     ltac:(repeat constructor))) as H'.
    cbn [List.filter is_history_call app] in H'. rewrite app_nil_r, Z.add_0_r in H'. exact H'.
Qed.

Lemma process_channels_accounts
    (env : remote) (start_dt end_dt after before : datetime) (g : guild)
    (chs : list channel) (st st' : state) :
  process_channels env start_dt end_dt after before g st chs = Ok st' ->
  accounts st st'
    (flat_map (fun ch => media_of_messages start_dt end_dt (delivered env after before ch))
              chs)
    (Z.of_nat (length (flat_map (delivered env after before) chs)))
    (map (fun ch => CallHistory (ch_id ch) after before) chs).
Proof.
  revert st. induction chs as [|c chs IH]; intros st; cbn [process_channels flat_map map].
  - intros [= <-]. apply accounts_refl.
  - destruct (process_channel env start_dt end_dt after before g st c) as [st1|] eqn:E1;
      [|discriminate].
    cbn [mbind result_bind]. intros E2.
    pose proof (accounts_trans _ _ _ _ _ _ _ _ _
                  (process_channel_accounts _ _ _ _ _ _ _ _ _ E1) (IH _ E2)) as H.
    rewrite length_app, Nat2Z.inj_add. exact H.
Qed.

(** What a scan that ran to its end did. *)
Lemma on_ready_accounts
    (env : remote) (w : window) (client_guilds : list guild) (guild_id : Z)
    (conn : table) (disk : gmap string string) (g : guild) (st : state) :
  List.find (fun g => g_id g =? guild_id) client_guilds = Some g ->
  on_ready env (w_start w) (w_end w) (w_after w) (w_before w) client_guilds guild_id conn disk
  = Ok st ->
  accounts (State conn disk 0 0 0 []) st (media_met env w g)
    (Z.of_nat (length (delivered_in env w g))) (queries_of w g)
  /\ exists evs, st_log st = (evs ++ [summary_of st])%list.
Proof.
  intros Hg. unfold on_ready. rewrite Hg.
  set (st0 := State conn disk 0 0 0 []).
  pose proof (accounts_log [PrintScanning (g_id g)] st0 ltac:(repeat constructor)) as H0.
  fold (readable g).
  destruct (process_channels env (w_start w) (w_end w) (w_after w) (w_before w) g
              (log [PrintScanning (g_id g)] st0) (readable g)) as [st1|] eqn:E1;
    [|discriminate].
  cbn [mbind result_bind]. intros [= <-]. split.
  - pose proof (accounts_trans _ _ _ _ _ _ _ _ _ H0
                  (process_channels_accounts _ _ _ _ _ _ _ _ _ E1)) as H.
    pose proof (accounts_trans _ _ _ _ _ _ _ _ _ H
                  (accounts_log [summary_of st1] st1 ltac:(repeat constructor))) as H'.
    cbn [List.filter is_history_call summary_of app] in H'.
    rewrite !app_nil_r, Z.add_0_l, Z.add_0_r in H'. exact H'.
  - exists (st_log st1). reflexivity.
Qed.

(** A run whose dates resolve, whose download directory can be made and
    whose stored names fit ends normally, and this is what it did. *)
Lemma run_accounts
    (date_start : string) (date_end : option string) (now : datetime) (guild_id : Z)
    (env : remote) (client_guilds : list guild) (db : option table)
    (disk : gmap string string) (w : window) (g : guild) :
  resolve_window date_start date_end now = Ok w ->
  disk !! "discord-downloads" = None ->
  names_fit client_guilds = true ->
  List.find (fun g => g_id g =? guild_id) client_guilds = Some g ->
  exists st,
    run date_start date_end now guild_id env client_guilds db disk = Ok st
    /\ accounts (State (db_init db) disk 0 0 0 []) st (media_met env w g)
         (Z.of_nat (length (delivered_in env w g))) (queries_of w g)
    /\ exists evs, st_log st = (evs ++ [summary_of st])%list.
Proof.
  intros Hw Hdir Hfit Hg. rewrite (run_on_made_dir _ _ _ _ _ _ _ _ _ Hw Hdir).
  destruct (on_ready_returns env (w_start w) (w_end w) (w_after w) (w_before w)
              client_guilds guild_id (db_init db) disk Hfit) as [st E].
  exists st. split; [exact E|]. exact (on_ready_accounts _ _ _ _ _ _ _ _ Hg E).
Qed.

(** X1: a run whose download directory can be made and whose stored names
    fit ends normally when it finds its guild, and its three counters
    account for everything it met. *)
Theorem run_counters_account_for_every_attachment
    (date_start : string) (date_end : option string) (now : datetime) (guild_id : Z)
    (env : remote) (client_guilds : list guild) (db : option table)
    (disk : gmap string string) (w : window) (g : guild) :
  resolve_window date_start date_end now = Ok w ->
  disk !! "discord-downloads" = None ->
  names_fit client_guilds = true ->
  List.find (fun g => g_id g =? guild_id) client_guilds = Some g ->
  exists st,
    run date_start date_end now guild_id env client_guilds db disk = Ok st
    /\ total_seen st = Z.of_nat (length (delivered_in env w g))
    /\ total_downloaded st + total_skipped st + count_events is_save_error_line (st_log st)
       = Z.of_nat (length (media_met env w g))
    /\ total_downloaded st = count_events is_saved_line (st_log st)
    /\ count_events is_save_call (st_log st)
       = total_downloaded st + count_events is_save_error_line (st_log st)
    /\ exists evs, st_log st = (evs ++ [summary_of st])%list.
Proof.
  intros Hw Hdir Hfit Hg.
  destruct (run_accounts date_start date_end now guild_id env client_guilds db disk w g
              Hw Hdir Hfit Hg)
    as (st & E & (rows & evs & _ & Hl & _ & _ & _ & _ & _ & Hseen & Hdown & Hskip & Hcall & _)
             & Hsum).
  exists st. cbn [st_log total_seen total_downloaded total_skipped app] in *.
  rewrite Hl. split; [exact E|]. repeat split; try lia. rewrite <- Hl. exact Hsum.
Qed.

Lemma run_counters_account_for_every_attachment_witness :
  exists st,
    run "2025-11-05" (Some "2025-11-09") Sample.now 77 Sample.env_photo_fails [Sample.guild]
        None ∅ = Ok st
    /\ total_seen st = 1 /\ total_downloaded st = 1 /\ total_skipped st = 0
    /\ count_events is_save_error_line (st_log st) = 1.
Proof.
  destruct (run_counters_account_for_every_attachment
              "2025-11-05" (Some "2025-11-09") Sample.now 77 Sample.env_photo_fails
              [Sample.guild] None ∅ Sample.window Sample.guild)
    as (st & E & _);
    [vm_compute; reflexivity | reflexivity | vm_compute; reflexivity | reflexivity |].
  exists st. split; [exact E|].
  vm_compute in E. injection E as <-. vm_compute. repeat split.
Defined.



(** X3: such a run only appends to the manifest: the rows it found stay
    first and unchanged, the primary key is kept, and every row it adds
    belongs to a media attachment of a delivered in-window message and has
    its file in the download directory when the run ends. *)
Theorem manifest_grows_only_by_media_with_files
    (date_start : string) (date_end : option string) (now : datetime) (guild_id : Z)
    (env : remote) (client_guilds : list guild) (db : option table)
    (disk : gmap string string) (w : window) (g : guild) :
  resolve_window date_start date_end now = Ok w ->
  disk !! "discord-downloads" = None ->
  names_fit client_guilds = true ->
  List.find (fun g => g_id g =? guild_id) client_guilds = Some g ->
  exists st rows,
    run date_start date_end now guild_id env client_guilds db disk = Ok st
    /\ st_manifest st = (db_init db ++ rows)%list
    /\ (unique_keys (db_init db) -> unique_keys (st_manifest st))
    /\ forall r, In r rows ->
         (exists a, In a (media_met env w g) /\ r_attachment_id r = PyStr.of_int (att_id a))
         /\ is_Some (st_disk st !! file_of_row r).
Proof.
  intros Hw Hdir Hfit Hg.
  destruct (run_accounts date_start date_end now guild_id env client_guilds db disk w g
              Hw Hdir Hfit Hg)
    as (st & E & (rows & evs & Hm & _ & _ & Hr & _) & _).
  exists st, rows. split; [exact E|]. split; [exact Hm|]. split.
  - apply run_inv in E as (w' & _ & _ & E).
    exact (proj1 (on_ready_keeps _ _ _ _ _ _ _ _ _ _ E)).
  - intros r Hin. destruct (Hr r Hin) as [(a & Ha & Hk & _) Hf]. split; [eauto | exact Hf].
Qed.

Lemma manifest_grows_only_by_media_with_files_witness :
  exists st rows,
    run "2025-11-05" (Some "2025-11-09") Sample.now 77 Sample.env_photo_fails [Sample.guild]
        None ∅ = Ok st
    /\ st_manifest st = rows
    /\ map r_attachment_id rows = ["1002"].
Proof.
  destruct (manifest_grows_only_by_media_with_files
              "2025-11-05" (Some "2025-11-09") Sample.now 77 Sample.env_photo_fails
              [Sample.guild] None ∅ Sample.window Sample.guild)
    as (st & rows & E & Hm & _);
    [vm_compute; reflexivity | reflexivity | vm_compute; reflexivity | reflexivity |].
  exists st, rows. split; [exact E|]. split; [exact Hm|].
  vm_compute in E. injection E as <-. cbn [st_manifest db_init app] in Hm. subst rows.
  reflexivity.
Defined.



(** X5: the padded query loses nothing and adds little: without a fault
    every message of the channel inside the inclusive window is delivered,
    and a delivered message is never more than a second outside it. *)
Theorem padded_query_covers_the_window
    (date_start : string) (date_end : option string) (now : datetime) (w : window)
    (env : remote) (ch : channel) (m : message) :
  valid now = true ->
  resolve_window date_start date_end now = Ok w ->
  valid (msg_created_at m) = true ->
  (fault env ch = None -> In m (ch_messages ch) ->
   in_window (w_start w) (w_end w) (replace_tz_utc (msg_created_at m)) = true ->
   In m (delivered env (w_after w) (w_before w) ch))
  /\ (In m (delivered env (w_after w) (w_before w) ch) ->
      In m (ch_messages ch)
      /\ to_us (w_start w) - 1000000 < to_us (msg_created_at m) < to_us (w_end w) + 1000000).
Proof.
  intros Hnow Hw Hv.
  destruct (resolve_window_bounds _ _ _ _ (or_introl Hnow) Hw)
    as (Hvs & Hve & Hva & Hvb & Ha & Hb).
  unfold delivered, bounded_history, history, in_window, replace_tz_utc. split.
  - intros Hf Hin Hwin. rewrite Hf. cbn [fst]. apply filter_In. split; [exact Hin|].
    apply andb_true_iff in Hwin as [H1 H2].
    apply (le_to_us _ _ Hvs Hv) in H1. apply (le_to_us _ _ Hv Hve) in H2.
    apply andb_true_iff. split; [apply (lt_to_us _ _ Hva Hv) | apply (lt_to_us _ _ Hv Hvb)]; lia.
  - intros Hin.
    assert (Hin' : In m (List.filter
                           (fun m => (lt (w_after w) (msg_created_at m)
                                      && lt (msg_created_at m) (w_before w))%bool)
                           (ch_messages ch))).
    { destruct (fault env ch) as [[n f]|]; cbn [fst] in Hin; [|exact Hin].
      apply list_elem_of_In. apply (subseteq_take n). now apply list_elem_of_In. }
    apply filter_In in Hin' as [Hm Hb']. split; [exact Hm|].
    apply andb_true_iff in Hb' as [H1 H2].
    apply (lt_to_us _ _ Hva Hv) in H1. apply (lt_to_us _ _ Hv Hvb) in H2. lia.
Qed.

Lemma padded_query_covers_the_window_witness :
  In Sample.post
     (delivered Sample.env_ok (Datetime 2025 11 4 23 59 59 0)
                (Datetime 2025 11 10 0 0 0 999999) Sample.general).
Proof.
  destruct (padded_query_covers_the_window
              "2025-11-05" (Some "2025-11-09") Sample.now Sample.window
              Sample.env_ok Sample.general Sample.post)
    as [H _]; [reflexivity | vm_compute; reflexivity | reflexivity |].
  apply H; [reflexivity | now left | reflexivity].
Defined.

(** X13: such a run never fetches what it already has: every download it
    calls is for an attachment the manifest did not record and writes to a
    path that held no file when the run started, so no file is overwritten. *)
Theorem run_never_fetches_what_it_already_has
    (date_start : string) (date_end : option string) (now : datetime) (guild_id : Z)
    (env : remote) (client_guilds : list guild) (db : option table)
    (disk : gmap string string) (w : window) :
  resolve_window date_start date_end now = Ok w ->
  disk !! "discord-downloads" = None ->
  names_fit client_guilds = true ->
  exists st,
    run date_start date_end now guild_id env client_guilds db disk = Ok st
    /\ forall id dest, In (CallSave id dest) (st_log st) ->
         db_has_attachment (db_init db) id = false /\ disk !! dest = None.
Proof.
  intros Hw Hdir Hfit.
  destruct (List.find (fun g => g_id g =? guild_id) client_guilds) as [g|] eqn:Hg.
  - destruct (run_accounts date_start date_end now guild_id env client_guilds db disk w g
                Hw Hdir Hfit Hg) as (st & E & (rows & evs & _ & Hl & _ & _ & _ & Hc & _) & _).
    exists st. split; [exact E|]. cbn [st_log st_manifest st_disk app] in *.
    rewrite Hl. intros id dest Hin. rewrite db_has_attachment_has_key. exact (Hc id dest Hin).
  - rewrite (run_on_made_dir _ _ _ _ _ _ _ _ _ Hw Hdir). unfold on_ready. rewrite Hg.
    eexists. split; [reflexivity|]. st_simpl. intros id dest [E|[]]. discriminate E.
Qed.

Lemma run_never_fetches_what_it_already_has_witness :
  Sample.disk_with_photo !! "discord-downloads/4784a7c27725ca0b.mp4" = None.
Proof.
  destruct (run_never_fetches_what_it_already_has
              "2025-11-05" (Some "2025-11-09") Sample.now 77 Sample.env_ok
              [Sample.guild] None Sample.disk_with_photo Sample.window)
    as (st & E & H);
    [vm_compute; reflexivity | vm_compute; reflexivity | vm_compute; reflexivity |].
  apply (H 1002). vm_compute in E. injection E as <-. vm_compute. tauto.
Defined.

(** ** A name the file system does not take *)







